(** * integrate_anndata: reindexing, feature concatenation and feature
    intersection of annotated matrices

    A shallow embedding of [bin/integrate_anndata.py].  Python exceptions
    are values of [error] (its last value, [Unmodelled], marks the two places
    where numpy leaves the arithmetic described here); the AnnData objects
    that the two public entry points receive and return live in an explicit
    object heap, so that in-place assignment and object identity are
    visible; the file system is a read-only map from paths to stored
    datasets. *)

From Stdlib Require Import ZArith List String Ascii Bool Lia Arith.
From Stdlib Require Import DecimalString.
From Stdlib Require DecimalPos OrderedTypeEx Sorted.
Import ListNotations.
Open Scope string_scope.
Open Scope list_scope.
Open Scope Z_scope.

Set Implicit Arguments.

(** ** Exceptions and the error monad *)

Inductive error : Type :=
| KeyError            (* missing column, obsm key, feature name or zarr group *)
| ValueError          (* int() of a non-integer string, shape errors of numpy/anndata/pandas *)
| OverflowError       (* Python int too large for int64 *)
| AssertionError      (* the [assert] of concat_matrices *)
| AttributeError      (* ndarray used where a DataFrame is expected *)
| IndexError          (* sequence index out of range *)
| InvalidIndexError   (* pandas: reindexing a non-unique axis *)
| OSError             (* h5py: a path that cannot be opened as an HDF5 file *)
| PathNotFoundError   (* zarr: nothing to read at the path *)
| FSPathExistNotDir   (* zarr: the path of a store is a regular file *)
| Unmodelled.         (* no exception: an offset outside int64, a value beyond float32 *)

Inductive result (A : Type) : Type :=
| Ok (a : A)
| Err (e : error).
Arguments Ok {A} a.
Arguments Err {A} e.

Definition bind {A B} (r : result A) (f : A -> result B) : result B :=
  match r with
  | Ok a => f a
  | Err e => Err e
  end.

Notation "x <- c ;; k" := (bind c (fun x => k))
  (at level 61, c at next level, right associativity).

Fixpoint mapM {A B} (f : A -> result B) (l : list A) : result (list B) :=
  match l with
  | [] => Ok []
  | a :: l' => b <- f a ;; bs <- mapM f l' ;; Ok (b :: bs)
  end.

Definition of_option {A} (e : error) (o : option A) : result A :=
  match o with
  | Some a => Ok a
  | None => Err e
  end.

(** ** Python strings *)

Module PyStr.

(** [s.startswith(p)] *)
Definition startswith (s p : string) : bool := String.prefix p s.

Fixpoint rev_string (s : string) : string :=
  match s with
  | EmptyString => EmptyString
  | String c s' => (rev_string s' ++ String c EmptyString)%string
  end.

(** [s.endswith(p)] *)
Definition endswith (s p : string) : bool :=
  String.prefix (rev_string p) (rev_string s).

(** [s.split(sep)] for a one-character separator. *)
Fixpoint split_aux (sep : ascii) (cur : string) (s : string) : list string :=
  match s with
  | EmptyString => [rev_string cur]
  | String c s' =>
      if Ascii.eqb c sep then rev_string cur :: split_aux sep EmptyString s'
      else split_aux sep (String c cur) s'
  end.

Definition split (sep : ascii) (s : string) : list string :=
  split_aux sep EmptyString s.

(** [l[i]] on a list. *)
Definition item {A} (l : list A) (i : nat) : result A :=
  of_option IndexError (nth_error l i).

(** [l[-1]] on the (never empty) result of [split]. *)
Definition last_item (l : list string) : string := List.last l EmptyString.

(** [s.replace(pat, repl)]: leftmost non-overlapping occurrences; [skip]
    counts the characters of an occurrence still to be dropped.  Only used
    with a non-empty [pat]. *)
Fixpoint replace_aux (pat repl : string) (skip : nat) (s : string) : string :=
  match s with
  | EmptyString => EmptyString
  | String c s' =>
      match skip with
      | S k => replace_aux pat repl k s'
      | O =>
          if String.prefix pat s
          then (repl ++ replace_aux pat repl (String.length pat - 1) s')%string
          else String c (replace_aux pat repl O s')
      end
  end.

Definition replace (pat repl s : string) : string := replace_aux pat repl O s.

(** [s.rfind(c)], as the number of characters before the last [c]. *)
Fixpoint rfind (c : ascii) (s : string) : option nat :=
  match s with
  | EmptyString => None
  | String a s' =>
      match rfind c s' with
      | Some i => Some (S i)
      | None => if Ascii.eqb a c then Some O else None
      end
  end.

(** [s[i:]] and [s[:i]] *)
Fixpoint drop (i : nat) (s : string) : string :=
  match i, s with
  | O, _ => s
  | S k, String _ s' => drop k s'
  | S _, EmptyString => EmptyString
  end.

Fixpoint take (i : nat) (s : string) : string :=
  match i, s with
  | S k, String c s' => String c (take k s')
  | _, _ => EmptyString
  end.

(** [os.path.basename(p)]: what follows the last slash. *)
Definition basename (p : string) : string :=
  match rfind "/" p with
  | Some i => drop (S i) p
  | None => p
  end.

(** The loop of [posixpath.splitext] that skips the leading dots of the
    file name: [true] when a character other than a dot occurs among the
    [n] characters of [s]. *)
Fixpoint has_non_dot (n : nat) (s : string) : bool :=
  match n, s with
  | S k, String c s' => if Ascii.eqb c "." then has_non_dot k s' else true
  | _, _ => false
  end.

(** [os.path.splitext(p)] *)
Definition splitext (p : string) : string * string :=
  match rfind "." p with
  | None => (p, EmptyString)
  | Some dot =>
      let filename := match rfind "/" p with Some i => S i | None => O end in
      if (filename <=? dot)%nat && has_non_dot (dot - filename) (drop filename p)
      then (take dot p, drop dot p)
      else (p, EmptyString)
  end.

(** Truth value of a string. *)
Definition truthy (s : string) : bool :=
  match s with EmptyString => false | _ => true end.

End PyStr.

(** ** Python [int(str)] and [str(int)] *)

Module PyInt.

(** White space for [int()], among the characters with code 0 to 255: tab
    to carriage return, the space, and the two spaces of Latin-1.  The
    separators with codes 28 to 31 are white space for [str.isspace], not
    for [int()]. *)
Definition is_space (c : ascii) : bool :=
  let n := nat_of_ascii c in
  ((9 <=? n) && (n <=? 13) || (n =? 32) || (n =? 133) || (n =? 160))%nat.

Definition digit_of (c : ascii) : option Z :=
  let n := nat_of_ascii c in
  if ((48 <=? n) && (n <=? 57))%nat then Some (Z.of_nat (n - 48)) else None.

Fixpoint lstrip (s : string) : string :=
  match s with
  | String c s' => if is_space c then lstrip s' else s
  | EmptyString => s
  end.

Fixpoint all_space (s : string) : bool :=
  match s with
  | String c s' => is_space c && all_space s'
  | EmptyString => true
  end.

(** The digits after the first one: single underscores may separate digits,
    only white space may follow the last digit. *)
Fixpoint scan_digits (acc : Z) (after_underscore : bool) (s : string) : option Z :=
  match s with
  | EmptyString => if after_underscore then None else Some acc
  | String c s' =>
      match digit_of c with
      | Some d => scan_digits (10 * acc + d) false s'
      | None =>
          if after_underscore then None
          else if Ascii.eqb c "_" then scan_digits acc true s'
          else if all_space s then Some acc
          else None
      end
  end.

(** The default of [sys.get_int_max_str_digits()]: [int()] refuses a text
    with more digits, leading zeros counted. *)
Definition max_str_digits : nat := 4300.

Fixpoint count_digits (s : string) : nat :=
  match s with
  | EmptyString => O
  | String c s' =>
      match digit_of c with
      | Some _ => S (count_digits s')
      | None => count_digits s'
      end
  end.

(** [int(s)]: optional white space, an optional sign, decimal digits. *)
Definition parse (s : string) : option Z :=
  let s1 := lstrip s in
  let '(neg, s2) :=
    match s1 with
    | String "-" r => (true, r)
    | String "+" r => (false, r)
    | _ => (false, s1)
    end in
  match s2 with
  | String c r =>
      match digit_of c with
      | Some d =>
          if (count_digits s2 <=? max_str_digits)%nat
          then option_map (fun v => if neg then - v else v) (scan_digits d false r)
          else None
      | None => None
      end
  | EmptyString => None
  end.

(** [str(z)] *)
Definition to_string (z : Z) : string := NilZero.string_of_int (Z.to_int z).

(** The values of numpy's [int64]. *)
Definition int64_min : Z := - 2 ^ 63.
Definition int64_max : Z := 2 ^ 63 - 1.

Definition in_int64 (z : Z) : bool := (int64_min <=? z) && (z <=? int64_max).

(** Two's complement wrap-around of an int64 array operation. *)
Definition wrap64 (z : Z) : Z := (z + 2 ^ 63) mod 2 ^ 64 - 2 ^ 63.

End PyInt.

(** ** Binary floating point *)

(** The integer [z] rounded to a binary float of [p] bits of precision (24
    for float32, 53 for float64): to nearest, ties to even.  An integer
    below [2 ^ p] in size is kept. *)
Definition round_float (p : Z) (z : Z) : Z :=
  let a := Z.abs z in
  if a <? 2 ^ p then z
  else
    let e := Z.log2 a - (p - 1) in
    let q := a / 2 ^ e in
    let r := a mod 2 ^ e in
    let half := 2 ^ (e - 1) in
    let q' := if (half <? r) || ((r =? half) && Z.odd q) then q + 1 else q in
    Z.sgn z * (q' * 2 ^ e).

(** The largest float32. *)
Definition float32_max : Z := (2 ^ 24 - 1) * 2 ^ 104.

(** The cast of a number to float32.  What rounds beyond the largest
    float32 becomes an infinity, which the entries of a [matrix] cannot
    express. *)
Definition float32 (z : Z) : result Z :=
  let v := round_float 24 z in
  if Z.abs v <=? float32_max then Ok v else Err Unmodelled.

(** ** Data model *)

(** A two-dimensional numeric array.  numpy keeps the shape apart from the
    data, so the column count survives when there are no rows.  Entries are
    whole numbers and the element type of an array is not recorded: of the
    conversions between element types only the explicit cast of the
    companion table to float32 is described. *)
Record matrix : Type := { ncols : nat; rows : list (list Z) }.

Definition nrows (m : matrix) : nat := List.length (rows m).

(** [adata.X]: absent, a dense array, or a scipy sparse matrix in compressed
    row or compressed column storage (given by its entries). *)
Inductive xmatrix : Type :=
| XNone
| XDense (m : matrix)
| XCsr (m : matrix)
| XCsc (m : matrix).

Definition x_matrix (x : xmatrix) : option matrix :=
  match x with
  | XNone => None
  | XDense m | XCsr m | XCsc m => Some m
  end.

(** A numeric pandas DataFrame: the column labels and the name of the
    column axis, if it has one; the row index; the rows. *)
Record dataframe : Type :=
  { df_columns : list string;                       (* df.columns *)
    df_columns_name : option string;                (* df.columns.name *)
    df_index : list string;                         (* df.index *)
    df_rows : list (list Z) }.

(** [df.values] *)
Definition df_values (df : dataframe) : matrix :=
  {| ncols := List.length (df_columns df); rows := df_rows df |}.

(** An entry of [adata.obsm]: a plain array or a DataFrame. *)
Inductive table : Type :=
| ObsmArray (m : matrix)
| ObsmFrame (df : dataframe).

(** [t.shape[0]] *)
Definition shape0 (t : table) : nat :=
  match t with
  | ObsmArray m => nrows m
  | ObsmFrame df => List.length (df_rows df)
  end.

(** A label column of [obs]: a pandas Categorical (its categories in their
    stored order, one optional label per row) or a column of strings;
    [None] is a missing value. *)
Inductive label_column : Type :=
| Categorical (categories : list string) (values : list (option string))
| StringColumn (values : list (option string)).

Definition label_values (c : label_column) : list (option string) :=
  match c with
  | Categorical _ v => v
  | StringColumn v => v
  end.

Record obs_table : Type :=
  { obs_names : list string;                        (* obs.index *)
    obs_cols : list (string * label_column) }.

(** A cell of a [var] column. *)
Inductive cell : Type :=
| VBool (b : bool)
| VStr (s : string)
| VNum (z : Z)
| VNA.                                              (* NaN / missing *)

(** Element types of a [var] column: bool, int64, float64 (the one with
    missing values among its numbers) and object. *)
Inductive dtype : Type := DBool | DInt | DFloat | DObject.

Record column : Type := { col_dtype : dtype; col_cells : list cell }.

Record var_table : Type :=
  { var_names : list string;                        (* var.index *)
    var_cols : list (string * column) }.            (* columns, in order *)

Record Dataset : Type :=
  { X : xmatrix;
    obs : obs_table;
    var : var_table;
    obsm : list (string * table);
    uns : list (string * string) }.

Definition n_obs (d : Dataset) : nat := List.length (obs_names (obs d)).
Definition n_vars (d : Dataset) : nat := List.length (var_names (var d)).

(** Lookup of a key in an ordered collection of named things. *)
Fixpoint lookup {A} (k : string) (l : list (string * A)) : option A :=
  match l with
  | [] => None
  | (k', a) :: l' => if String.eqb k k' then Some a else lookup k l'
  end.

Fixpoint mem (s : string) (l : list string) : bool :=
  match l with
  | [] => false
  | x :: l' => String.eqb s x || mem s l'
  end.

Fixpoint has_dup (l : list string) : bool :=
  match l with
  | [] => false
  | x :: l' => mem x l' || has_dup l'
  end.

(** The invariants of an AnnData object: [X], [obs], [var] and [obsm] agree
    on the two axis lengths, and every column is as long as its index. *)
Definition valid_matrix (m : matrix) : bool :=
  forallb (fun r => (List.length r =? ncols m)%nat) (rows m).

Definition valid_table (n : nat) (t : table) : bool :=
  match t with
  | ObsmArray m => (nrows m =? n)%nat && valid_matrix m
  | ObsmFrame df => (List.length (df_rows df) =? n)%nat && valid_matrix (df_values df)
  end.

Definition valid_x (d : Dataset) : bool :=
  match x_matrix (X d) with
  | None => true
  | Some m => (nrows m =? n_obs d)%nat && (ncols m =? n_vars d)%nat && valid_matrix m
  end.

Definition valid_var (v : var_table) : bool :=
  forallb (fun nc => (List.length (col_cells (snd nc)) =? List.length (var_names v))%nat)
          (var_cols v)
  && negb (has_dup (map fst (var_cols v))).

Definition valid_obs (o : obs_table) : bool :=
  forallb (fun nc => (List.length (label_values (snd nc)) =? List.length (obs_names o))%nat)
          (obs_cols o).

Definition valid_dataset (d : Dataset) : bool :=
  valid_x d && valid_obs (obs d) && valid_var (var d)
  && forallb (fun kt => valid_table (n_obs d) (snd kt)) (obsm d).

(** ** The object heap and the file system *)

(** AnnData objects are referred to by their position in the heap.  An
    object holds its tables by value: which objects share one table is not
    represented. *)
Definition loc : Type := nat.
Definition heap : Type := list Dataset.

Definition deref (h : heap) (r : loc) : option Dataset := nth_error h r.

(** A new object: its reference is one no earlier object has. *)
Definition alloc (h : heap) (d : Dataset) : loc * heap := (List.length h, h ++ [d]).

Fixpoint update (h : heap) (r : loc) (d : Dataset) : heap :=
  match h, r with
  | [], _ => []
  | _ :: h', O => d :: h'
  | x :: h', S r' => x :: update h' r' d
  end.

(** What a path names: a zarr store (a directory), an h5ad file, or some
    other regular file. *)
Inductive entry : Type :=
| ZarrStore (d : Dataset)
| H5adFile (d : Dataset)
| OtherFile.

Definition store : Type := string -> option entry.

(** [os.path.isfile(path)] *)
Definition isfile (st : store) (path : string) : bool :=
  match st path with
  | Some (H5adFile _) | Some OtherFile => true
  | _ => false
  end.

(** The modes in which the code opens a zarr store: [zarr.open(path)] is
    mode "a", [zarr.open(path, "r")] mode "r". *)
Inductive zarr_mode : Type := ModeA | ModeR.

(** [zarr.open(path, mode)], read through to the stored dataset.  Where
    nothing is, mode "r" raises; mode "a" makes an empty group, in which
    anndata then finds no "obs".  The call ends with that exception, and the
    empty store it leaves behind is not recorded: the file system after a
    call is no part of its result. *)
Definition open_zarr (st : store) (path : string) (mode : zarr_mode) : result Dataset :=
  match st path with
  | Some (ZarrStore d) => Ok d
  | Some _ => Err FSPathExistNotDir
  | None =>
      match mode with
      | ModeA => Err KeyError
      | ModeR => Err PathNotFoundError
      end
  end.

(** [h5py.File(path)], read through to the stored dataset. *)
Definition open_h5 (st : store) (path : string) : result Dataset :=
  match st path with
  | Some (H5adFile d) => Ok d
  | _ => Err OSError
  end.

(** [read_anndata(path)] *)
Definition read_anndata (st : store) (path : string) : result Dataset :=
  let is_zarr := String.eqb (snd (PyStr.splitext path)) ".zarr" in
  if is_zarr then open_zarr st path ModeA else open_h5 st path.

(** The [data] argument of the public functions: an AnnData object or a
    path. *)
Inductive data_arg : Type :=
| Obj (r : loc)
| Path (p : string).

(** The common prologue [if isinstance(data, ad.AnnData): adata = data
    else: adata = read_anndata(data)]. *)
Definition resolve_data (st : store) (h : heap) (data : data_arg) : result (loc * heap) :=
  match data with
  | Obj r => match deref h r with Some _ => Ok (r, h) | None => Err KeyError end
  | Path p => d <- read_anndata st p ;; Ok (alloc h d)
  end.

(** ** reindex_anndata *)

(** [index.astype(int)] on one label: [int(label)] stored as int64. *)
Definition astype_int (s : string) : result Z :=
  match PyInt.parse s with
  | None => Err ValueError
  | Some z => if PyInt.in_int64 z then Ok z else Err OverflowError
  end.

(** [(index.astype(int) + offset).astype(str)]: with an offset that is an
    int64 value the sum is int64 arithmetic, which wraps around.  With any
    other offset numpy leaves int64 (for float64 or for Python integers) and
    the call, which succeeds, is outside this description. *)
Definition shift_index (names : list string) (offset : Z) : result (list string) :=
  ints <- mapM astype_int names ;;
  if PyInt.in_int64 offset
  then Ok (map (fun z => PyInt.to_string (PyInt.wrap64 (z + offset))) ints)
  else Err Unmodelled.

Definition set_obs_names (d : Dataset) (names : list string) : Dataset :=
  {| X := X d;
     obs := {| obs_names := names; obs_cols := obs_cols (obs d) |};
     var := var d; obsm := obsm d; uns := uns d |}.

(** [reindex_anndata(data, offset, no_save=True)]: the index of the object's
    [obs] is assigned in place and the object itself is returned. *)
Definition reindex_anndata (st : store) (h : heap) (data : data_arg) (offset : Z)
  : result (loc * heap) :=
  rh <- resolve_data st h data ;;
  let '(r, h1) := rh in
  adata <- of_option KeyError (deref h1 r) ;;
  names <- shift_index (obs_names (obs adata)) offset ;;
  Ok (r, update h1 r (set_obs_names adata names)).

(** ** One-hot encoding: [pd.get_dummies(column, dtype="float32")] *)

Fixpoint insert_sorted (s : string) (l : list string) : list string :=
  match l with
  | [] => [s]
  | x :: l' =>
      match String.compare s x with
      | Lt => s :: l
      | Eq => l
      | Gt => x :: insert_sorted s l'
      end
  end.

Fixpoint present (l : list (option string)) : list string :=
  match l with
  | [] => []
  | Some s :: l' => s :: present l'
  | None :: l' => present l'
  end.

(** The labels that get a column: every category of a Categorical, in the
    stored order of the categories; the sorted distinct values of a column of
    strings.  Missing values get none. *)
Definition levels (c : label_column) : list string :=
  match c with
  | Categorical cats _ => cats
  | StringColumn v => fold_right insert_sorted [] (present v)
  end.

Definition indicator_row (lv : list string) (v : option string) : list Z :=
  map (fun l => match v with
                | Some s => if String.eqb s l then 1 else 0
                | None => 0
                end) lv.

(** The frame has the index of the column, which is that of [obs], and a
    column axis without a name. *)
Definition get_dummies (index : list string) (c : label_column) : dataframe :=
  {| df_columns := levels c;
     df_columns_name := None;
     df_index := index;
     df_rows := map (indicator_row (levels c)) (label_values c) |}.

(** ** Horizontal stacking *)

Fixpoint zip_rows (a b : list (list Z)) : list (list Z) :=
  match a, b with
  | r :: a', s :: b' => (r ++ s) :: zip_rows a' b'
  | _, _ => []
  end.

(** [np.hstack((a, b))] and [scipy.sparse.hstack((a, b))] on two-dimensional
    operands: the row counts must agree. *)
Definition hstack (a b : matrix) : result matrix :=
  if (nrows a =? nrows b)%nat
  then Ok {| ncols := ncols a + ncols b; rows := zip_rows (rows a) (rows b) |}
  else Err ValueError.

(** [isinstance(adata.X, spmatrix)] *)
Definition is_sparse (x : xmatrix) : bool :=
  match x with
  | XCsr _ | XCsc _ => true
  | _ => false
  end.

(** [ext_df.values] *)
Definition table_values (t : table) : result matrix :=
  match t with
  | ObsmFrame df => Ok (df_values df)
  | ObsmArray _ => Err AttributeError
  end.

(** [ext_df.columns] *)
Definition table_columns (t : table) : result (list string) :=
  match t with
  | ObsmFrame df => Ok (df_columns df)
  | ObsmArray _ => Err AttributeError
  end.

(** [ext_df.columns.name] *)
Definition table_columns_name (t : table) : option string :=
  match t with
  | ObsmFrame df => df_columns_name df
  | ObsmArray _ => None
  end.

(** The sparse branch: the table is converted to the storage class of
    [adata.X] (csr for csr, csc otherwise) and stacked to its right. *)
Definition sparse_hstack (x : xmatrix) (values : matrix) : result xmatrix :=
  match x with
  | XCsr m => m' <- hstack m values ;; Ok (XCsr m')
  | XCsc m => m' <- hstack m values ;; Ok (XCsc m')
  | XDense m => m' <- hstack m values ;; Ok (XDense m')
  | XNone => Err ValueError
  end.

(** The dense branch, [np.hstack((adata.X, ext_df.values))]; an absent [X]
    is not a two-dimensional array. *)
Definition dense_hstack (x : xmatrix) (values : matrix) : result xmatrix :=
  match x with
  | XNone => Err ValueError
  | XDense m | XCsr m | XCsc m => m' <- hstack m values ;; Ok (XDense m')
  end.

(** ** Operations on the [var] table *)

Definition is_bool_cell (c : cell) : bool :=
  match c with VBool _ => true | _ => false end.

Definition is_na (c : cell) : bool :=
  match c with VNA => true | _ => false end.

Definition dtype_eqb (a b : dtype) : bool :=
  match a, b with
  | DBool, DBool | DInt, DInt | DFloat, DFloat | DObject, DObject => true
  | _, _ => false
  end.

Definition true_column (n : nat) : column :=
  {| col_dtype := DBool; col_cells := repeat (VBool true) n |}.

Fixpoint set_col (cols : list (string * column)) (name : string) (c : column)
  : list (string * column) :=
  match cols with
  | [] => [(name, c)]
  | (k, c0) :: cols' =>
      if String.eqb name k then (k, c) :: cols' else (k, c0) :: set_col cols' name c
  end.

(** [frame.assign(name=True)]: an existing column is overwritten where it
    stands, a new one goes last. *)
Definition assign_true (t : var_table) (name : string) : var_table :=
  {| var_names := var_names t;
     var_cols := set_col (var_cols t) name (true_column (List.length (var_names t))) |}.

(** The labels [0 .. k-1] of a default RangeIndex, as AnnData keeps them. *)
Definition range_labels (k : nat) : list string :=
  map (fun i => PyInt.to_string (Z.of_nat i)) (seq 0 k).

(** The frame without columns that [columns.to_frame(name).drop(columns=0)]
    leaves: the first positional parameter of [Index.to_frame] is the flag
    [index], so a non-empty [name] makes the labels the row index of the
    frame (an empty one leaves the default RangeIndex). *)
Definition labels_frame (labels : list string) (name : string) : var_table :=
  {| var_names := if PyStr.truthy name then labels else range_labels (List.length labels);
     var_cols := [] |}.

(** [columns.to_frame(name).drop(columns=0)]: the single data column of the
    frame is called after the column axis [axis_name], or [0] when the axis
    has no name; only then is there a column [0] to drop. *)
Definition to_frame_drop (labels : list string) (axis_name : option string)
           (name : string) : result var_table :=
  match axis_name with
  | Some _ => Err KeyError
  | None => Ok (labels_frame labels name)
  end.

(** dtype of a column that received [k] missing rows: numbers become
    float64, booleans Python objects. *)
Definition pad_dtype (d : dtype) (k : nat) : dtype :=
  match k, d with
  | O, _ => d
  | _, DBool => DObject
  | _, DInt => DFloat
  | _, _ => d
  end.

(** dtype of two columns stacked: integers absorb booleans, float64
    absorbs integers, anything else makes an object column. *)
Definition join_dtype (a b : dtype) : dtype :=
  match a, b with
  | DBool, DBool => DBool
  | DInt, DInt | DBool, DInt | DInt, DBool => DInt
  | DFloat, DFloat | DInt, DFloat | DFloat, DInt => DFloat
  | _, _ => DObject
  end.

(** The conversion of a cell when its column goes from dtype [from] to
    dtype [to]: a boolean among integers is 0 or 1, an integer among floats
    is rounded; in an object column a value stays the Python object it
    was. *)
Definition cast_cell (from to : dtype) (c : cell) : cell :=
  match from, to, c with
  | DBool, DInt, VBool b => VNum (if b then 1 else 0)
  | DInt, DFloat, VNum z => VNum (round_float 53 z)
  | _, _, _ => c
  end.

Definition cast_column (to : dtype) (c : column) : list cell :=
  map (cast_cell (col_dtype c) to) (col_cells c).

(** [pd.concat([top, bottom])]: rows are stacked; the columns are those of
    [top] followed by those only [bottom] has; a frame lacking a column
    contributes missing values.  Frames whose column labels differ cannot be
    aligned when a label is repeated. *)
Definition concat_rows (top bottom : var_table) : result var_table :=
  let tn := map fst (var_cols top) in
  let bn := map fst (var_cols bottom) in
  if (has_dup tn || has_dup bn) && negb (if list_eq_dec String.string_dec tn bn then true else false)
  then Err InvalidIndexError
  else
    let nt := List.length (var_names top) in
    let nb := List.length (var_names bottom) in
    let from_top :=
      map (fun nc : string * column =>
             let (n, c) := nc in
             (n, match lookup n (var_cols bottom) with
                 | Some c' =>
                     let t := join_dtype (col_dtype c) (col_dtype c') in
                     {| col_dtype := t;
                        col_cells := cast_column t c ++ cast_column t c' |}
                 | None =>
                     let t := pad_dtype (col_dtype c) nb in
                     {| col_dtype := t;
                        col_cells := cast_column t c ++ repeat VNA nb |}
                 end)) (var_cols top) in
    let only_bottom :=
      map (fun nc : string * column =>
             let (n, c) := nc in
             let t := pad_dtype (col_dtype c) nt in
             (n, {| col_dtype := t;
                    col_cells := repeat VNA nt ++ cast_column t c |}))
          (filter (fun nc : string * column => negb (mem (fst nc) tn)) (var_cols bottom)) in
    Ok {| var_names := var_names top ++ var_names bottom;
          var_cols := from_top ++ only_bottom |}.

Definition fill_cell (c : cell) : cell :=
  match c with VNA => VBool false | _ => c end.

(** [column.fillna(False)]: a float64 column with a missing value becomes
    an object column to hold the [False]; an object column left with
    booleans only is downcast to bool. *)
Definition fillna_column (c : column) : column :=
  let cells := map fill_cell (col_cells c) in
  let downcast := if forallb is_bool_cell cells then DBool else DObject in
  {| col_dtype := match col_dtype c with
                  | DObject => downcast
                  | DFloat => if existsb is_na (col_cells c) then downcast else DFloat
                  | d => d
                  end;
     col_cells := cells |}.

(** [frame[name] = frame[name].fillna(False)] on an existing column. *)
Definition fillna_false (t : var_table) (name : string) : var_table :=
  {| var_names := var_names t;
     var_cols := map (fun nc : string * column =>
                        if String.eqb name (fst nc) then (fst nc, fillna_column (snd nc)) else nc)
                     (var_cols t) |}.

(** [[col for col in adata.var_keys() if adata.var[col].dtype == bool]] *)
Definition bool_columns (t : var_table) : list string :=
  map fst (filter (fun nc : string * column => dtype_eqb (col_dtype (snd nc)) DBool)
                  (var_cols t)).

(** ** The AnnData constructor *)

Definition list_eqb (a b : list string) : bool :=
  if list_eq_dec String.string_dec a b then true else false.

(** What anndata asks of an entry of obsm for an object whose obs index is
    [names]: one row per observation and, of a DataFrame, an index equal to
    [names]. *)
Definition fits_obs (names : list string) (t : table) : bool :=
  (shape0 t =? List.length names)%nat
  && match t with
     | ObsmFrame df => list_eqb (df_index df) names
     | ObsmArray _ => true
     end.

(** [ad.AnnData(X, obs=, var=, obsm=, uns=)]: the parts must agree on the two
    axis lengths, and the entries of obsm must fit the obs index. *)
Definition AnnData (x : xmatrix) (o : obs_table) (v : var_table)
           (om : list (string * table)) (u : list (string * string)) : result Dataset :=
  let shape_ok :=
    match x_matrix x with
    | Some m => (nrows m =? List.length (obs_names o))%nat
                && (ncols m =? List.length (var_names v))%nat
    | None => true
    end in
  if shape_ok && forallb (fun kt => fits_obs (obs_names o) (snd kt)) om
  then Ok {| X := x; obs := o; var := v; obsm := om; uns := u |}
  else Err ValueError.

Definition set_var (d : Dataset) (v : var_table) : Dataset :=
  {| X := X d; obs := obs d; var := v; obsm := obsm d; uns := uns d |}.

(** ** concat_matrices *)

(** [a or b] on an optional string. *)
Definition py_or (a : option string) (b : string) : string :=
  match a with
  | Some s => if PyStr.truthy s then s else b
  | None => b
  end.

(** ["is_{}".format(name)] *)
Definition is_flag (name : string) : string := ("is_" ++ name)%string.

Definition concat_matrices (adata : Dataset) (ext_df : table) (obs_key : string)
           (feature_name : string) (obs_feature_name : option string) : result Dataset :=
  if negb (n_obs adata =? shape0 ext_df)%nat then Err AssertionError
  else
    let obs_feature_name := py_or obs_feature_name obs_key in
    let prev_features_bool := is_flag feature_name in
    let new_features_bool := is_flag obs_feature_name in
    adata_concat <-
      (if is_sparse (X adata) then
         values <- table_values ext_df ;;
         x <- sparse_hstack (X adata) values ;;
         columns <- table_columns ext_df ;;
         frame <- to_frame_drop columns (table_columns_name ext_df) obs_feature_name ;;
         v <- concat_rows (assign_true (var adata) prev_features_bool)
                          (assign_true frame new_features_bool) ;;
         AnnData x (obs adata) v (obsm adata) (uns adata)
       else
         values <- table_values ext_df ;;
         x <- dense_hstack (X adata) values ;;
         columns <- table_columns ext_df ;;
         frame <- to_frame_drop columns (table_columns_name ext_df) obs_feature_name ;;
         v <- concat_rows (assign_true (var adata) prev_features_bool)
                          (assign_true frame new_features_bool) ;;
         AnnData x (obs adata) v (obsm adata) (uns adata)) ;;
    let v1 := fillna_false (var adata_concat) prev_features_bool in
    let v2 := fillna_false v1 new_features_bool in
    let v3 := fold_left fillna_false (bool_columns (var adata)) v2 in
    Ok (set_var adata_concat v3).

(** ** The three annotation sources *)

Definition concat_matrix_from_obs (adata : Dataset) (obs_key : string)
           (feature_name : string) (obs_feature_name : option string) : result Dataset :=
  col <- of_option KeyError (lookup obs_key (obs_cols (obs adata))) ;;
  let ext_matrix := get_dummies (obs_names (obs adata)) col in
  concat_matrices adata (ObsmFrame ext_matrix) obs_key feature_name obs_feature_name.

Definition concat_matrix_from_obsm (adata : Dataset) (obsm_key : string)
           (feature_name : string) (obsm_feature_name : option string) : result Dataset :=
  t <- of_option KeyError (lookup obsm_key (obsm adata)) ;;
  concat_matrices adata t "celltype" feature_name obsm_feature_name.

(** The [sample] argument: Python indexes whatever it is given, a string
    (character by character) or a tuple or list of strings. *)
Inductive pyseq : Type :=
| PStr (s : string)
| PTuple (l : list string).

(** Truth value: an empty string or sequence is false. *)
Definition seq_truthy (s : pyseq) : bool :=
  match s with
  | PStr s => PyStr.truthy s
  | PTuple l => match l with [] => false | _ => true end
  end.

(** [s[i]] *)
Definition getitem (s : pyseq) (i : nat) : result string :=
  match s with
  | PStr s =>
      match String.get i s with
      | Some c => Ok (String c EmptyString)
      | None => Err IndexError
      end
  | PTuple l => PyStr.item l i
  end.

(** [column == value], row by row; a missing value equals nothing. *)
Definition eq_mask (c : label_column) (value : string) : list bool :=
  map (fun v => match v with
                | Some s => String.eqb s value
                | None => false
                end) (label_values c).

(** Selection by a boolean mask. *)
Fixpoint select {A} (mask : list bool) (l : list A) : list A :=
  match mask, l with
  | b :: mask', x :: l' => if b then x :: select mask' l' else select mask' l'
  | _, _ => []
  end.

Definition select_label_column (mask : list bool) (c : label_column) : label_column :=
  match c with
  | Categorical cats v => Categorical cats (select mask v)
  | StringColumn v => StringColumn (select mask v)
  end.

Definition select_table (mask : list bool) (t : table) : table :=
  match t with
  | ObsmArray m => ObsmArray {| ncols := ncols m; rows := select mask (rows m) |}
  | ObsmFrame df => ObsmFrame {| df_columns := df_columns df;
                                 df_columns_name := df_columns_name df;
                                 df_index := select mask (df_index df);
                                 df_rows := select mask (df_rows df) |}
  end.

Definition select_x (mask : list bool) (x : xmatrix) : xmatrix :=
  match x with
  | XNone => XNone
  | XDense m => XDense {| ncols := ncols m; rows := select mask (rows m) |}
  | XCsr m => XCsr {| ncols := ncols m; rows := select mask (rows m) |}
  | XCsc m => XCsc {| ncols := ncols m; rows := select mask (rows m) |}
  end.

(** [adata[mask]]: the observations where the mask holds, in all the parts
    aligned with the observations. *)
Definition subset_obs (d : Dataset) (mask : list bool) : Dataset :=
  {| X := select_x mask (X d);
     obs := {| obs_names := select mask (obs_names (obs d));
               obs_cols := map (fun nc => (fst nc, select_label_column mask (snd nc)))
                               (obs_cols (obs d)) |};
     var := var d;
     obsm := map (fun kt => (fst kt, select_table mask (snd kt))) (obsm d);
     uns := uns d |}.

(** [if sample: c2l_adata = c2l_adata[c2l_adata.obs[sample[0]] == sample[1]]] *)
Definition sample_filter (c2l_adata : Dataset) (sample : option pyseq) : result Dataset :=
  match sample with
  | None => Ok c2l_adata
  | Some s =>
      if seq_truthy s then
        key <- getitem s 0 ;;
        col <- of_option KeyError (lookup key (obs_cols (obs c2l_adata))) ;;
        value <- getitem s 1 ;;
        Ok (subset_obs c2l_adata (eq_mask col value))
      else Ok c2l_adata
  end.

Definition default_q : string := "q05_cell_abundance_w_sf".

(** The companion file is opened with h5py and its obs, var and obsm groups
    make an AnnData without [X]; the table is [obsm[q]] cast to float32, with
    the obs index as its index and with the text
    [q.split("_")[0] + "cell_abundance_w_sf_"] deleted from the column labels
    (taken literally, as it is for the default [q]). *)
Definition concat_matrix_from_cell2location (st : store) (adata : Dataset)
           (c2l_file : string) (q : string) (sample : option pyseq)
           (feature_name : string) (obs_feature_name : option string) : result Dataset :=
  f <- open_h5 st c2l_file ;;
  c2l_adata <- AnnData XNone (obs f) (var f) (obsm f) [] ;;
  c2l_adata <- sample_filter c2l_adata sample ;;
  t <- of_option KeyError (lookup q (obsm c2l_adata)) ;;
  values <- table_values t ;;
  columns <- table_columns t ;;
  q0 <- PyStr.item (PyStr.split "_" q) 0 ;;
  values32 <- mapM (mapM float32) (rows values) ;;
  let c2l_df :=
    {| df_columns := map (PyStr.replace (q0 ++ "cell_abundance_w_sf_")%string EmptyString) columns;
       df_columns_name := table_columns_name t;
       df_index := obs_names (obs c2l_adata);
       df_rows := values32 |} in
  concat_matrices adata (ObsmFrame c2l_df) "celltype" feature_name obs_feature_name.

(** ** concat_features *)

(** [concat_features(data, features, no_save=True)]: the dataset built by one
    of the three sources is a new object; with an address of no recognised
    form the object received is returned as it is. *)
Definition concat_features (st : store) (h : heap) (data : data_arg) (features : string)
  : result (loc * heap) :=
  rh <- resolve_data st h data ;;
  let '(r, h1) := rh in
  adata <- of_option KeyError (deref h1 r) ;;
  if PyStr.endswith features ".h5ad" && isfile st features then
    d <- concat_matrix_from_cell2location st adata features default_q None "gene" None ;;
    Ok (alloc h1 d)
  else if PyStr.startswith features "obs/" then
    key <- PyStr.item (PyStr.split "/" features) 1 ;;
    d <- concat_matrix_from_obs adata key "gene" None ;;
    Ok (alloc h1 d)
  else if PyStr.startswith features "obsm/" then
    key <- PyStr.item (PyStr.split "/" features) 1 ;;
    d <- concat_matrix_from_obsm adata key "gene" None ;;
    Ok (alloc h1 d)
  else Ok (r, h1).

(** ** reindex_and_concat *)

(** [reindex_and_concat(path, offset, features)]: the dataset read at [path]
    is reindexed, then concatenated if [features] is given and not empty.  The
    writer is outside this file; the result is what is handed to it, the
    output name with the dataset. *)
Definition reindex_and_concat (st : store) (path : string) (offset : Z)
           (features : option string) : result (string * Dataset) :=
  adata <- read_anndata st path ;;
  let '(r, h) := alloc [] adata in
  rh <- reindex_anndata st h (Obj r) offset ;;
  rh <- (match features with
         | Some f => if PyStr.truthy f
                     then concat_features st (snd rh) (Obj (fst rh)) f
                     else Ok rh
         | None => Ok rh
         end) ;;
  adata <- of_option KeyError (deref (snd rh) (fst rh)) ;;
  let out_filename :=
    ("reindexed-concat-" ++ fst (PyStr.splitext (PyStr.basename path)))%string in
  Ok (out_filename, adata).

(** ** Feature intersection *)

(** The feature labels of the dataset at [path], read from the zarr store
    when the text after the last dot is [zarr], from the h5ad file
    otherwise. *)
Definition read_var_index (st : store) (path : string) : result (list string) :=
  let is_zarr := String.eqb (PyStr.last_item (PyStr.split "." path)) "zarr" in
  if is_zarr then z <- open_zarr st path ModeR ;; Ok (var_names (var z))
  else f <- open_h5 st path ;; Ok (var_names (var f)).

Fixpoint unique (l : list string) : list string :=
  match l with
  | [] => []
  | x :: l' => x :: filter (fun y => negb (String.eqb x y)) (unique l')
  end.

(** [Index.intersection(other, sort=False)]: the distinct labels of [self]
    that [other] has, in the order of [self]. *)
Definition index_intersection (self other : list string) : list string :=
  unique (filter (fun x => mem x other) self).

(** [pd.concat(series, axis=1, join="inner").index]: nothing to concatenate
    is an error; one series keeps its index; several are aligned on the
    intersection of their indexes, which needs each index free of
    repetitions. *)
Definition inner_join_index (var_indices : list (list string)) : result (list string) :=
  match var_indices with
  | [] => Err ValueError
  | [i] => Ok i
  | i :: others =>
      if existsb has_dup var_indices then Err ValueError
      else Ok (fold_left index_intersection others i)
  end.

Definition get_feature_intersection (st : store) (paths : list string)
  : result (list string) :=
  var_indices <- mapM (read_var_index st) paths ;;
  inner_join_index var_indices.

Fixpoint position (s : string) (l : list string) : option nat :=
  match l with
  | [] => None
  | x :: l' => if String.eqb s x then Some O else option_map S (position s l')
  end.

(** Selection of entries by position; the positions are in range. *)
Definition take_positions {A} (default : A) (ps : list nat) (l : list A) : list A :=
  map (fun p => nth p l default) ps.

Definition take_columns (ps : list nat) (m : matrix) : matrix :=
  {| ncols := List.length ps; rows := map (take_positions 0 ps) (rows m) |}.

Definition take_columns_x (ps : list nat) (x : xmatrix) : xmatrix :=
  match x with
  | XNone => XNone
  | XDense m => XDense (take_columns ps m)
  | XCsr m => XCsr (take_columns ps m)
  | XCsc m => XCsc (take_columns ps m)
  end.

(** [adata[:, names]]: the features called [names], in that order; the
    names are looked up in [var_names], which must be free of repetitions, and
    an unknown name is an error. *)
Definition select_vars (adata : Dataset) (names : list string) : result Dataset :=
  if has_dup (var_names (var adata)) then Err InvalidIndexError
  else
    ps <- mapM (fun s => of_option KeyError (position s (var_names (var adata)))) names ;;
    Ok {| X := take_columns_x ps (X adata);
          obs := obs adata;
          var := {| var_names := take_positions EmptyString ps (var_names (var adata));
                    var_cols := map (fun nc : string * column =>
                                       (fst nc,
                                        {| col_dtype := col_dtype (snd nc);
                                           col_cells := take_positions VNA ps (col_cells (snd nc)) |}))
                                    (var_cols (var adata)) |};
          obsm := obsm adata;
          uns := uns adata |}.

(** [intersect_features] on the given paths: every dataset restricted to the common
    features.  The writer is outside this file; the result lists what is
    handed to it, the output name with the dataset. *)
Definition intersect_features (st : store) (paths : list string)
  : result (list (string * Dataset)) :=
  var_intersect <- get_feature_intersection st paths ;;
  mapM (fun path =>
          adata <- read_anndata st path ;;
          adata <- select_vars adata var_intersect ;;
          let out_filename :=
            ("intersect-" ++ fst (PyStr.splitext (PyStr.basename path)))%string in
          Ok (out_filename, adata)) paths.

(** ** Definitions used in the statements *)

(** The dataset that [concat_matrices] constructs, before the missing flags
    are filled: the two branches of the source differ in the stacking
    function only. *)
Definition stacked (adata : Dataset) (ext_df : table) (prev new_name name : string)
  : result Dataset :=
  values <- table_values ext_df ;;
  x <- (if is_sparse (X adata) then sparse_hstack (X adata) values
        else dense_hstack (X adata) values) ;;
  columns <- table_columns ext_df ;;
  frame <- to_frame_drop columns (table_columns_name ext_df) name ;;
  v <- concat_rows (assign_true (var adata) prev) (assign_true frame new_name) ;;
  AnnData x (obs adata) v (obsm adata) (uns adata).

(** The primary dataset of the scenario: three observations, two features,
    the label column [celltype = [A, B, A]]. *)
Definition scenario_input (o1 o2 o3 g1 g2 : string) (celltype : label_column)
           (u : list (string * string)) : Dataset :=
  {| X := XDense {| ncols := 2; rows := [[1; 2]; [3; 4]; [5; 6]] |};
     obs := {| obs_names := [o1; o2; o3]; obs_cols := [("celltype", celltype)] |};
     var := {| var_names := [g1; g2]; var_cols := [] |};
     obsm := [];
     uns := u |}.

Definition scenario_output (o1 o2 o3 g1 g2 : string) (celltype : label_column)
           (u : list (string * string)) : Dataset :=
  {| X := XDense {| ncols := 4; rows := [[1; 2; 1; 0]; [3; 4; 0; 1]; [5; 6; 1; 0]] |};
     obs := {| obs_names := [o1; o2; o3]; obs_cols := [("celltype", celltype)] |};
     var := {| var_names := [g1; g2; "A"; "B"];
               var_cols :=
                 [("is_gene",
                   {| col_dtype := DBool;
                      col_cells := [VBool true; VBool true; VBool false; VBool false] |});
                  ("is_celltype",
                   {| col_dtype := DBool;
                      col_cells := [VBool false; VBool false; VBool true; VBool true] |})] |};
     obsm := [];
     uns := u |}.

(** The reindexing contract over unbounded integers: whenever every label of
    the obs index reads as an integer, the call succeeds and the object
    returned has the labels [str(int(label) + k)], everything else as in
    [adata]. *)
Definition reindex_unbounded (st : store) (h : heap) (r : loc) (adata : Dataset)
           (k : Z) : Prop :=
  forall ints : list Z,
    Forall2 (fun s z => PyInt.parse s = Some z) (obs_names (obs adata)) ints ->
    exists r' h',
      reindex_anndata st h (Obj r) k = Ok (r', h')
      /\ deref h' r' =
         Some (set_obs_names adata (map (fun z => PyInt.to_string (z + k)) ints)).

(** A DataFrame with an unnamed column axis. *)
Definition frame (columns index : list string) (rows : list (list Z)) : dataframe :=
  {| df_columns := columns; df_columns_name := None; df_index := index;
     df_rows := rows |}.

(** A dataset with the given obs index and nothing else. *)
Definition bare_dataset (names : list string) : Dataset :=
  {| X := XNone;
     obs := {| obs_names := names; obs_cols := [] |};
     var := {| var_names := []; var_cols := [] |};
     obsm := [];
     uns := [] |}.

(** The aliasing contract read literally: after a successful call the object
    passed in is what it was, and the object returned is one that did not
    exist before. *)
Definition leaves_argument_intact (h : heap) (r : loc) (out : result (loc * heap))
  : Prop :=
  forall r' h', out = Ok (r', h') -> deref h' r = deref h r /\ deref h r' = None.

(** The cells of the column called [k], if the table has one. *)
Definition cells_of (t : var_table) (k : string) : option (list cell) :=
  option_map col_cells (lookup k (var_cols t)).


(** The cells of an original column in the rows it had, once [k] rows are
    stacked below that lack the column: as they were, except that the
    integers of an int64 column that receives missing values are floats. *)
Definition kept_cells (c : column) (k : nat) : list cell :=
  cast_column (pad_dtype (col_dtype c) k) c.

(** [True] stacked below a column of dtype [d]: the integer 1 below int64,
    the boolean otherwise. *)
Definition flag_cell (d : dtype) : cell :=
  cast_cell DBool (join_dtype d DBool) (VBool true).





(** What [concat_matrix_from_cell2location] makes of the content [f] of the
    companion file: its obs, var and obsm, no [X]. *)
Definition companion (f : Dataset) : Dataset :=
  {| X := XNone; obs := obs f; var := var f; obsm := obsm f; uns := [] |}.

(** The file system with the h5ad file [path] holding [d]. *)
Definition with_file (st : store) (path : string) (d : Dataset) : store :=
  fun p => if String.eqb p path then Some (H5adFile d) else st p.

(** [value] is the label of an observation. *)
Definition has_label (value : string) (v : option string) : bool :=
  match v with
  | Some s => String.eqb s value
  | None => false
  end.

(** The rows of [l] whose label in [col] is [value]. *)
Definition rows_labelled {A} (col : label_column) (value : string) (l : list A) : list A :=
  map fst (filter (fun p => has_label value (snd p)) (combine l (label_values col))).

(** The sample contract read literally: whatever [sample] is, provided it is
    not [None], the companion dataset is restricted to the rows where the obs
    column [sample[0]] equals [sample[1]]. *)
Definition restricted_by_pair (c : Dataset) (sample : pyseq) (c' : Dataset) : Prop :=
  exists key value col,
    getitem sample 0 = Ok key
    /\ getitem sample 1 = Ok value
    /\ lookup key (obs_cols (obs c)) = Some col
    /\ obs_names (obs c') = rows_labelled col value (obs_names (obs c)).

Definition sample_contract_as_stated (c : Dataset) (sample : pyseq) : Prop :=
  forall c', sample_filter c (Some sample) = Ok c' -> restricted_by_pair c sample c'.

(** A companion dataset of four observations in two samples. *)
Definition companion_example : Dataset :=
  {| X := XNone;
     obs := {| obs_names := ["a"; "b"; "c"; "d"];
               obs_cols := [("s", StringColumn [Some "x"; Some "y"; Some "x"; Some "x"])] |};
     var := {| var_names := []; var_cols := [] |};
     obsm := [("q05_cell_abundance_w_sf",
               ObsmFrame {| df_columns := ["q05cell_abundance_w_sf_T";
                                           "q05cell_abundance_w_sf_B"];
                            df_columns_name := None;
                            df_index := ["a"; "b"; "c"; "d"];
                            df_rows := [[7; 8]; [9; 10]; [11; 12]; [13; 14]] |})];
     uns := [] |}.

(** Two stored datasets with the features g1, g2, g3 and g2, g3, g4, the
    first in a zarr store and the second in an h5ad file. *)
Definition features_dataset (names : list string) (row : list Z) : Dataset :=
  {| X := XDense {| ncols := List.length names; rows := [row] |};
     obs := {| obs_names := ["0"]; obs_cols := [] |};
     var := {| var_names := names; var_cols := [] |};
     obsm := [];
     uns := [] |}.

Definition two_files : store :=
  fun p =>
    if String.eqb p "a.zarr" then Some (ZarrStore (features_dataset ["g1"; "g2"; "g3"] [1; 2; 3]))
    else if String.eqb p "out/b.h5ad"
         then Some (H5adFile (features_dataset ["g2"; "g3"; "g4"] [4; 5; 6]))
         else None.

(** ** Further definitions used in the statements *)

(** The value of a run of decimal digits that continues the number [acc]. *)
Fixpoint uint_value (d : Decimal.uint) (acc : Z) : Z :=
  match d with
  | Decimal.Nil => acc
  | Decimal.D0 l => uint_value l (10 * acc + 0)
  | Decimal.D1 l => uint_value l (10 * acc + 1)
  | Decimal.D2 l => uint_value l (10 * acc + 2)
  | Decimal.D3 l => uint_value l (10 * acc + 3)
  | Decimal.D4 l => uint_value l (10 * acc + 4)
  | Decimal.D5 l => uint_value l (10 * acc + 5)
  | Decimal.D6 l => uint_value l (10 * acc + 6)
  | Decimal.D7 l => uint_value l (10 * acc + 7)
  | Decimal.D8 l => uint_value l (10 * acc + 8)
  | Decimal.D9 l => uint_value l (10 * acc + 9)
  end.


(** The conditions under which [concat_matrices] returns a dataset. *)
Definition concat_ready (adata : Dataset) (ext_df : table) : Prop :=
  exists df m,
    ext_df = ObsmFrame df
    /\ df_columns_name df = None
    /\ x_matrix (X adata) = Some m
    /\ n_obs adata = List.length (df_rows df)
    /\ nrows m = n_obs adata
    /\ ncols m = n_vars adata
    /\ has_dup (map fst (var_cols (var adata))) = false
    /\ forallb (fun kt => fits_obs (obs_names (obs adata)) (snd kt)) (obsm adata) = true.



(** [pat] occurs somewhere in [s]. *)
Fixpoint occurs (pat s : string) : bool :=
  String.prefix pat s
  || match s with
     | String _ s' => occurs pat s'
     | EmptyString => false
     end.

(** The text deleted from the column labels of the companion table for the
    default [q]. *)
Definition abundance_prefix : string := "q05cell_abundance_w_sf_".

(** Sum of the entries of a row. *)
Definition zsum (l : list Z) : Z := fold_right Z.add 0 l.

(** What pandas guarantees of a label column: the categories of a
    Categorical are all different and every label is one of them. *)
Definition label_column_ok (c : label_column) : bool :=
  match c with
  | Categorical cats v => negb (has_dup cats) && forallb (fun s => mem s cats) (present v)
  | StringColumn _ => true
  end.

(** * Properties *)

Unset Implicit Arguments.

(** ** Basic facts about the monad, the heap and lookups *)

Lemma bind_ok {A B} (r : result A) (f : A -> result B) (b : B) :
  bind r f = Ok b -> exists a, r = Ok a /\ f a = Ok b.
Proof.
  destruct r as [a|e]; simpl; intros H.
  - exists a; split; [reflexivity | exact H].
  - discriminate.
Qed.

Lemma bind_ret {A B} (a : A) (f : A -> result B) : bind (Ok a) f = f a.
Proof. reflexivity. Qed.

Lemma lookup_map_snd {A B} (F : A -> B) (k : string) (l : list (string * A)) :
  lookup k (map (fun kt => (fst kt, F (snd kt))) l) = option_map F (lookup k l).
Proof.
  induction l as [|[k0 a0] l IH]; simpl; [reflexivity|].
  destruct (String.eqb k k0); auto.
Qed.

Lemma deref_alloc_new (h : heap) (d : Dataset) :
  deref (snd (alloc h d)) (fst (alloc h d)) = Some d.
Proof.
  unfold deref, alloc; simpl.
  rewrite nth_error_app2 by lia.
  now rewrite Nat.sub_diag.
Qed.

Lemma deref_alloc_old (h : heap) (d x : Dataset) (q : loc) :
  deref h q = Some x -> deref (snd (alloc h d)) q = Some x.
Proof.
  unfold deref, alloc; simpl; intros H.
  rewrite nth_error_app1; [exact H|].
  apply nth_error_Some; congruence.
Qed.

Lemma deref_alloc_fresh (h : heap) (d : Dataset) :
  deref h (fst (alloc h d)) = None.
Proof.
  unfold deref, alloc; simpl. apply nth_error_None; lia.
Qed.

Lemma deref_update_same (h : heap) (r : loc) (d x : Dataset) :
  deref h r = Some x -> deref (update h r d) r = Some d.
Proof.
  unfold deref; revert r; induction h as [|y h IH]; intros [|r]; simpl;
    try discriminate; auto.
Qed.

Lemma deref_update_other (h : heap) (r q : loc) (d : Dataset) :
  q <> r -> deref (update h r d) q = deref h q.
Proof.
  unfold deref; revert r q; induction h as [|y h IH]; intros [|r] [|q] Hq; simpl;
    try reflexivity; try congruence.
  apply IH; congruence.
Qed.

(** The body of [reindex_anndata] and of [concat_features] once [data] is
    known to be an object of the heap. *)
Lemma reindex_anndata_obj st h r adata offset :
  deref h r = Some adata ->
  reindex_anndata st h (Obj r) offset =
  (names <- shift_index (obs_names (obs adata)) offset ;;
   Ok (r, update h r (set_obs_names adata names))).
Proof.
  intros H. unfold reindex_anndata, resolve_data. rewrite H. simpl. rewrite H.
  reflexivity.
Qed.

Lemma concat_features_obj st h r adata features :
  deref h r = Some adata ->
  concat_features st h (Obj r) features =
  (if PyStr.endswith features ".h5ad" && isfile st features then
     d <- concat_matrix_from_cell2location st adata features default_q None "gene" None ;;
     Ok (alloc h d)
   else if PyStr.startswith features "obs/" then
     key <- PyStr.item (PyStr.split "/" features) 1 ;;
     d <- concat_matrix_from_obs adata key "gene" None ;;
     Ok (alloc h d)
   else if PyStr.startswith features "obsm/" then
     key <- PyStr.item (PyStr.split "/" features) 1 ;;
     d <- concat_matrix_from_obsm adata key "gene" None ;;
     Ok (alloc h d)
   else Ok (r, h)).
Proof.
  intros H. unfold concat_features, resolve_data. rewrite H. simpl. rewrite H.
  reflexivity.
Qed.

Lemma resolve_data_obj_ok st h r r' h' :
  resolve_data st h (Obj r) = Ok (r', h') ->
  r' = r /\ h' = h /\ exists d, deref h r = Some d.
Proof.
  unfold resolve_data. destruct (deref h r) as [d|] eqn:E; intros H; inversion H.
  subst. eauto.
Qed.

(** ** The scenario of the one-hot concatenation *)

(** C1.  On the dataset with dense matrix [[1,2],[3,4],[5,6]] and the label
    column celltype = [A,B,A] (a Categorical with categories A, B, or a column
    of strings), [concat_features] with address [obs/celltype] returns a new
    dataset whose matrix is [[1,2,1,0],[3,4,0,1],[5,6,1,0]] (four columns),
    whose features are the two original ones followed by A and B, and whose
    var flags are is_gene = [T,T,F,F] and is_celltype = [F,F,T,T]. *)
Theorem concat_features_obs_scenario :
  forall (st : store) (h : heap) (r : loc) (o1 o2 o3 g1 g2 : string)
         (celltype : label_column) (u : list (string * string)),
    celltype = Categorical ["A"; "B"] [Some "A"; Some "B"; Some "A"]
    \/ celltype = StringColumn [Some "A"; Some "B"; Some "A"] ->
    deref h r = Some (scenario_input o1 o2 o3 g1 g2 celltype u) ->
    exists r' h',
      concat_features st h (Obj r) "obs/celltype" = Ok (r', h')
      /\ deref h' r' = Some (scenario_output o1 o2 o3 g1 g2 celltype u).
Proof.
  intros st h r o1 o2 o3 g1 g2 celltype u Hc Hr.
  assert (E : concat_matrix_from_obs (scenario_input o1 o2 o3 g1 g2 celltype u)
                                     "celltype" "gene" None
              = Ok (scenario_output o1 o2 o3 g1 g2 celltype u)).
  { destruct Hc; subst celltype; vm_compute; reflexivity. }
  erewrite concat_features_obj by exact Hr.
  replace (PyStr.endswith "obs/celltype" ".h5ad") with false by reflexivity.
  replace (PyStr.startswith "obs/celltype" "obs/") with true by reflexivity.
  replace (PyStr.item (PyStr.split "/" "obs/celltype") 1) with (Ok "celltype")
    by reflexivity.
  simpl andb. cbv iota. simpl bind at 1. rewrite E. simpl bind.
  eexists; eexists; split; [reflexivity|].
  apply deref_alloc_new.
Qed.

(** The scenario on a heap that holds just the primary dataset. *)
Lemma concat_features_obs_scenario_witness :
  exists r' h',
    concat_features (fun _ => None)
                    [scenario_input "0" "1" "2" "g1" "g2"
                       (Categorical ["A"; "B"] [Some "A"; Some "B"; Some "A"]) []]
                    (Obj O) "obs/celltype" = Ok (r', h')
    /\ deref h' r' = Some (scenario_output "0" "1" "2" "g1" "g2"
                             (Categorical ["A"; "B"] [Some "A"; Some "B"; Some "A"]) []).
Proof.
  apply concat_features_obs_scenario.
  - left; reflexivity.
  - reflexivity.
Defined.

(** ** The unrecognised address *)

(** C4.  When the address neither ends in [.h5ad] while naming an existing
    file, nor starts with [obs/], nor starts with [obsm/], [concat_features]
    raises nothing and returns the very object it received, in an unchanged
    heap. *)
Theorem concat_features_unrecognised_noop :
  forall (st : store) (h : heap) (r : loc) (adata : Dataset) (features : string),
    deref h r = Some adata ->
    PyStr.endswith features ".h5ad" && isfile st features = false ->
    PyStr.startswith features "obs/" = false ->
    PyStr.startswith features "obsm/" = false ->
    concat_features st h (Obj r) features = Ok (r, h)
    /\ deref h r = Some adata.
Proof.
  intros st h r adata features Hr H5 Hobs Hobsm.
  erewrite concat_features_obj by exact Hr.
  rewrite H5, Hobs, Hobsm. split; [reflexivity | exact Hr].
Qed.

Lemma concat_features_unrecognised_noop_witness :
  concat_features (fun _ => None)
                  [scenario_input "0" "1" "2" "g1" "g2" (StringColumn []) []]
                  (Obj O) "layers/counts"
  = Ok (O, [scenario_input "0" "1" "2" "g1" "g2" (StringColumn []) []])
  /\ deref [scenario_input "0" "1" "2" "g1" "g2" (StringColumn []) []] O
     = Some (scenario_input "0" "1" "2" "g1" "g2" (StringColumn []) []).
Proof.
  apply concat_features_unrecognised_noop; reflexivity.
Defined.

(** ** The row-count assertion *)

Lemma AnnData_not_assertion x o v om u :
  AnnData x o v om u <> Err AssertionError.
Proof.
  unfold AnnData. destruct (_ && _); discriminate.
Qed.

Lemma hstack_not_assertion a b : hstack a b <> Err AssertionError.
Proof.
  unfold hstack. destruct (_ =? _)%nat; discriminate.
Qed.

Lemma concat_rows_not_assertion t b : concat_rows t b <> Err AssertionError.
Proof.
  unfold concat_rows. destruct (_ && _); discriminate.
Qed.

Lemma stack_not_assertion x m :
  (if is_sparse x then sparse_hstack x m else dense_hstack x m) <> Err AssertionError.
Proof.
  destruct x as [|m0|m0|m0]; simpl; try discriminate;
    pose proof (hstack_not_assertion m0 m);
    destruct (hstack m0 m); simpl; congruence.
Qed.

Lemma concat_matrices_unfold adata ext_df obs_key feature_name obs_feature_name :
  concat_matrices adata ext_df obs_key feature_name obs_feature_name =
  if negb (n_obs adata =? shape0 ext_df)%nat then Err AssertionError
  else
    adata_concat <- stacked adata ext_df (is_flag feature_name)
                      (is_flag (py_or obs_feature_name obs_key))
                      (py_or obs_feature_name obs_key) ;;
    Ok (set_var adata_concat
          (fold_left fillna_false (bool_columns (var adata))
             (fillna_false
                (fillna_false (var adata_concat) (is_flag feature_name))
                (is_flag (py_or obs_feature_name obs_key))))).
Proof.
  unfold concat_matrices, stacked.
  destruct (negb _); [reflexivity|].
  destruct (is_sparse (X adata)); reflexivity.
Qed.

Lemma stacked_not_assertion adata ext_df prev new_name name :
  stacked adata ext_df prev new_name name <> Err AssertionError.
Proof.
  unfold stacked.
  destruct ext_df as [m|df]; simpl; [discriminate|].
  pose proof (stack_not_assertion (X adata) (df_values df)) as Hs.
  destruct (if is_sparse (X adata) then _ else _) as [x|e]; simpl; [|congruence].
  destruct (to_frame_drop _ _ _) as [frame|e] eqn:Ef; simpl;
    [|unfold to_frame_drop in Ef; destruct (df_columns_name df); congruence].
  match goal with |- context [concat_rows ?a ?b] =>
    pose proof (concat_rows_not_assertion a b) as Hc;
    destruct (concat_rows a b) as [v|e] end; simpl; [|congruence].
  apply AnnData_not_assertion.
Qed.

(** C5.  [concat_matrices] fails with the assertion error exactly when the
    row count of the annotation table differs from the observation count of
    the primary dataset: a mismatch always ends in that error, with no
    dataset produced, and with equal counts that error cannot occur. *)
Theorem concat_matrices_row_mismatch :
  forall (adata : Dataset) (ext_df : table) (obs_key feature_name : string)
         (obs_feature_name : option string),
    (n_obs adata <> shape0 ext_df ->
     concat_matrices adata ext_df obs_key feature_name obs_feature_name
     = Err AssertionError)
    /\ (n_obs adata = shape0 ext_df ->
        concat_matrices adata ext_df obs_key feature_name obs_feature_name
        <> Err AssertionError).
Proof.
  intros adata ext_df obs_key feature_name obs_feature_name.
  rewrite concat_matrices_unfold. split; intros H.
  - apply Nat.eqb_neq in H. rewrite H. reflexivity.
  - apply Nat.eqb_eq in H. rewrite H. simpl negb. cbv iota.
    match goal with |- (x <- ?c ;; _) <> _ =>
      pose proof (stacked_not_assertion adata ext_df (is_flag feature_name)
                    (is_flag (py_or obs_feature_name obs_key))
                    (py_or obs_feature_name obs_key)) as Hn;
      destruct c as [d|e]; simpl; congruence end.
Qed.

(** A table one row short of the three observations, and one of three rows. *)
Lemma concat_matrices_row_mismatch_witness :
  let adata := scenario_input "0" "1" "2" "g1" "g2" (StringColumn []) [] in
  let short := ObsmFrame (frame ["p"] ["0"; "1"] [[7]; [8]]) in
  let full := ObsmFrame (frame ["p"] ["0"; "1"; "2"] [[7]; [8]; [9]]) in
  concat_matrices adata short "celltype" "gene" None = Err AssertionError
  /\ concat_matrices adata full "celltype" "gene" None <> Err AssertionError.
Proof.
  intros adata short full. split.
  - apply (proj1 (concat_matrices_row_mismatch adata short "celltype" "gene" None)).
    vm_compute. discriminate.
  - apply (proj2 (concat_matrices_row_mismatch adata full "celltype" "gene" None)).
    reflexivity.
Defined.

(** ** Reindexing *)

Lemma wrap64_in_range (z : Z) : PyInt.in_int64 z = true -> PyInt.wrap64 z = z.
Proof.
  unfold PyInt.in_int64, PyInt.wrap64, PyInt.int64_min, PyInt.int64_max.
  rewrite andb_true_iff, !Z.leb_le. intros [H1 H2].
  rewrite Z.mod_small; lia.
Qed.

Lemma mapM_astype_int (names : list string) (ints : list Z) :
  Forall2 (fun s z => PyInt.parse s = Some z /\ PyInt.in_int64 z = true) names ints ->
  mapM astype_int names = Ok ints.
Proof.
  induction 1 as [|s z names ints [Hp Hr] _ IH]; simpl; [reflexivity|].
  unfold astype_int at 1. rewrite Hp, Hr. simpl. rewrite IH. reflexivity.
Qed.

Lemma mapM_astype_int_not_integer (names : list string) :
  (exists s, In s names /\ PyInt.parse s = None) ->
  (forall s z, In s names -> PyInt.parse s = Some z -> PyInt.in_int64 z = true) ->
  mapM astype_int names = Err ValueError.
Proof.
  induction names as [|s names IH]; intros [x [Hin Hx]] Hrange.
  - destruct Hin.
  - simpl. unfold astype_int at 1.
    destruct (PyInt.parse s) as [z|] eqn:Hs; [|reflexivity].
    rewrite (Hrange s z (or_introl eq_refl) Hs). simpl.
    rewrite IH; [reflexivity| |].
    + destruct Hin as [->|Hin]; [congruence|]. eauto.
    + intros s' z' Hin'. apply Hrange. now right.
Qed.

(** At the largest int64 an offset of one wraps around to the smallest. *)
Lemma reindex_unbounded_fails_at_int64_max :
  ~ reindex_unbounded (fun _ => None) [bare_dataset ["9223372036854775807"]] O
      (bare_dataset ["9223372036854775807"]) 1.
Proof.
  intros H.
  destruct (H [9223372036854775807]) as (r' & h' & E & D).
  - repeat constructor.
  - vm_compute in E. inversion E; subst r' h'; clear E.
    vm_compute in D. discriminate D.
Qed.

(** C6 (amended).  [reindex_anndata] with offset [k], on an object whose obs
    labels all read as integers, succeeds and leaves at the same reference
    the dataset whose obs label in each row is [str(int(label) + k)], rows in
    the same order and every other field unchanged, provided the labels, the
    offset and the sums are int64 values; offset 1000 turns 0, 1, 2 into
    1000, 1001, 1002.  If some label does not read as an integer (the others
    being int64 values) the call fails with ValueError. *)
Theorem reindex_anndata_shifts :
  forall (st : store) (h : heap) (r : loc) (adata : Dataset) (k : Z),
    deref h r = Some adata ->
    (forall ints : list Z,
        Forall2 (fun s z => PyInt.parse s = Some z
                            /\ PyInt.in_int64 z = true
                            /\ PyInt.in_int64 (z + k) = true)
                (obs_names (obs adata)) ints ->
        PyInt.in_int64 k = true ->
        exists h' d',
          reindex_anndata st h (Obj r) k = Ok (r, h')
          /\ deref h' r = Some d'
          /\ obs_names (obs d') = map (fun z => PyInt.to_string (z + k)) ints
          /\ obs_cols (obs d') = obs_cols (obs adata)
          /\ X d' = X adata /\ var d' = var adata
          /\ obsm d' = obsm adata /\ uns d' = uns adata)
    /\ ((exists s, In s (obs_names (obs adata)) /\ PyInt.parse s = None) ->
        (forall s z, In s (obs_names (obs adata)) -> PyInt.parse s = Some z ->
                     PyInt.in_int64 z = true) ->
        reindex_anndata st h (Obj r) k = Err ValueError)
    /\ (obs_names (obs adata) = ["0"; "1"; "2"] -> k = 1000 ->
        exists h' d',
          reindex_anndata st h (Obj r) k = Ok (r, h')
          /\ deref h' r = Some d'
          /\ obs_names (obs d') = ["1000"; "1001"; "1002"]).
Proof.
  intros st h r adata k Hr.
  rewrite (reindex_anndata_obj st h r adata k Hr).
  split; [|split].
  - intros ints Hall Hk.
    unfold shift_index.
    rewrite (mapM_astype_int _ ints).
    + simpl bind. rewrite Hk.
      assert (Hmap : map (fun z => PyInt.to_string (PyInt.wrap64 (z + k))) ints
                     = map (fun z => PyInt.to_string (z + k)) ints).
      { clear Hr. induction Hall as [|s z names ints (_ & _ & Hs) _ IH]; simpl;
          [reflexivity|].
        rewrite (wrap64_in_range _ Hs), IH. reflexivity. }
      rewrite Hmap.
      eexists; eexists; split; [reflexivity|]. split.
      * eapply deref_update_same; exact Hr.
      * simpl. repeat split; reflexivity.
    + clear Hr. induction Hall as [|s z names ints (Hp & Hz & _) _ IH];
        constructor; auto.
  - intros Hbad Hrange. unfold shift_index.
    rewrite mapM_astype_int_not_integer by assumption. reflexivity.
  - intros Hnames ->. unfold shift_index. rewrite Hnames.
    eexists; eexists; split; [vm_compute mapM; simpl bind; reflexivity|]. split.
    + eapply deref_update_same; exact Hr.
    + vm_compute. reflexivity.
Qed.

(** Offset 1000 on the labels 0, 1, 2; and a label that is no integer. *)
Lemma reindex_anndata_shifts_witness :
  (exists h' d',
      reindex_anndata (fun _ => None) [bare_dataset ["0"; "1"; "2"]] (Obj O) 1000
      = Ok (O, h')
      /\ deref h' O = Some d'
      /\ obs_names (obs d') = ["1000"; "1001"; "1002"])
  /\ reindex_anndata (fun _ => None) [bare_dataset ["0"; "x1"]] (Obj O) 1000
     = Err ValueError.
Proof.
  split.
  - destruct (reindex_anndata_shifts (fun _ => None) [bare_dataset ["0"; "1"; "2"]] O
                
                (bare_dataset ["0"; "1"; "2"]) 1000 eq_refl) as (H & _ & _).
    destruct (H [0; 1; 2]) as (h' & d' & E & D & N & _).
    + repeat constructor.
    + reflexivity.
    + exists h', d'. repeat split; assumption.
  - refine (proj1 (proj2 (reindex_anndata_shifts (fun _ => None)
                            [bare_dataset ["0"; "x1"]] O
                            (bare_dataset ["0"; "x1"]) 1000 eq_refl)) _ _).
    + exists "x1". split; [simpl; auto | reflexivity].
    + intros s z [<-|[<-|[]]] Hz; vm_compute in Hz; inversion Hz; reflexivity.
Defined.

(** ** Inversion of the concatenation engine *)

Lemma AnnData_ok x o v om u d :
  AnnData x o v om u = Ok d ->
  d = {| X := x; obs := o; var := v; obsm := om; uns := u |}
  /\ (forall m, x_matrix x = Some m ->
                nrows m = List.length (obs_names o)
                /\ ncols m = List.length (var_names v)).
Proof.
  unfold AnnData. destruct (_ && _) eqn:E; intros H; inversion H; subst; clear H.
  split; [reflexivity|]. intros m Hm. rewrite Hm in E.
  apply andb_true_iff in E. destruct E as [E _].
  apply andb_true_iff in E. destruct E as [E1 E2].
  apply Nat.eqb_eq in E1, E2. auto.
Qed.

Lemma stacked_ok adata ext_df prev new_name name d :
  stacked adata ext_df prev new_name name = Ok d ->
  exists df x v,
    ext_df = ObsmFrame df
    /\ (if is_sparse (X adata) then sparse_hstack (X adata) (df_values df)
        else dense_hstack (X adata) (df_values df)) = Ok x
    /\ concat_rows (assign_true (var adata) prev)
                   (assign_true (labels_frame (df_columns df) name) new_name) = Ok v
    /\ AnnData x (obs adata) v (obsm adata) (uns adata) = Ok d
    /\ df_columns_name df = None.
Proof.
  unfold stacked. intros H.
  destruct ext_df as [m|df]; simpl in H; [discriminate|].
  apply bind_ok in H. destruct H as (x & Hx & H).
  unfold to_frame_drop in H.
  destruct (df_columns_name df) as [a|] eqn:Ea; [discriminate|].
  rewrite bind_ret in H.
  apply bind_ok in H. destruct H as (v & Hv & H).
  exists df, x, v. auto.
Qed.

Lemma concat_matrices_ok adata ext_df obs_key feature_name obs_feature_name d' :
  concat_matrices adata ext_df obs_key feature_name obs_feature_name = Ok d' ->
  n_obs adata = shape0 ext_df
  /\ exists d,
      stacked adata ext_df (is_flag feature_name)
              (is_flag (py_or obs_feature_name obs_key))
              (py_or obs_feature_name obs_key) = Ok d
      /\ d' = set_var d
                (fold_left fillna_false (bool_columns (var adata))
                   (fillna_false
                      (fillna_false (var d) (is_flag feature_name))
                      (is_flag (py_or obs_feature_name obs_key)))).
Proof.
  rewrite concat_matrices_unfold.
  destruct (n_obs adata =? shape0 ext_df)%nat eqn:E; simpl; [|discriminate].
  intros H. apply bind_ok in H. destruct H as (d & Hd & H).
  inversion H; subst. apply Nat.eqb_eq in E. eauto.
Qed.

(** The sidecars of the result are those of the primary dataset. *)
Lemma concat_matrices_sidecars adata ext_df obs_key feature_name obs_feature_name d' :
  concat_matrices adata ext_df obs_key feature_name obs_feature_name = Ok d' ->
  obs d' = obs adata /\ obsm d' = obsm adata /\ uns d' = uns adata.
Proof.
  intros H. apply concat_matrices_ok in H. destruct H as (_ & d & Hd & ->).
  apply stacked_ok in Hd. destruct Hd as (df & x & v & _ & _ & _ & Hd & Hname).
  apply AnnData_ok in Hd. destruct Hd as (-> & _). simpl. auto.
Qed.

Lemma concat_matrix_from_obs_ok adata obs_key feature_name obs_feature_name d' :
  concat_matrix_from_obs adata obs_key feature_name obs_feature_name = Ok d' ->
  exists col,
    lookup obs_key (obs_cols (obs adata)) = Some col
    /\ concat_matrices adata (ObsmFrame (get_dummies (obs_names (obs adata)) col)) obs_key feature_name
                       obs_feature_name = Ok d'.
Proof.
  unfold concat_matrix_from_obs. intros H.
  destruct (lookup obs_key (obs_cols (obs adata))) as [col|]; simpl in H;
    [|discriminate].
  eauto.
Qed.

Lemma concat_matrix_from_obsm_ok adata obsm_key feature_name obsm_feature_name d' :
  concat_matrix_from_obsm adata obsm_key feature_name obsm_feature_name = Ok d' ->
  exists t,
    lookup obsm_key (obsm adata) = Some t
    /\ concat_matrices adata t "celltype" feature_name obsm_feature_name = Ok d'.
Proof.
  unfold concat_matrix_from_obsm. intros H.
  destruct (lookup obsm_key (obsm adata)) as [t|]; simpl in H; [|discriminate].
  eauto.
Qed.

Lemma concat_matrix_from_cell2location_ok st adata c2l_file q sample feature_name
      obs_feature_name d' :
  concat_matrix_from_cell2location st adata c2l_file q sample feature_name
                                   obs_feature_name = Ok d' ->
  exists c2l_df,
    concat_matrices adata (ObsmFrame c2l_df) "celltype" feature_name obs_feature_name
    = Ok d'.
Proof.
  unfold concat_matrix_from_cell2location. intros H.
  repeat (apply bind_ok in H; destruct H as (? & _ & H)).
  eauto.
Qed.

(** ** Mutation and aliasing *)

(** A source that builds a dataset [d'] from the primary one puts it in a new
    object and leaves the heap as it was. *)
Lemma alloc_outcome (h : heap) (r : loc) (d d' : Dataset) (r' : loc) (h' : heap) :
  deref h r = Some d ->
  obs d' = obs d /\ obsm d' = obsm d /\ uns d' = uns d ->
  Ok (alloc h d') = Ok (r', h') ->
  (forall q x, deref h q = Some x -> deref h' q = Some x)
  /\ (r' = r /\ h' = h
      \/ deref h r' = None
         /\ exists d0 d1, deref h r = Some d0 /\ deref h' r' = Some d1
                          /\ obs d1 = obs d0 /\ obsm d1 = obsm d0 /\ uns d1 = uns d0).
Proof.
  intros Hr Hside E.
  assert (E1 : r' = fst (alloc h d')) by (inversion E; reflexivity).
  assert (E2 : h' = snd (alloc h d')) by (inversion E; reflexivity).
  subst r' h'. split.
  - intros q x Hq. now apply deref_alloc_old.
  - right. split; [apply deref_alloc_fresh|].
    exists d, d'. split; [exact Hr|]. split; [apply deref_alloc_new | exact Hside].
Qed.

(** Reindexing the labels 0, 1, 2 changes the object passed in and returns
    that same object. *)
Lemma reindex_anndata_mutates_argument :
  ~ leaves_argument_intact [bare_dataset ["0"; "1"; "2"]] O
      (reindex_anndata (fun _ => None) [bare_dataset ["0"; "1"; "2"]] (Obj O) 1000).
Proof.
  intros H.
  destruct (H O [bare_dataset ["1000"; "1001"; "1002"]]) as [_ Hfresh].
  - vm_compute. reflexivity.
  - discriminate Hfresh.
Qed.

(** C8 (amended).  [concat_features] does not mutate: after a successful call
    every object of the heap, the argument included, is what it was, and the
    result is either the argument itself (address of no recognised form) or a
    new object whose obs, obsm and uns are those of the argument.
    [reindex_anndata] assigns the obs index of its argument in place and
    returns that same object; the other fields of the argument and all other
    objects are unchanged. *)
Theorem public_functions_aliasing :
  forall (st : store) (h : heap) (r : loc),
    (forall features r' h',
        concat_features st h (Obj r) features = Ok (r', h') ->
        (forall q x, deref h q = Some x -> deref h' q = Some x)
        /\ (r' = r /\ h' = h
            \/ deref h r' = None
               /\ exists d d', deref h r = Some d /\ deref h' r' = Some d'
                               /\ obs d' = obs d /\ obsm d' = obsm d
                               /\ uns d' = uns d))
    /\ (forall k r' h',
           reindex_anndata st h (Obj r) k = Ok (r', h') ->
           r' = r
           /\ exists d names,
               deref h r = Some d
               /\ shift_index (obs_names (obs d)) k = Ok names
               /\ deref h' r = Some (set_obs_names d names)
               /\ forall q, q <> r -> deref h' q = deref h q).
Proof.
  intros st h r. split.
  - intros features r' h' H.
    destruct (deref h r) as [adata|] eqn:Hr.
    + rewrite (concat_features_obj st h r adata features Hr) in H.
      destruct (PyStr.endswith features ".h5ad" && isfile st features).
      { apply bind_ok in H. destruct H as (d' & Hd & H).
        apply concat_matrix_from_cell2location_ok in Hd. destruct Hd as (t & Hd).
        apply concat_matrices_sidecars in Hd.
        pose proof (alloc_outcome h r adata d' r' h' Hr Hd H) as G.
        rewrite Hr in G. exact G. }
      destruct (PyStr.startswith features "obs/").
      { apply bind_ok in H. destruct H as (key & _ & H).
        apply bind_ok in H. destruct H as (d' & Hd & H).
        apply concat_matrix_from_obs_ok in Hd. destruct Hd as (col & _ & Hd).
        apply concat_matrices_sidecars in Hd.
        pose proof (alloc_outcome h r adata d' r' h' Hr Hd H) as G.
        rewrite Hr in G. exact G. }
      destruct (PyStr.startswith features "obsm/").
      { apply bind_ok in H. destruct H as (key & _ & H).
        apply bind_ok in H. destruct H as (d' & Hd & H).
        apply concat_matrix_from_obsm_ok in Hd. destruct Hd as (t & _ & Hd).
        apply concat_matrices_sidecars in Hd.
        pose proof (alloc_outcome h r adata d' r' h' Hr Hd H) as G.
        rewrite Hr in G. exact G. }
      inversion H; subst. split; [auto | left; auto].
    + unfold concat_features, resolve_data in H. rewrite Hr in H. discriminate.
  - intros k r' h' H.
    destruct (deref h r) as [adata|] eqn:Hr.
    + rewrite (reindex_anndata_obj st h r adata k Hr) in H.
      apply bind_ok in H. destruct H as (names & Hn & H).
      inversion H; subst. split; [reflexivity|].
      exists adata, names. repeat split; auto.
      * eapply deref_update_same; exact Hr.
      * intros q Hq. now apply deref_update_other.
    + unfold reindex_anndata, resolve_data in H. rewrite Hr in H. discriminate.
Qed.

(** One concatenation and one reindexing on a heap of one object. *)
Lemma public_functions_aliasing_witness :
  let d := scenario_input "0" "1" "2" "g1" "g2"
             (Categorical ["A"; "B"] [Some "A"; Some "B"; Some "A"]) [] in
  let d' := scenario_output "0" "1" "2" "g1" "g2"
              (Categorical ["A"; "B"] [Some "A"; Some "B"; Some "A"]) [] in
  (forall q x, deref [d] q = Some x -> deref [d; d'] q = Some x)
  /\ (exists names, shift_index ["0"; "1"; "2"] 1000 = Ok names
                    /\ deref [set_obs_names d ["1000"; "1001"; "1002"]] O
                       = Some (set_obs_names d names)).
Proof.
  intros d d'. split.
  - exact (proj1 (proj1 (public_functions_aliasing (fun _ => None) [d] O)
                    "obs/celltype" 1%nat [d; d'] eq_refl)).
  - destruct (proj2 (public_functions_aliasing (fun _ => None) [d] O)
                1000 O [set_obs_names d ["1000"; "1001"; "1002"]] eq_refl)
      as (_ & d0 & names & Hd & Hs & Hd' & _).
    inversion Hd; subst d0. exists names. split; [exact Hs | exact Hd'].
Defined.

(** ** Shape of the concatenated matrix *)

Lemma zip_rows_length (a b : list (list Z)) :
  List.length a = List.length b -> List.length (zip_rows a b) = List.length a.
Proof.
  revert b; induction a as [|r a IH]; intros [|s b] H; simpl in *;
    try discriminate; auto.
Qed.

Lemma zip_rows_valid (a b : list (list Z)) (na nb : nat) :
  forallb (fun r => (List.length r =? na)%nat) a = true ->
  forallb (fun r => (List.length r =? nb)%nat) b = true ->
  forallb (fun r => (List.length r =? na + nb)%nat) (zip_rows a b) = true.
Proof.
  revert b; induction a as [|r a IH]; intros [|s b] Ha Hb; simpl in *; auto.
  apply andb_true_iff in Ha, Hb. destruct Ha as [Hr Ha], Hb as [Hs Hb].
  apply Nat.eqb_eq in Hr, Hs.
  rewrite length_app, Hr, Hs, Nat.eqb_refl. simpl. auto.
Qed.

Lemma hstack_ok (a b m : matrix) :
  hstack a b = Ok m ->
  nrows m = nrows a /\ ncols m = (ncols a + ncols b)%nat
  /\ (valid_matrix a = true -> valid_matrix b = true -> valid_matrix m = true).
Proof.
  unfold hstack. destruct (nrows a =? nrows b)%nat eqn:E; intros H; inversion H.
  apply Nat.eqb_eq in E. unfold nrows in *. simpl.
  split; [now apply zip_rows_length|]. split; [reflexivity|].
  unfold valid_matrix. simpl. apply zip_rows_valid.
Qed.

Lemma hstack_total (a b : matrix) :
  nrows a = nrows b -> exists m, hstack a b = Ok m.
Proof.
  intros H. unfold hstack. apply Nat.eqb_eq in H. rewrite H. eauto.
Qed.

(** Both branches put the table to the right of [X] and keep the storage
    class of [X]. *)
Lemma stack_ok (x x' : xmatrix) (values : matrix) :
  (if is_sparse x then sparse_hstack x values else dense_hstack x values) = Ok x' ->
  exists m m',
    x_matrix x = Some m /\ x_matrix x' = Some m' /\ hstack m values = Ok m'
    /\ is_sparse x' = is_sparse x.
Proof.
  destruct x as [|m|m|m]; simpl; intros H; try discriminate;
    apply bind_ok in H; destruct H as (m' & Hm & H); inversion H; subst;
    exists m, m'; auto.
Qed.

Lemma stack_total (x : xmatrix) (m values : matrix) :
  x_matrix x = Some m -> nrows m = nrows values ->
  exists x', (if is_sparse x then sparse_hstack x values else dense_hstack x values)
             = Ok x'.
Proof.
  intros Hx Hn. destruct (hstack_total m values Hn) as (m' & Hm).
  destruct x as [|m0|m0|m0]; simpl in *; inversion Hx; subst; rewrite Hm; simpl; eauto.
Qed.

(** Every dataset that [concat_matrices] returns obeys the shape law. *)
Lemma concat_matrices_shape_of_result adata ext_df obs_key feature_name
      obs_feature_name d' :
  concat_matrices adata ext_df obs_key feature_name obs_feature_name = Ok d' ->
  exists df m m',
    ext_df = ObsmFrame df
    /\ x_matrix (X adata) = Some m /\ x_matrix (X d') = Some m'
    /\ hstack m (df_values df) = Ok m'
    /\ is_sparse (X d') = is_sparse (X adata)
    /\ List.length (var_names (var d')) = ncols m'.
Proof.
  intros H. apply concat_matrices_ok in H. destruct H as (_ & d & Hd & ->).
  apply stacked_ok in Hd. destruct Hd as (df & x & v & -> & Hx & Hv & Hd & Hname).
  apply AnnData_ok in Hd. destruct Hd as (-> & Hshape).
  apply stack_ok in Hx. destruct Hx as (m & m' & Hm & Hm' & Hh & Hs).
  exists df, m, m'. simpl. repeat split; auto.
  assert (Hfold : forall names t,
             var_names (fold_left fillna_false names t) = var_names t).
  { induction names as [|n names IH]; intros t; simpl; [reflexivity|].
    rewrite IH. reflexivity. }
  rewrite Hfold. simpl. symmetry. apply (Hshape m' Hm').
Qed.

Lemma mem_set_col (k n : string) (c : column) (cols : list (string * column)) :
  mem k (map fst (set_col cols n c)) = mem k (map fst cols) || String.eqb k n.
Proof.
  induction cols as [|[k0 c0] cols IH]; simpl.
  - now rewrite orb_false_r.
  - destruct (String.eqb n k0) eqn:E; simpl.
    + apply String.eqb_eq in E. subst k0.
      destruct (String.eqb k n); simpl; [reflexivity|].
      now rewrite orb_false_r.
    + rewrite IH. now rewrite orb_assoc.
Qed.

Lemma has_dup_set_col (n : string) (c : column) (cols : list (string * column)) :
  has_dup (map fst cols) = false -> has_dup (map fst (set_col cols n c)) = false.
Proof.
  induction cols as [|[k0 c0] cols IH]; simpl; intros H.
  - reflexivity.
  - apply orb_false_iff in H. destruct H as [Hm Hd].
    destruct (String.eqb n k0) eqn:E; simpl.
    + rewrite Hm, Hd. reflexivity.
    + rewrite mem_set_col, Hm, (IH Hd). simpl.
      rewrite String.eqb_sym, E. reflexivity.
Qed.

Lemma labels_frame_length (labels : list string) (name : string) :
  List.length (var_names (labels_frame labels name)) = List.length labels.
Proof.
  unfold labels_frame, range_labels. simpl.
  destruct (PyStr.truthy name); [reflexivity|].
  now rewrite length_map, length_seq.
Qed.

(** Stacking the two frames of [concat_matrices] succeeds when the column
    labels of the original [var] are free of repetitions. *)
Lemma concat_rows_total (t : var_table) (labels : list string) (prev new_name name : string) :
  has_dup (map fst (var_cols t)) = false ->
  exists v,
    concat_rows (assign_true t prev) (assign_true (labels_frame labels name) new_name)
    = Ok v
    /\ List.length (var_names v) = (List.length (var_names t) + List.length labels)%nat.
Proof.
  intros H. unfold concat_rows.
  assert (Ht : has_dup (map fst (var_cols (assign_true t prev))) = false).
  { simpl. now apply has_dup_set_col. }
  rewrite Ht. simpl has_dup. simpl orb. simpl andb. cbv iota.
  eexists; split; [reflexivity|].
  cbn [var_names]. rewrite length_app.
  change (var_names (assign_true t prev)) with (var_names t).
  change (var_names (assign_true (labels_frame labels name) new_name))
    with (var_names (labels_frame labels name)).
  now rewrite labels_frame_length.
Qed.

Lemma valid_dataset_parts (d : Dataset) :
  valid_dataset d = true ->
  valid_x d = true /\ valid_obs (obs d) = true /\ valid_var (var d) = true
  /\ forallb (fun kt => valid_table (n_obs d) (snd kt)) (obsm d) = true.
Proof.
  unfold valid_dataset. rewrite !andb_true_iff. tauto.
Qed.

Lemma valid_table_shape0 (n : nat) (t : table) :
  valid_table n t = true -> shape0 t = n.
Proof.
  destruct t as [m|df]; simpl; rewrite andb_true_iff; intros [H _];
    now apply Nat.eqb_eq in H.
Qed.

Lemma valid_obsm_aligned (n : nat) (om : list (string * table)) :
  forallb (fun kt => valid_table n (snd kt)) om = true ->
  forallb (fun kt => (shape0 (snd kt) =? n)%nat) om = true.
Proof.
  induction om as [|[k t] om IH]; simpl; [reflexivity|].
  rewrite andb_true_iff. intros [Ht Hom].
  rewrite (valid_table_shape0 _ _ Ht), Nat.eqb_refl. simpl. auto.
Qed.

Lemma of_option_ok {A} (e : error) (o : option A) (a : A) :
  of_option e o = Ok a -> o = Some a.
Proof. destruct o; simpl; intros H; inversion H; reflexivity. Qed.

Lemma table_columns_select (mask : list bool) (t : table) :
  table_columns (select_table mask t) = table_columns t.
Proof. destruct t; reflexivity. Qed.

(** The sample filter keeps the tables of obsm and their columns. *)
Lemma sample_filter_columns (c : Dataset) (sample : option pyseq) (c' : Dataset) :
  sample_filter c sample = Ok c' ->
  forall q t', lookup q (obsm c') = Some t' ->
               exists t, lookup q (obsm c) = Some t
                         /\ table_columns t' = table_columns t.
Proof.
  unfold sample_filter. intros H q t' Hq.
  destruct sample as [s|]; [destruct (seq_truthy s)|].
  - apply bind_ok in H. destruct H as (key & _ & H).
    apply bind_ok in H. destruct H as (col & _ & H).
    apply bind_ok in H. destruct H as (value & _ & H).
    inversion H; subst c'; clear H. simpl in Hq.
    rewrite (lookup_map_snd (select_table (eq_mask col value))) in Hq.
    destruct (lookup q (obsm c)) as [t|]; simpl in Hq; inversion Hq; subst.
    exists t. split; [reflexivity | apply table_columns_select].
  - inversion H; subst. eauto.
  - inversion H; subst. eauto.
Qed.


Lemma mapM_ok {A B} (f : A -> result B) (l : list A) (l' : list B) :
  mapM f l = Ok l' <-> Forall2 (fun a b => f a = Ok b) l l'.
Proof.
  revert l'. induction l as [|a l IH]; intros l'; simpl.
  - split; intros H; [inversion H; constructor | inversion H; reflexivity].
  - split; intros H.
    + apply bind_ok in H. destruct H as (b & Hb & H).
      apply bind_ok in H. destruct H as (bs & Hbs & H).
      inversion H; subst. constructor; [exact Hb | now apply IH].
    + inversion H as [|a0 b l0 bs Hb Hbs]; subst.
      rewrite Hb. simpl. apply IH in Hbs. rewrite Hbs. reflexivity.
Qed.

Lemma mapM_ext {A B} (f g : A -> result B) (l : list A) :
  (forall a, In a l -> f a = g a) -> mapM f l = mapM g l.
Proof.
  induction l as [|a l IH]; intros H; simpl; [reflexivity|].
  rewrite (H a (or_introl eq_refl)), IH; [reflexivity|].
  intros a' Ha'. apply H. now right.
Qed.

Lemma mapM_length {A B} (f : A -> result B) (l : list A) (l' : list B) :
  mapM f l = Ok l' -> List.length l' = List.length l.
Proof.
  intros H. apply mapM_ok in H. symmetry. eapply Forall2_length; exact H.
Qed.






Lemma concat_matrices_total adata ext_df obs_key feature_name obs_feature_name :
  concat_ready adata ext_df ->
  exists d', concat_matrices adata ext_df obs_key feature_name obs_feature_name = Ok d'.
Proof.
  intros (df & m & -> & Hname & Hm & Hrows & Hnr & Hnc & Hdup & Hobsm).
  assert (Hn : nrows m = nrows (df_values df)) by (rewrite Hnr; exact Hrows).
  destruct (stack_total (X adata) m (df_values df) Hm Hn) as (x' & Hx').
  destruct (concat_rows_total (var adata) (df_columns df) (is_flag feature_name)
              (is_flag (py_or obs_feature_name obs_key))
              (py_or obs_feature_name obs_key) Hdup) as (v & Hv & Hlen).
  destruct (stack_ok _ _ _ Hx') as (m0 & m' & Hm0 & Hm' & Hh & _).
  rewrite Hm in Hm0. inversion Hm0; subst m0; clear Hm0.
  destruct (hstack_ok _ _ _ Hh) as (Hr' & Hc' & _).
  rewrite concat_matrices_unfold.
  assert (E : (n_obs adata =? shape0 (ObsmFrame df))%nat = true)
    by (apply Nat.eqb_eq; exact Hrows).
  rewrite E. simpl negb. cbv iota.
  unfold stacked. simpl table_values. simpl table_columns.
  simpl table_columns_name. rewrite Hname. unfold to_frame_drop.
  rewrite bind_ret, Hx', !bind_ret, Hv, bind_ret.
  unfold AnnData. rewrite Hm'.
  assert (E1 : (nrows m' =? List.length (obs_names (obs adata)))%nat = true)
    by (apply Nat.eqb_eq; rewrite Hr'; exact Hnr).
  assert (E2 : (ncols m' =? List.length (var_names v))%nat = true)
    by (apply Nat.eqb_eq; rewrite Hc', Hlen, Hnc; reflexivity).
  rewrite E1, E2, Hobsm. simpl. eauto.
Qed.

(** The shape law written out for a result of [concat_matrices]. *)
Lemma shape_law adata df obs_key feature_name obs_feature_name d' :
  concat_matrices adata (ObsmFrame df) obs_key feature_name obs_feature_name = Ok d' ->
  exists m m',
    x_matrix (X adata) = Some m /\ x_matrix (X d') = Some m'
    /\ nrows m' = nrows m
    /\ ncols m' = (ncols m + List.length (df_columns df))%nat
    /\ is_sparse (X d') = is_sparse (X adata).
Proof.
  intros H.
  destruct (concat_matrices_shape_of_result _ _ _ _ _ _ H)
    as (df0 & m & m' & Edf & Hm & Hm' & Hh & Hs & _).
  inversion Edf; subst df0.
  destruct (hstack_ok _ _ _ Hh) as (Hr & Hc & _).
  exists m, m'. repeat split; auto.
Qed.



Lemma lookup_in {A} (k : string) (a : A) (l : list (string * A)) :
  lookup k l = Some a -> In (k, a) l.
Proof.
  induction l as [|[k0 a0] l IH]; simpl; [discriminate|].
  destruct (String.eqb k k0) eqn:E; intros H.
  - apply String.eqb_eq in E. inversion H; subst. now left.
  - right; auto.
Qed.




(** ** Columns of the stacked [var] table *)

Lemma lookup_set_col_same (n : string) (c : column) (cols : list (string * column)) :
  lookup n (set_col cols n c) = Some c.
Proof.
  induction cols as [|[k0 c0] cols IH]; simpl.
  - now rewrite String.eqb_refl.
  - destruct (String.eqb n k0) eqn:E; simpl; rewrite E; auto.
Qed.

Lemma lookup_set_col_other (k n : string) (c : column) (cols : list (string * column)) :
  String.eqb k n = false -> lookup k (set_col cols n c) = lookup k cols.
Proof.
  intros Hk. induction cols as [|[k0 c0] cols IH]; simpl.
  - now rewrite Hk.
  - destruct (String.eqb n k0) eqn:E; simpl.
    + apply String.eqb_eq in E. subst k0. now rewrite Hk.
    + now rewrite IH.
Qed.

Lemma lookup_app {A} (k : string) (l1 l2 : list (string * A)) :
  lookup k (l1 ++ l2) =
  match lookup k l1 with
  | Some a => Some a
  | None => lookup k l2
  end.
Proof.
  induction l1 as [|[k0 a0] l1 IH]; simpl; [reflexivity|].
  destruct (String.eqb k k0); auto.
Qed.

Lemma lookup_map_keyed {A B} (F : string -> A -> B) (k : string) (l : list (string * A)) :
  lookup k (map (fun nc : string * A => let (n, c) := nc in (n, F n c)) l)
  = option_map (F k) (lookup k l).
Proof.
  induction l as [|[k0 a0] l IH]; simpl; [reflexivity|].
  destruct (String.eqb k k0) eqn:E; [|exact IH].
  apply String.eqb_eq in E. subst k0. reflexivity.
Qed.

Lemma lookup_none_mem {A} (k : string) (l : list (string * A)) :
  lookup k l = None -> mem k (map fst l) = false.
Proof.
  induction l as [|[k0 a0] l IH]; simpl; [reflexivity|].
  destruct (String.eqb k k0); [discriminate | auto].
Qed.

Lemma fill_cell_idem (c : cell) : fill_cell (fill_cell c) = fill_cell c.
Proof. destruct c; reflexivity. Qed.

Lemma map_fill_cell_idem (l : list cell) :
  map fill_cell (map fill_cell l) = map fill_cell l.
Proof.
  rewrite map_map. apply map_ext. intros c. apply fill_cell_idem.
Qed.

Lemma cells_of_fillna_false (t : var_table) (n k : string) :
  cells_of (fillna_false t n) k =
  option_map (fun cells => if String.eqb n k then map fill_cell cells else cells)
             (cells_of t k).
Proof.
  unfold cells_of, fillna_false. simpl.
  induction (var_cols t) as [|[k0 c0] cols IH]; simpl; [reflexivity|].
  destruct (String.eqb n k0) eqn:En; simpl.
  - destruct (String.eqb k k0) eqn:Ek; simpl.
    + apply String.eqb_eq in En, Ek. subst. now rewrite String.eqb_refl.
    + exact IH.
  - destruct (String.eqb k k0) eqn:Ek; simpl.
    + apply String.eqb_eq in Ek. subst k0. now rewrite En.
    + exact IH.
Qed.

(** After any number of fills a column holds its cells either as they were or
    filled; filled for sure if its name is among those filled. *)
Lemma cells_of_fold_fillna (names : list string) (t : var_table) (k : string) :
  cells_of (fold_left fillna_false names t) k =
  option_map (fun cells => if mem k names then map fill_cell cells else cells)
             (cells_of t k).
Proof.
  revert t. induction names as [|n names IH]; intros t; simpl.
  - destruct (cells_of t k); reflexivity.
  - rewrite IH, cells_of_fillna_false.
    destruct (cells_of t k) as [cells|]; simpl; [|reflexivity].
    rewrite (String.eqb_sym k n).
    destruct (String.eqb n k), (mem k names); simpl;
      now rewrite ?map_fill_cell_idem.
Qed.

Lemma var_names_fold_fillna (names : list string) (t : var_table) :
  var_names (fold_left fillna_false names t) = var_names t.
Proof.
  revert t. induction names as [|n names IH]; intros t; simpl; [reflexivity|].
  now rewrite IH.
Qed.
Lemma cells_of_concat_rows_single (top : var_table) (bnames : list string)
      (new_name : string) (c_new : column) (v : var_table) :
  concat_rows top {| var_names := bnames; var_cols := [(new_name, c_new)] |} = Ok v ->
  var_names v = var_names top ++ bnames
  /\ forall k,
      cells_of v k =
      match lookup k (var_cols top) with
      | Some c =>
          Some (if String.eqb k new_name
                then cast_column (join_dtype (col_dtype c) (col_dtype c_new)) c
                     ++ cast_column (join_dtype (col_dtype c) (col_dtype c_new)) c_new
                else kept_cells c (List.length bnames)
                     ++ repeat VNA (List.length bnames))
      | None =>
          if String.eqb k new_name
          then Some (repeat VNA (List.length (var_names top))
                     ++ kept_cells c_new (List.length (var_names top)))
          else None
      end.
Proof.
  unfold concat_rows. destruct (_ && _); [discriminate|].
  intros H. inversion H; subst v; clear H. split; [reflexivity|].
  intros k. unfold cells_of, kept_cells. cbn [var_cols var_names].
  rewrite lookup_app, lookup_map_keyed.
  destruct (lookup k (var_cols top)) as [c|] eqn:Hk; cbn [option_map].
  - simpl lookup. destruct (String.eqb k new_name); reflexivity.
  - apply lookup_none_mem in Hk.
    destruct (String.eqb k new_name) eqn:E.
    + apply String.eqb_eq in E. subst k. simpl filter. rewrite Hk. simpl.
      rewrite String.eqb_refl. reflexivity.
    + simpl filter. destruct (negb _); simpl; [rewrite E|]; reflexivity.
Qed.

Lemma cast_cell_same (d : dtype) (c : cell) : cast_cell d d c = c.
Proof. destruct d, c; reflexivity. Qed.

Lemma cast_cell_object (d : dtype) (c : cell) : cast_cell d DObject c = c.
Proof. destruct d, c; reflexivity. Qed.

(** Stacking booleans below a column leaves the cells of the column as they
    are. *)
Lemma cast_column_join_bool (c : column) :
  cast_column (join_dtype (col_dtype c) DBool) c = col_cells c.
Proof.
  unfold cast_column. rewrite <- (map_id (col_cells c)) at 2.
  apply map_ext. intros x. destruct (col_dtype c); simpl;
    auto using cast_cell_same, cast_cell_object.
Qed.

Lemma cast_column_true (d : dtype) (n : nat) :
  cast_column (join_dtype d DBool) (true_column n) = repeat (flag_cell d) n.
Proof.
  unfold cast_column, flag_cell. cbn [true_column col_dtype col_cells].
  induction n; simpl; [reflexivity|]. now rewrite IHn.
Qed.

(** Missing rows leave the cells of a column that is not int64 as they
    are. *)
Lemma kept_cells_same (c : column) (k : nat) :
  col_dtype c <> DInt -> kept_cells c k = col_cells c.
Proof.
  intros H. unfold kept_cells, cast_column. rewrite <- (map_id (col_cells c)) at 2.
  apply map_ext. intros x. destruct (col_dtype c), k; simpl;
    auto using cast_cell_same, cast_cell_object; congruence.
Qed.

Lemma kept_cells_true (n k : nat) :
  kept_cells (true_column n) k = repeat (VBool true) n.
Proof. apply kept_cells_same. discriminate. Qed.

Lemma cast_column_length (t : dtype) (c : column) :
  List.length (cast_column t c) = List.length (col_cells c).
Proof. unfold cast_column. apply length_map. Qed.

Lemma kept_cells_length (c : column) (k : nat) :
  List.length (kept_cells c k) = List.length (col_cells c).
Proof. unfold kept_cells, cast_column. apply length_map. Qed.

Lemma map_fill_repeat_bool (b : bool) (n : nat) :
  map fill_cell (repeat (VBool b) n) = repeat (VBool b) n.
Proof. induction n; simpl; congruence. Qed.

Lemma map_fill_repeat_na (n : nat) :
  map fill_cell (repeat VNA n) = repeat (VBool false) n.
Proof. induction n; simpl; congruence. Qed.






(** The [var] table of a result of [concat_matrices], column by column: the
    rows are those of the original table followed by one per column of the
    annotation table; a column of the original table is continued by [True]
    (the flag of the new features) or by missing values, the flag of the new
    features starts with missing values if the original table lacks it; the
    two flags and the boolean columns of the original table are then
    filled. *)
Lemma concat_matrices_var adata ext_df obs_key feature_name obs_feature_name d' :
  concat_matrices adata ext_df obs_key feature_name obs_feature_name = Ok d' ->
  exists df,
    ext_df = ObsmFrame df
    /\ n_vars d' = (n_vars adata + List.length (df_columns df))%nat
    /\ var_names (var d')
       = var_names (var adata)
         ++ var_names (labels_frame (df_columns df) (py_or obs_feature_name obs_key))
    /\ forall k,
        cells_of (var d') k =
        option_map
          (fun cells =>
             if String.eqb (is_flag feature_name) k
                || String.eqb (is_flag (py_or obs_feature_name obs_key)) k
                || mem k (bool_columns (var adata))
             then map fill_cell cells else cells)
          match lookup k (set_col (var_cols (var adata)) (is_flag feature_name)
                                  (true_column (n_vars adata))) with
          | Some c =>
              Some (if String.eqb k (is_flag (py_or obs_feature_name obs_key))
                    then col_cells c
                         ++ repeat (flag_cell (col_dtype c)) (List.length (df_columns df))
                    else kept_cells c (List.length (df_columns df))
                         ++ repeat VNA (List.length (df_columns df)))
          | None =>
              if String.eqb k (is_flag (py_or obs_feature_name obs_key))
              then Some (repeat VNA (n_vars adata)
                         ++ repeat (VBool true) (List.length (df_columns df)))
              else None
          end.
Proof.
  intros H. apply concat_matrices_ok in H. destruct H as (_ & d & Hd & ->).
  apply stacked_ok in Hd. destruct Hd as (df & x & v & -> & _ & Hv & Hd & Hname).
  apply AnnData_ok in Hd. destruct Hd as (-> & _).
  apply cells_of_concat_rows_single in Hv. destruct Hv as (Hnames & Hcells).
  exists df. split; [reflexivity|].
  unfold n_vars. cbn [set_var var].
  rewrite var_names_fold_fillna. cbn [fillna_false var_names].
  rewrite Hnames. cbn [assign_true var_names].
  split; [now rewrite length_app, labels_frame_length|].
  split; [reflexivity|].
  intros k. rewrite cells_of_fold_fillna, !cells_of_fillna_false, Hcells.
  cbn [assign_true var_names var_cols].
  rewrite labels_frame_length, kept_cells_true.
  change (col_dtype (true_column (List.length (df_columns df)))) with DBool.
  destruct (lookup k _) as [c|]; cbn [option_map].
  - rewrite cast_column_join_bool, cast_column_true.
    destruct (String.eqb (is_flag feature_name) k),
      (String.eqb (is_flag (py_or obs_feature_name obs_key)) k),
      (mem k (bool_columns (var adata))); simpl;
      now rewrite ?map_fill_cell_idem.
  - destruct (String.eqb k (is_flag (py_or obs_feature_name obs_key)));
      cbn [option_map]; [|reflexivity].
    destruct (String.eqb (is_flag feature_name) k),
      (String.eqb (is_flag (py_or obs_feature_name obs_key)) k),
      (mem k (bool_columns (var adata))); simpl;
      now rewrite ?map_fill_cell_idem.
Qed.

(** ** Provenance flags *)


(** A column of strings that happens to carry the name of the new flag keeps
    its strings in the original rows. *)
Lemma new_flag_keeps_foreign_values :
  let adata := {| X := XDense {| ncols := 1; rows := [[1]] |};
                  obs := {| obs_names := ["0"]; obs_cols := [] |};
                  var := {| var_names := ["g1"];
                            var_cols := [("is_celltype",
                                          {| col_dtype := DObject;
                                             col_cells := [VStr "yes"] |})] |};
                  obsm := []; uns := [] |} in
  let df := frame ["p"] ["0"] [[7]] in
  exists d',
    concat_matrices adata (ObsmFrame df) "celltype" "gene" None = Ok d'
    /\ cells_of (var d') "is_celltype" = Some [VStr "yes"; VBool true].
Proof.
  intros adata df. eexists. split; vm_compute; reflexivity.
Qed.





(** ** The flag of the obsm source *)






(** ** The sample filter of the companion source *)

Lemma select_eq_mask {A} (col : label_column) (value : string) (l : list A) :
  select (eq_mask col value) l = rows_labelled col value l.
Proof.
  unfold eq_mask, rows_labelled.
  change (fun v : option string =>
            match v with Some s => String.eqb s value | None => false end)
    with (has_label value).
  generalize (label_values col) as vals. intros vals. revert l.
  induction vals as [|v vals IH]; intros [|x l]; simpl; try reflexivity.
  destruct (has_label value v); simpl; now rewrite IH.
Qed.

Lemma select_length {A B} (mask : list bool) (a : list A) (b : list B) :
  List.length a = List.length b ->
  List.length (select mask a) = List.length (select mask b).
Proof.
  revert a b. induction mask as [|x mask IH]; intros [|u a] [|v b] H; simpl in *;
    try discriminate; try reflexivity.
  destruct x; simpl; auto.
Qed.

(** With an empty string as sample nothing is filtered, and there is no
    [sample[0]] to name a column. *)
Lemma sample_contract_fails_on_empty_string :
  ~ sample_contract_as_stated companion_example (PStr "").
Proof.
  intros H. destruct (H companion_example eq_refl) as (key & value & col & Hk & _).
  discriminate Hk.
Qed.

Lemma select_table_shape0 (mask : list bool) (t : table) (names : list string) :
  shape0 t = List.length names ->
  shape0 (select_table mask t) = List.length (select mask names).
Proof.
  destruct t as [m|df]; simpl; unfold nrows; simpl; apply select_length.
Qed.

Lemma list_eqb_eq (a b : list string) : list_eqb a b = true <-> a = b.
Proof.
  unfold list_eqb. destruct (list_eq_dec String.string_dec a b); split; auto;
    discriminate.
Qed.

Lemma select_table_fits (mask : list bool) (t : table) (names : list string) :
  fits_obs names t = true -> fits_obs (select mask names) (select_table mask t) = true.
Proof.
  unfold fits_obs. rewrite !andb_true_iff. intros [Hn Hi]. apply Nat.eqb_eq in Hn.
  rewrite (select_table_shape0 mask t _ Hn), Nat.eqb_refl. split; [reflexivity|].
  destruct t as [m|df]; simpl; [reflexivity|].
  apply list_eqb_eq in Hi. rewrite Hi. now apply list_eqb_eq.
Qed.

Lemma subset_obs_aligned (c : Dataset) (mask : list bool) :
  forallb (fun kt => fits_obs (obs_names (obs c)) (snd kt)) (obsm c) = true ->
  forallb (fun kt => fits_obs (obs_names (obs (subset_obs c mask))) (snd kt))
          (obsm (subset_obs c mask)) = true.
Proof.
  simpl. induction (obsm c) as [|[k t] om IH]; simpl; [reflexivity|].
  rewrite andb_true_iff. intros [Ht Hom].
  rewrite (select_table_fits mask t _ Ht). simpl. auto.
Qed.

(** C9 (amended).  For a sample that is not empty and has the components
    [sample[0] = key] and [sample[1] = value], with [key] a column of the
    companion's obs, the companion dataset is restricted to exactly the rows
    whose [key] label equals [value]: its obs names and the rows of its obsm
    tables are those rows, in order, and the concatenation is the one that a
    companion file already restricted to those rows gives without sample.  For
    a string of two or more characters [key] is its first character and
    [value] its second. *)
Theorem sample_filter_by_pair :
  forall (c : Dataset) (sample : pyseq) (key value : string) (col : label_column),
    seq_truthy sample = true ->
    getitem sample 0 = Ok key ->
    getitem sample 1 = Ok value ->
    lookup key (obs_cols (obs c)) = Some col ->
    sample_filter c (Some sample) = Ok (subset_obs c (eq_mask col value))
    /\ obs_names (obs (subset_obs c (eq_mask col value)))
       = rows_labelled col value (obs_names (obs c))
    /\ (forall q df,
           lookup q (obsm c) = Some (ObsmFrame df) ->
           lookup q (obsm (subset_obs c (eq_mask col value)))
           = Some (ObsmFrame {| df_columns := df_columns df;
                                df_columns_name := df_columns_name df;
                                df_index := rows_labelled col value (df_index df);
                                df_rows := rows_labelled col value (df_rows df) |}))
    /\ (forall a b rest,
           sample = PStr (String a (String b rest)) ->
           key = String a EmptyString /\ value = String b EmptyString)
    /\ (forall st adata c2l_file q feature_name obs_feature_name f,
           open_h5 st c2l_file = Ok f ->
           c = companion f ->
           forallb (fun kt => fits_obs (obs_names (obs f)) (snd kt)) (obsm f) = true ->
           concat_matrix_from_cell2location st adata c2l_file q (Some sample)
                                            feature_name obs_feature_name
           = concat_matrix_from_cell2location
               (with_file st c2l_file (subset_obs c (eq_mask col value)))
               adata c2l_file q None feature_name obs_feature_name).
Proof.
  intros c sample key value col Ht H0 H1 Hcol.
  split; [|split; [|split; [|split]]].
  - unfold sample_filter. rewrite Ht, H0. simpl. rewrite Hcol. simpl.
    rewrite H1. reflexivity.
  - simpl. apply select_eq_mask.
  - intros q df Hq. simpl. rewrite lookup_map_snd, Hq. simpl.
    now rewrite !select_eq_mask.
  - intros a b rest ->. simpl in H0, H1. inversion H0; inversion H1; auto.
  - intros st adata c2l_file q feature_name obs_feature_name f Hf -> Hal.
    change (obs (companion f)) with (obs f) in Hcol.
    unfold concat_matrix_from_cell2location.
    rewrite Hf, bind_ret.
    assert (EA : AnnData XNone (obs f) (var f) (obsm f) [] = Ok (companion f)).
    { unfold AnnData. simpl x_matrix. cbv iota. rewrite Hal. reflexivity. }
    rewrite EA, bind_ret.
    assert (EF : sample_filter (companion f) (Some sample)
                 = Ok (subset_obs (companion f) (eq_mask col value))).
    { unfold sample_filter. rewrite Ht, H0, bind_ret.
      change (obs (companion f)) with (obs f). rewrite Hcol.
      simpl of_option. rewrite bind_ret, H1, bind_ret. reflexivity. }
    rewrite EF, bind_ret.
    set (sc := subset_obs (companion f) (eq_mask col value)).
    assert (EO : open_h5 (with_file st c2l_file sc) c2l_file = Ok sc).
    { unfold open_h5, with_file. now rewrite String.eqb_refl. }
    rewrite EO, bind_ret.
    assert (EB : AnnData XNone (obs sc) (var sc) (obsm sc) [] = Ok sc).
    { unfold AnnData. simpl x_matrix. cbv iota.
      pose proof (subset_obs_aligned (companion f) (eq_mask col value) Hal) as Hs.
      fold sc in Hs. rewrite Hs. reflexivity. }
    rewrite EB, bind_ret. reflexivity.
Qed.

(** The sample [sx], a string, keeps the three rows of [companion_example]
    whose label in column [s] is [x]. *)
Lemma sample_filter_by_pair_witness :
  sample_filter companion_example (Some (PStr "sx"))
  = Ok (subset_obs companion_example
          (eq_mask (StringColumn [Some "x"; Some "y"; Some "x"; Some "x"]) "x"))
  /\ obs_names (obs (subset_obs companion_example
                       (eq_mask (StringColumn [Some "x"; Some "y"; Some "x"; Some "x"])
                                "x")))
     = ["a"; "c"; "d"].
Proof.
  destruct (sample_filter_by_pair companion_example (PStr "sx") "s" "x"
              (StringColumn [Some "x"; Some "y"; Some "x"; Some "x"])
              eq_refl eq_refl eq_refl eq_refl) as (H1 & H2 & _).
  split; [exact H1 | exact H2].
Defined.

(** ** Feature intersection *)

Lemma mem_In (s : string) (l : list string) : mem s l = true <-> In s l.
Proof.
  induction l as [|x l IH]; simpl.
  - split; [discriminate | tauto].
  - rewrite orb_true_iff, IH, String.eqb_eq. split; intros [H|H]; auto.
Qed.

Lemma In_unique (s : string) (l : list string) : In s (unique l) <-> In s l.
Proof.
  induction l as [|x l IH]; simpl; [tauto|].
  rewrite filter_In, IH, negb_true_iff, String.eqb_neq.
  destruct (String.string_dec x s) as [->|Hne]; [tauto|].
  split; [intros [H|[H _]]; auto | intros [H|H]; [congruence | auto]].
Qed.

Lemma In_index_intersection (s : string) (a b : list string) :
  In s (index_intersection a b) <-> In s a /\ In s b.
Proof.
  unfold index_intersection. now rewrite In_unique, filter_In, mem_In.
Qed.

Lemma In_fold_intersection (s : string) (others : list (list string)) (i : list string) :
  In s (fold_left index_intersection others i) <-> In s i /\ Forall (In s) others.
Proof.
  revert i. induction others as [|o others IH]; intros i; simpl.
  - split; [intros H; split; [exact H | constructor] | tauto].
  - rewrite IH, In_index_intersection. split.
    + intros [[Hi Ho] Hall]. split; [exact Hi | now constructor].
    + intros [Hi Hall]. inversion Hall; subst. tauto.
Qed.

(** The labels of the intersection are those that every index has. *)
Lemma inner_join_index_common (var_indices : list (list string)) (ids : list string) :
  inner_join_index var_indices = Ok ids ->
  forall s, In s ids <-> Forall (In s) var_indices.
Proof.
  destruct var_indices as [|i [|o others]]; simpl; intros H s.
  - discriminate.
  - inversion H; subst. split; [intros Hs; now repeat constructor|].
    intros Hs. now inversion Hs.
  - destruct (has_dup i || (has_dup o || existsb has_dup others)); [discriminate|].
    inversion H; subst. clear H.
    change (fold_left index_intersection others (index_intersection i o))
      with (fold_left index_intersection (o :: others) i).
    rewrite In_fold_intersection. split.
    + intros [Hi Hall]. now constructor.
    + intros Hall. inversion Hall; subst. tauto.
Qed.

Lemma position_nth (s : string) (l : list string) (p : nat) :
  position s l = Some p -> nth p l EmptyString = s.
Proof.
  revert p. induction l as [|x l IH]; intros p; simpl; [discriminate|].
  destruct (String.eqb s x) eqn:E.
  - intros H. inversion H; subst. now apply String.eqb_eq in E.
  - destruct (position s l) as [q|]; simpl; [|discriminate].
    intros H. inversion H; subst. now apply IH.
Qed.

Lemma position_total (s : string) (l : list string) :
  In s l -> exists p, position s l = Some p.
Proof.
  induction l as [|x l IH]; simpl; [tauto|].
  intros H. destruct (String.eqb s x) eqn:E; [eauto|].
  destruct H as [->|H]; [now rewrite String.eqb_refl in E|].
  destruct (IH H) as (p & ->). simpl. eauto.
Qed.

(** The features selected by name are those names, in the order asked. *)
Lemma select_vars_ok (adata : Dataset) (names : list string) (d : Dataset) :
  select_vars adata names = Ok d ->
  var_names (var d) = names
  /\ obs d = obs adata
  /\ forall m, x_matrix (X d) = Some m ->
               ncols m = List.length names /\ valid_matrix m = true
               /\ exists m0, x_matrix (X adata) = Some m0 /\ nrows m = nrows m0.
Proof.
  unfold select_vars. destruct (has_dup _); [discriminate|].
  intros H. apply bind_ok in H. destruct H as (ps & Hps & H).
  inversion H; subst d; clear H. simpl.
  apply mapM_ok in Hps.
  assert (Hlen : List.length ps = List.length names).
  { symmetry. eapply Forall2_length; exact Hps. }
  split; [|split; [reflexivity|]].
  - unfold take_positions. clear Hlen.
    induction Hps as [|s p names ps Hp _ IH]; simpl; [reflexivity|].
    rewrite IH. f_equal.
    destruct (position s (var_names (var adata))) as [q|] eqn:E; simpl in Hp;
      [|discriminate].
    inversion Hp; subst. now apply position_nth.
  - intros m Hm.
    assert (Hcols : forall m0, ncols (take_columns ps m0) = List.length names
                               /\ valid_matrix (take_columns ps m0) = true
                               /\ nrows (take_columns ps m0) = nrows m0).
    { intros m0. unfold take_columns, valid_matrix, nrows. simpl.
      split; [exact Hlen|]. split; [|apply length_map].
      rewrite forallb_forall. intros r Hr. apply in_map_iff in Hr.
      destruct Hr as (r0 & <- & _). unfold take_positions.
      rewrite length_map. apply Nat.eqb_refl. }
    destruct (X adata) as [|m0|m0|m0]; simpl in Hm; inversion Hm; subst m;
      destruct (Hcols m0) as (H1 & H2 & H3);
      (split; [exact H1|]; split; [exact H2|]; exists m0; split;
       [reflexivity | exact H3]).
Qed.

Lemma select_vars_total (adata : Dataset) (names : list string) :
  has_dup (var_names (var adata)) = false ->
  (forall s, In s names -> In s (var_names (var adata))) ->
  exists d, select_vars adata names = Ok d.
Proof.
  intros Hdup Hin. unfold select_vars. rewrite Hdup.
  assert (Hps : exists ps,
             mapM (fun s => of_option KeyError (position s (var_names (var adata))))
                  names = Ok ps).
  { induction names as [|s names IH]; simpl; [eauto|].
    destruct (position_total s _ (Hin s (or_introl eq_refl))) as (p & ->). simpl.
    destruct IH as (ps & ->); [intros s' Hs'; apply Hin; now right|].
    simpl. eauto. }
  destruct Hps as (ps & ->). simpl. eauto.
Qed.

Lemma inner_join_index_total (var_indices : list (list string)) :
  var_indices <> [] ->
  Forall (fun i => has_dup i = false) var_indices ->
  exists ids, inner_join_index var_indices = Ok ids.
Proof.
  intros Hne Hall. destruct var_indices as [|i [|o others]]; [congruence| |].
  - simpl. eauto.
  - assert (E : existsb has_dup (i :: o :: others) = false).
    { clear Hne. induction Hall as [|x l Hx _ IH]; simpl; [reflexivity|].
      now rewrite Hx, IH. }
    unfold inner_join_index. rewrite E. eauto.
Qed.

(** C3.  The feature intersection is a function of the feature labels read
    at the given paths, so a second run that reads the same labels returns the
    same labels in the same order; whenever [intersect_features] succeeds,
    every dataset it hands to the writer has exactly the labels of the
    intersection as its features, in that order, and a matrix (if any) with as
    many columns, each row full; and it does succeed, with the intersection
    made of the labels common to all inputs, whenever there is at least one
    path and each path reads as a dataset whose feature labels are free of
    repetitions. *)
Theorem intersection_deterministic_and_shared :
  (forall (st st' : store) (paths : list string),
      (forall p, In p paths -> read_var_index st' p = read_var_index st p) ->
      get_feature_intersection st' paths = get_feature_intersection st paths)
  /\ (forall (st : store) (paths : list string) (outs : list (string * Dataset)),
         intersect_features st paths = Ok outs ->
         exists ids,
           get_feature_intersection st paths = Ok ids
           /\ List.length outs = List.length paths
           /\ Forall (fun out : string * Dataset =>
                        var_names (var (snd out)) = ids
                        /\ forall m, x_matrix (X (snd out)) = Some m ->
                                     ncols m = List.length ids
                                     /\ valid_matrix m = true) outs)
  /\ (forall (st : store) (paths : list string) (ds : list Dataset),
         paths <> [] ->
         Forall2 (fun p d => read_var_index st p = Ok (var_names (var d))
                             /\ read_anndata st p = Ok d
                             /\ has_dup (var_names (var d)) = false) paths ds ->
         exists ids outs,
           get_feature_intersection st paths = Ok ids
           /\ intersect_features st paths = Ok outs
           /\ forall s, In s ids <-> Forall (fun d => In s (var_names (var d))) ds).
Proof.
  split; [|split].
  - intros st st' paths H. unfold get_feature_intersection.
    now rewrite (mapM_ext (read_var_index st') (read_var_index st) paths H).
  - intros st paths outs H. unfold intersect_features in H.
    apply bind_ok in H. destruct H as (ids & Hids & H).
    exists ids. split; [exact Hids|].
    apply mapM_ok in H. split; [symmetry; eapply Forall2_length; exact H|].
    clear Hids.
    induction H as [|p out paths' outs' Hp _ IH]; [constructor|].
    constructor; [|exact IH].
    apply bind_ok in Hp. destruct Hp as (adata & _ & Hp).
    apply bind_ok in Hp. destruct Hp as (d & Hd & Hp).
    inversion Hp; subst out; clear Hp. simpl.
    apply select_vars_ok in Hd. destruct Hd as (Hn & _ & Hm).
    split; [exact Hn|]. intros m Hx. destruct (Hm m Hx) as (H1 & H2 & _). auto.
  - intros st paths ds Hne Hall.
    assert (Hread : mapM (read_var_index st) paths
                    = Ok (map (fun d => var_names (var d)) ds)).
    { apply mapM_ok. clear Hne.
      induction Hall as [|p d paths' ds' (Hp & _) _ IH]; simpl; constructor; auto. }
    assert (Hnodup : Forall (fun i => has_dup i = false)
                            (map (fun d => var_names (var d)) ds)).
    { clear Hne Hread.
      induction Hall as [|p d paths' ds' (_ & _ & Hd) _ IH]; simpl; constructor; auto. }
    assert (Hne' : map (fun d => var_names (var d)) ds <> []).
    { destruct Hall; simpl; congruence. }
    destruct (inner_join_index_total _ Hne' Hnodup) as (ids & Hids).
    pose proof (inner_join_index_common _ _ Hids) as Hcommon.
    assert (Hsem : forall s, In s ids
                             <-> Forall (fun d => In s (var_names (var d))) ds).
    { intros s. rewrite Hcommon, Forall_map. reflexivity. }
    assert (Hget : get_feature_intersection st paths = Ok ids).
    { unfold get_feature_intersection. rewrite Hread. exact Hids. }
    exists ids.
    assert (Houts : exists outs,
               mapM (fun path =>
                       adata <- read_anndata st path ;;
                       adata <- select_vars adata ids ;;
                       Ok (("intersect-" ++ fst (PyStr.splitext (PyStr.basename path)))%string,
                           adata)) paths = Ok outs).
    { assert (Hsub : Forall (fun d => forall s, In s ids -> In s (var_names (var d))) ds).
      { rewrite Forall_forall. intros d Hd s Hs. apply Hsem in Hs.
        rewrite Forall_forall in Hs. now apply Hs. }
      clear Hne Hread Hnodup Hne' Hids Hcommon Hsem Hget.
      induction Hall as [|p d paths' ds' (_ & Hr & Hd) _ IH]; [simpl; eauto|].
      inversion Hsub as [|d0 l0 Hd0 Hl0]; subst.
      destruct (select_vars_total d ids Hd Hd0) as (d' & Hsel).
      destruct (IH Hl0) as (outs & Houts).
      cbn [mapM]. rewrite Hr, bind_ret, Hsel, !bind_ret, Houts, bind_ret. eauto. }
    destruct Houts as (outs & Houts).
    exists outs. split; [exact Hget|]. split; [|exact Hsem].
    unfold intersect_features. rewrite Hget. exact Houts.
Qed.

(** The two datasets with features g1, g2, g3 and g2, g3, g4: the
    intersection is g2, g3 and both outputs have these two features. *)
Lemma intersection_deterministic_and_shared_witness :
  get_feature_intersection two_files ["a.zarr"; "out/b.h5ad"] = Ok ["g2"; "g3"]
  /\ (exists ids,
         get_feature_intersection two_files ["a.zarr"; "out/b.h5ad"] = Ok ids
         /\ List.length
              [("intersect-a", features_dataset ["g2"; "g3"] [2; 3]);
               ("intersect-b", features_dataset ["g2"; "g3"] [4; 5])] = 2%nat
         /\ Forall (fun out : string * Dataset =>
                      var_names (var (snd out)) = ids
                      /\ forall m, x_matrix (X (snd out)) = Some m ->
                                   ncols m = List.length ids
                                   /\ valid_matrix m = true)
                   [("intersect-a", features_dataset ["g2"; "g3"] [2; 3]);
                    ("intersect-b", features_dataset ["g2"; "g3"] [4; 5])])
  /\ (exists ids outs,
         get_feature_intersection two_files ["a.zarr"; "out/b.h5ad"] = Ok ids
         /\ intersect_features two_files ["a.zarr"; "out/b.h5ad"] = Ok outs
         /\ forall s, In s ids
                      <-> Forall (fun d => In s (var_names (var d)))
                                 [features_dataset ["g1"; "g2"; "g3"] [1; 2; 3];
                                  features_dataset ["g2"; "g3"; "g4"] [4; 5; 6]]).
Proof.
  destruct intersection_deterministic_and_shared as (H1 & H2 & H3).
  split; [|split].
  - exact (eq_trans (H1 two_files two_files ["a.zarr"; "out/b.h5ad"]
                       (fun p _ => eq_refl)) eq_refl).
  - apply (H2 two_files ["a.zarr"; "out/b.h5ad"]). reflexivity.
  - apply (H3 two_files ["a.zarr"; "out/b.h5ad"]).
    + discriminate.
    + repeat constructor.
Defined.

(** ** [str] and [int] are inverse on integers *)

Lemma scan_digits_string_of_uint (d : Decimal.uint) (acc : Z) :
  PyInt.scan_digits acc false (NilEmpty.string_of_uint d) = Some (uint_value d acc).
Proof.
  revert acc. induction d; intros acc; simpl NilEmpty.string_of_uint;
    try reflexivity;
    cbn [PyInt.scan_digits uint_value];
    match goal with |- context [PyInt.digit_of ?c] =>
      let v := eval vm_compute in (PyInt.digit_of c) in
      change (PyInt.digit_of c) with v end;
    cbv iota; apply IHd.
Qed.

Lemma uint_value_pos (d : Decimal.uint) (acc : positive) :
  uint_value d (Z.pos acc) = Z.pos (Pos.of_uint_acc d acc).
Proof.
  revert acc. induction d; intros acc; cbn [uint_value Pos.of_uint_acc];
    try reflexivity; rewrite <- IHd; f_equal; lia.
Qed.

Lemma uint_value_zero (d : Decimal.uint) :
  uint_value d 0 = Z.of_N (Pos.of_uint d).
Proof.
  induction d; simpl; try reflexivity; try exact IHd;
    match goal with |- uint_value _ ?k = _ =>
      change k with (Z.pos (Z.to_pos k)) end;
    rewrite uint_value_pos; reflexivity.
Qed.

Lemma count_digits_string_of_uint (d : Decimal.uint) :
  PyInt.count_digits (NilEmpty.string_of_uint d) = Decimal.nb_digits d.
Proof.
  induction d; simpl NilEmpty.string_of_uint; [reflexivity|..];
    cbn [PyInt.count_digits Decimal.nb_digits];
    match goal with |- context [PyInt.digit_of ?c] =>
      let v := eval vm_compute in (PyInt.digit_of c) in
      change (PyInt.digit_of c) with v end;
    cbv iota; now rewrite IHd.
Qed.

Lemma uint_value_split (d : Decimal.uint) (acc : Z) :
  uint_value d acc = acc * 10 ^ Z.of_nat (Decimal.nb_digits d) + uint_value d 0.
Proof.
  revert acc. induction d; intros acc; cbn [uint_value Decimal.nb_digits];
    [simpl; lia|..];
    rewrite Nat2Z.inj_succ, Z.pow_succ_r by lia;
    rewrite IHd; rewrite (IHd (10 * 0 + _)); ring.
Qed.

Lemma uint_value_nonneg (d : Decimal.uint) (acc : Z) :
  0 <= acc -> 0 <= uint_value d acc.
Proof.
  revert acc. induction d; intros acc H; cbn [uint_value]; [exact H|..];
    apply IHd; lia.
Qed.

(** A number whose first digit is not zero is at least the power of ten of
    its other digits. *)
Lemma uint_value_lower (d : Decimal.uint) (k : Z) :
  1 <= k -> 10 ^ Z.of_nat (Decimal.nb_digits d) <= uint_value d k.
Proof.
  intros Hk. rewrite uint_value_split.
  pose proof (uint_value_nonneg d 0 (Z.le_refl 0)).
  assert (0 < 10 ^ Z.of_nat (Decimal.nb_digits d)) by (apply Z.pow_pos_nonneg; lia).
  nia.
Qed.

(** The decimal form of a positive number does not start with a zero. *)
Lemma to_uint_head (p : positive) (d : Decimal.uint) : Pos.to_uint p <> Decimal.D0 d.
Proof.
  intros E.
  pose proof (DecimalPos.Unsigned.to_of (Pos.to_uint p)) as H.
  rewrite DecimalPos.Unsigned.of_to in H. simpl N.to_uint in H.
  rewrite E in H. unfold Decimal.unorm in H. simpl Decimal.nzhead in H.
  destruct (Decimal.nzhead d) eqn:En; try discriminate H.
  - inversion H; subst d.
    exact (DecimalPos.Unsigned.to_uint_nonzero p E).
  - exact (DecimalFacts.nzhead_nonzero d _ En).
Qed.

(** An int64 value has at most nineteen digits. *)
Lemma digits_of_int64 (d : Decimal.uint) (k : Z) :
  1 <= k -> uint_value d k <= 2 ^ 63 ->
  (S (Decimal.nb_digits d) <= PyInt.max_str_digits)%nat.
Proof.
  intros Hk Hv. pose proof (uint_value_lower d k Hk) as Hl.
  assert (Hn : (Decimal.nb_digits d < 19)%nat).
  { destruct (Nat.lt_ge_cases (Decimal.nb_digits d) 19) as [Hlt|Hge]; [exact Hlt|].
    exfalso.
    assert (10 ^ 19 <= 10 ^ Z.of_nat (Decimal.nb_digits d))
      by (apply Z.pow_le_mono_r; lia).
    assert (2 ^ 63 < 10 ^ 19) by reflexivity. lia. }
  unfold PyInt.max_str_digits. lia.
Qed.

(** The digits of a positive number read back as that number. *)
Lemma parse_digits_of_pos (p : positive) (neg : bool) :
  Z.pos p <= 2 ^ 63 ->
  PyInt.parse ((if neg then "-" else "") ++ NilZero.string_of_uint (Pos.to_uint p))%string
  = Some (if neg then Z.neg p else Z.pos p).
Proof.
  intros Hp.
  pose proof (DecimalPos.Unsigned.of_to p) as Hof.
  pose proof (DecimalPos.Unsigned.to_uint_nonnil p) as Hnil.
  pose proof (to_uint_head p) as Hhead.
  assert (Hv : uint_value (Pos.to_uint p) 0 = Z.pos p).
  { rewrite uint_value_zero, Hof. reflexivity. }
  destruct (Pos.to_uint p) as [|d|d|d|d|d|d|d|d|d|d];
    [congruence | exfalso; exact (Hhead d eq_refl) |..];
    cbn [uint_value] in Hv; simpl Z.add in Hv;
    (assert (Hd : (S (Decimal.nb_digits d) <= PyInt.max_str_digits)%nat)
      by (eapply digits_of_int64; [|rewrite Hv; exact Hp]; lia));
    apply Nat.leb_le in Hd;
    destruct neg; simpl append; unfold PyInt.parse; simpl PyInt.lstrip; cbv iota beta;
    simpl NilZero.string_of_uint;
    cbn [PyInt.count_digits];
    repeat match goal with |- context [PyInt.digit_of ?c] =>
      let v := eval vm_compute in (PyInt.digit_of c) in
      change (PyInt.digit_of c) with v end;
    cbv iota; rewrite count_digits_string_of_uint, Hd, scan_digits_string_of_uint;
    simpl option_map; rewrite Hv; reflexivity.
Qed.

Lemma parse_to_string (z : Z) :
  PyInt.in_int64 z = true -> PyInt.parse (PyInt.to_string z) = Some z.
Proof.
  unfold PyInt.in_int64, PyInt.int64_min, PyInt.int64_max.
  rewrite andb_true_iff, !Z.leb_le. intros [H1 H2].
  destruct z as [|p|p].
  - reflexivity.
  - apply (parse_digits_of_pos p false). lia.
  - apply (parse_digits_of_pos p true). lia.
Qed.

(** ** Reindexing twice *)

Lemma shift_index_in_range (names : list string) (ints : list Z) (k : Z) :
  Forall2 (fun s z => PyInt.parse s = Some z
                      /\ PyInt.in_int64 z = true
                      /\ PyInt.in_int64 (z + k) = true) names ints ->
  PyInt.in_int64 k = true ->
  shift_index names k = Ok (map (fun z => PyInt.to_string (z + k)) ints).
Proof.
  intros Hall Hk. unfold shift_index.
  rewrite (mapM_astype_int names ints).
  - rewrite bind_ret, Hk. f_equal.
    induction Hall as [|s z names' ints' (_ & _ & Hs) _ IH]; simpl; [reflexivity|].
    now rewrite (wrap64_in_range _ Hs), IH.
  - induction Hall as [|s z names' ints' (Hp & Hz & _) _ IH]; constructor; auto.
Qed.

Lemma update_update (h : heap) (r : loc) (a b : Dataset) :
  update (update h r a) r b = update h r b.
Proof.
  revert r. induction h as [|x h IH]; intros [|r]; simpl; try reflexivity.
  now rewrite IH.
Qed.

Lemma update_same (h : heap) (r : loc) (d : Dataset) :
  deref h r = Some d -> update h r d = h.
Proof.
  unfold deref. revert r. induction h as [|x h IH]; intros [|r]; simpl;
    intros H; try discriminate.
  - now inversion H.
  - now rewrite (IH r H).
Qed.

Lemma set_obs_names_same (d : Dataset) : set_obs_names d (obs_names (obs d)) = d.
Proof. destruct d as [x [names cols] v om u]. reflexivity. Qed.

(** Two reindexings in a row, both within int64. *)
Lemma reindex_twice st h r adata k1 k2 ints :
  deref h r = Some adata ->
  Forall2 (fun s z => PyInt.parse s = Some z
                      /\ PyInt.in_int64 z = true
                      /\ PyInt.in_int64 (z + k1) = true
                      /\ PyInt.in_int64 (z + k1 + k2) = true)
          (obs_names (obs adata)) ints ->
  PyInt.in_int64 k1 = true ->
  PyInt.in_int64 k2 = true ->
  exists h1,
    reindex_anndata st h (Obj r) k1 = Ok (r, h1)
    /\ reindex_anndata st h1 (Obj r) k2
       = Ok (r, update h r (set_obs_names adata
                              (map (fun z => PyInt.to_string (z + k1 + k2)) ints))).
Proof.
  intros Hr Hall Hk1 Hk2.
  set (names1 := map (fun z => PyInt.to_string (z + k1)) ints).
  assert (H1 : shift_index (obs_names (obs adata)) k1 = Ok names1).
  { apply shift_index_in_range; [|exact Hk1].
    induction Hall as [|s z names' ints' (Hp & Hz & Hz1 & _) _ IH]; constructor; auto. }
  assert (H2 : shift_index names1 k2
               = Ok (map (fun z => PyInt.to_string (z + k1 + k2)) ints)).
  { replace (map (fun z => PyInt.to_string (z + k1 + k2)) ints)
      with (map (fun z => PyInt.to_string (z + k2)) (map (fun z => z + k1) ints))
      by (rewrite map_map; reflexivity).
    apply shift_index_in_range; [|exact Hk2]. unfold names1. clear H1.
    induction Hall as [|s z names' ints' (_ & _ & Hz1 & Hz2) _ IH]; simpl;
      constructor; auto using parse_to_string. }
  exists (update h r (set_obs_names adata names1)). split.
  - rewrite (reindex_anndata_obj st h r adata k1 Hr), H1. reflexivity.
  - rewrite (reindex_anndata_obj st _ r (set_obs_names adata names1) k2
               (deref_update_same h r _ adata Hr)).
    simpl obs_names. rewrite H2, bind_ret, update_update. reflexivity.
Qed.

(** X1.  Reindexing by [k1] and then by [k2] is reindexing once by
    [k1 + k2]: both ways succeed and leave the same heap, the labels being
    [str(int(label) + k1 + k2)], as long as the labels, the offsets and the
    sums stay within int64. *)
Theorem reindex_anndata_compose :
  forall (st : store) (h : heap) (r : loc) (adata : Dataset) (k1 k2 : Z)
         (ints : list Z),
    deref h r = Some adata ->
    Forall2 (fun s z => PyInt.parse s = Some z
                        /\ PyInt.in_int64 z = true
                        /\ PyInt.in_int64 (z + k1) = true
                        /\ PyInt.in_int64 (z + k1 + k2) = true)
            (obs_names (obs adata)) ints ->
    PyInt.in_int64 k1 = true ->
    PyInt.in_int64 k2 = true ->
    PyInt.in_int64 (k1 + k2) = true ->
    exists h1 h2,
      reindex_anndata st h (Obj r) k1 = Ok (r, h1)
      /\ reindex_anndata st h1 (Obj r) k2 = Ok (r, h2)
      /\ reindex_anndata st h (Obj r) (k1 + k2) = Ok (r, h2)
      /\ deref h2 r
         = Some (set_obs_names adata
                   (map (fun z => PyInt.to_string (z + k1 + k2)) ints)).
Proof.
  intros st h r adata k1 k2 ints Hr Hall Hk1 Hk2 Hk.
  destruct (reindex_twice st h r adata k1 k2 ints Hr Hall Hk1 Hk2) as (h1 & E1 & E2).
  exists h1. eexists. split; [exact E1|]. split; [exact E2|]. split.
  - rewrite (reindex_anndata_obj st h r adata (k1 + k2) Hr).
    rewrite (shift_index_in_range _ ints).
    + rewrite bind_ret. do 4 f_equal. apply map_ext. intros z. f_equal. lia.
    + clear Hr E1 E2.
      induction Hall as [|s z names' ints' (Hp & Hz & _ & Hz2) _ IH]; constructor; auto.
      repeat split; auto. now rewrite Z.add_assoc.
    + exact Hk.
  - eapply deref_update_same; exact Hr.
Qed.

Lemma reindex_anndata_compose_witness :
  exists h1 h2,
    reindex_anndata (fun _ => None) [bare_dataset ["0"; "1"; "2"]] (Obj O) 1000
    = Ok (O, h1)
    /\ reindex_anndata (fun _ => None) h1 (Obj O) 500 = Ok (O, h2)
    /\ reindex_anndata (fun _ => None) [bare_dataset ["0"; "1"; "2"]] (Obj O) (1000 + 500)
       = Ok (O, h2)
    /\ deref h2 O
       = Some (set_obs_names (bare_dataset ["0"; "1"; "2"])
                 (map (fun z => PyInt.to_string (z + 1000 + 500)) [0; 1; 2])).
Proof.
  apply (reindex_anndata_compose (fun _ => None) [bare_dataset ["0"; "1"; "2"]] O
           (bare_dataset ["0"; "1"; "2"]) 1000 500 [0; 1; 2]).
  - reflexivity.
  - repeat constructor.
  - reflexivity.
  - reflexivity.
  - reflexivity.
Defined.

(** X2.  Reindexing by [k] and then by [-k] gives every label the decimal
    form [str(int(label))] of its number: a dataset whose labels already have
    that form gets back exactly the heap it started from, any other label
    (leading zeros, a plus sign, white space, underscores) comes back
    rewritten. *)
Theorem reindex_anndata_round_trip :
  forall (st : store) (h : heap) (r : loc) (adata : Dataset) (k : Z) (ints : list Z),
    deref h r = Some adata ->
    Forall2 (fun s z => PyInt.parse s = Some z
                        /\ PyInt.in_int64 z = true
                        /\ PyInt.in_int64 (z + k) = true)
            (obs_names (obs adata)) ints ->
    PyInt.in_int64 k = true ->
    PyInt.in_int64 (- k) = true ->
    exists h1 h2,
      reindex_anndata st h (Obj r) k = Ok (r, h1)
      /\ reindex_anndata st h1 (Obj r) (- k) = Ok (r, h2)
      /\ deref h2 r = Some (set_obs_names adata (map PyInt.to_string ints))
      /\ (obs_names (obs adata) = map PyInt.to_string ints -> h2 = h).
Proof.
  intros st h r adata k ints Hr Hall Hk Hk'.
  assert (Hall' : Forall2 (fun s z => PyInt.parse s = Some z
                                      /\ PyInt.in_int64 z = true
                                      /\ PyInt.in_int64 (z + k) = true
                                      /\ PyInt.in_int64 (z + k + - k) = true)
                          (obs_names (obs adata)) ints).
  { clear Hr. induction Hall as [|s z names' ints' (Hp & Hz & Hz1) _ IH];
      constructor; auto.
    repeat split; auto. now replace (z + k + - k) with z by lia. }
  destruct (reindex_twice st h r adata k (- k) ints Hr Hall' Hk Hk') as (h1 & E1 & E2).
  assert (Hmap : map (fun z => PyInt.to_string (z + k + - k)) ints
                 = map PyInt.to_string ints).
  { apply map_ext. intros z. f_equal. lia. }
  rewrite Hmap in E2.
  exists h1. eexists. split; [exact E1|]. split; [exact E2|]. split.
  - eapply deref_update_same; exact Hr.
  - intros Hcanon. rewrite <- Hcanon, set_obs_names_same.
    now apply update_same.
Qed.

Lemma reindex_anndata_round_trip_witness :
  exists h1 h2,
    reindex_anndata (fun _ => None) [bare_dataset ["7"; "007"; " +1_0 "]] (Obj O) 1000
    = Ok (O, h1)
    /\ reindex_anndata (fun _ => None) h1 (Obj O) (- 1000) = Ok (O, h2)
    /\ deref h2 O
       = Some (set_obs_names (bare_dataset ["7"; "007"; " +1_0 "])
                 (map PyInt.to_string [7; 7; 10]))
    /\ (obs_names (obs (bare_dataset ["7"; "007"; " +1_0 "]))
        = map PyInt.to_string [7; 7; 10] ->
        h2 = [bare_dataset ["7"; "007"; " +1_0 "]]).
Proof.
  apply (reindex_anndata_round_trip (fun _ => None)
           [bare_dataset ["7"; "007"; " +1_0 "]] O
           (bare_dataset ["7"; "007"; " +1_0 "]) 1000 [7; 7; 10]).
  - reflexivity.
  - repeat constructor.
  - reflexivity.
  - reflexivity.
Defined.

(** ** Entries and names after a concatenation *)

Lemma hstack_inv (a b m : matrix) :
  hstack a b = Ok m ->
  nrows a = nrows b
  /\ m = {| ncols := ncols a + ncols b; rows := zip_rows (rows a) (rows b) |}.
Proof.
  unfold hstack. destruct (nrows a =? nrows b)%nat eqn:E; intros H; inversion H.
  apply Nat.eqb_eq in E. auto.
Qed.

Lemma nth_error_zip_rows (a b : list (list Z)) (i : nat) (r s : list Z) :
  nth_error a i = Some r -> nth_error b i = Some s ->
  nth_error (zip_rows a b) i = Some (r ++ s).
Proof.
  revert b i. induction a as [|x a IH]; intros [|y b] [|i]; simpl;
    intros Ha Hb; try discriminate.
  - inversion Ha; inversion Hb; reflexivity.
  - now apply IH.
Qed.

(** X3.  In a result of [concat_matrices] row [i] of the matrix is row [i]
    of [X] followed by row [i] of the annotation table (rows are paired by
    position, every original entry keeps its place), the features are the
    original ones followed by the columns of the table in their order, with
    nothing removed when a label occurs twice, and [obs] is untouched. *)
Theorem concat_matrices_entries :
  forall (adata : Dataset) (df : dataframe) (obs_key feature_name : string)
         (obs_feature_name : option string) (d' : Dataset),
    concat_matrices adata (ObsmFrame df) obs_key feature_name obs_feature_name = Ok d' ->
    exists m m',
      x_matrix (X adata) = Some m
      /\ x_matrix (X d') = Some m'
      /\ (forall i r s,
             nth_error (rows m) i = Some r ->
             nth_error (df_rows df) i = Some s ->
             nth_error (rows m') i = Some (r ++ s))
      /\ nrows m' = nrows m
      /\ var_names (var d')
         = var_names (var adata)
           ++ (if PyStr.truthy (py_or obs_feature_name obs_key) then df_columns df
               else range_labels (List.length (df_columns df)))
      /\ obs d' = obs adata.
Proof.
  intros adata df obs_key feature_name obs_feature_name d' H.
  destruct (concat_matrices_shape_of_result _ _ _ _ _ _ H)
    as (df0 & m & m' & Edf & Hm & Hm' & Hh & _ & _).
  inversion Edf; subst df0; clear Edf.
  destruct (concat_matrices_var _ _ _ _ _ _ H) as (df0 & Edf & _ & Hnames & _).
  inversion Edf; subst df0; clear Edf.
  destruct (concat_matrices_sidecars _ _ _ _ _ _ H) as (Hobs & _).
  destruct (hstack_ok _ _ _ Hh) as (Hrows & _).
  apply hstack_inv in Hh. destruct Hh as (_ & ->).
  exists m. eexists. split; [exact Hm|]. split; [exact Hm'|].
  split; [|split; [exact Hrows|split; [exact Hnames | exact Hobs]]].
  intros i r s Hr Hs. simpl. now apply nth_error_zip_rows.
Qed.

Lemma concat_matrices_entries_witness :
  let adata := scenario_input "0" "1" "2" "g1" "g2" (StringColumn [None; None; None]) [] in
  let df := frame ["g1"; "q"] ["0"; "1"; "2"] [[7; 8]; [9; 10]; [11; 12]] in
  exists d' m',
    concat_matrices adata (ObsmFrame df) "celltype" "gene" None = Ok d'
    /\ x_matrix (X d') = Some m'
    /\ nth_error (rows m') 1 = Some ([3; 4] ++ [9; 10])
    /\ var_names (var d') = ["g1"; "g2"] ++ ["g1"; "q"].
Proof.
  intros adata df.
  destruct (concat_matrices adata (ObsmFrame df) "celltype" "gene" None)
    as [d'|e] eqn:E; [|vm_compute in E; discriminate E].
  destruct (concat_matrices_entries adata df "celltype" "gene" None d' E)
    as (m & m' & Hm & Hm' & Hrow & _ & Hnames & _).
  inversion Hm; subst m.
  exists d', m'. split; [reflexivity|]. split; [exact Hm'|]. split.
  - apply (Hrow 1%nat [3; 4] [9; 10]); reflexivity.
  - exact Hnames.
Defined.

(** X4.  The flag of the original features is true on every row that was
    there before the call, whatever it held there (rows appended by an
    earlier concatenation become "original"), and on the appended rows it is
    false, or true when both flags carry the same name.  On a [var] table
    that has no column named like the flag of the new features, that flag is
    false on the original rows and true on the appended ones. *)
Theorem concat_matrices_flag_values :
  forall (adata : Dataset) (ext_df : table) (obs_key feature_name : string)
         (obs_feature_name : option string) (d' : Dataset),
    concat_matrices adata ext_df obs_key feature_name obs_feature_name = Ok d' ->
    let prev := is_flag feature_name in
    let new_name := is_flag (py_or obs_feature_name obs_key) in
    exists df,
      ext_df = ObsmFrame df
      /\ cells_of (var d') prev
         = Some (repeat (VBool true) (n_vars adata)
                 ++ repeat (VBool (String.eqb prev new_name))
                           (List.length (df_columns df)))
      /\ (prev <> new_name ->
          lookup new_name (var_cols (var adata)) = None ->
          cells_of (var d') new_name
          = Some (repeat (VBool false) (n_vars adata)
                  ++ repeat (VBool true) (List.length (df_columns df)))).
Proof.
  intros adata ext_df obs_key feature_name obs_feature_name d' H prev new_name.
  destruct (concat_matrices_var _ _ _ _ _ _ H) as (df & -> & _ & _ & Hcells).
  fold prev new_name in Hcells.
  exists df. split; [reflexivity|]. split.
  - rewrite Hcells, lookup_set_col_same, String.eqb_refl. cbn [option_map orb].
    rewrite kept_cells_true. cbn [true_column col_cells col_dtype].
    change (flag_cell DBool) with (VBool true).
    destruct (String.eqb prev new_name);
      now rewrite map_app, !map_fill_repeat_bool, ?map_fill_repeat_na.
  - intros Hne Hnone.
    assert (E : String.eqb new_name prev = false).
    { apply String.eqb_neq. congruence. }
    rewrite Hcells, (lookup_set_col_other _ _ _ _ E), Hnone, !String.eqb_refl,
      orb_true_r.
    cbn [option_map orb].
    now rewrite map_app, map_fill_repeat_bool, map_fill_repeat_na.
Qed.

Lemma concat_matrices_flag_values_witness :
  let adata := scenario_output "0" "1" "2" "g1" "g2" (StringColumn [None; None; None]) [] in
  let df := frame ["p"; "q"] ["0"; "1"; "2"] [[7; 8]; [9; 10]; [11; 12]] in
  exists d',
    concat_matrices adata (ObsmFrame df) "celltype" "gene" None = Ok d'
    /\ cells_of (var adata) "is_gene"
       = Some [VBool true; VBool true; VBool false; VBool false]
    /\ cells_of (var d') "is_gene"
       = Some (repeat (VBool true) 4 ++ repeat (VBool false) 2).
Proof.
  intros adata df.
  destruct (concat_matrices adata (ObsmFrame df) "celltype" "gene" None)
    as [d'|e] eqn:E; [|vm_compute in E; discriminate E].
  destruct (concat_matrices_flag_values adata (ObsmFrame df) "celltype" "gene" None d' E)
    as (df0 & Edf & Hprev & _).
  inversion Edf; subst df0.
  exists d'. split; [reflexivity|]. split; [reflexivity | exact Hprev].
Defined.

(** ** When a concatenation succeeds, and what it keeps valid *)

Lemma has_dup_set_col_eq (n : string) (c : column) (cols : list (string * column)) :
  has_dup (map fst (set_col cols n c)) = has_dup (map fst cols).
Proof.
  induction cols as [|[k0 c0] cols IH]; simpl; [reflexivity|].
  destruct (String.eqb n k0) eqn:E; simpl; [reflexivity|].
  rewrite mem_set_col, IH, String.eqb_sym, E. now rewrite orb_false_r.
Qed.

Lemma concat_rows_ok_nodup (t : var_table) (labels : list string)
      (prev new_name name : string) (v : var_table) :
  concat_rows (assign_true t prev) (assign_true (labels_frame labels name) new_name)
  = Ok v ->
  has_dup (map fst (var_cols t)) = false.
Proof.
  unfold concat_rows.
  change (map fst (var_cols (assign_true (labels_frame labels name) new_name)))
    with [new_name].
  change (map fst (var_cols (assign_true t prev)))
    with (map fst (set_col (var_cols t) prev (true_column (List.length (var_names t))))).
  rewrite has_dup_set_col_eq.
  destruct (has_dup (map fst (var_cols t))) eqn:Hd; [|reflexivity].
  simpl orb.
  destruct (list_eq_dec string_dec _ [new_name]) as [E|E]; simpl; [|discriminate].
  intros _. rewrite <- (has_dup_set_col_eq prev (true_column (List.length (var_names t)))),
    E in Hd. discriminate Hd.
Qed.

(** X5.  [concat_matrices] returns a dataset exactly when the annotation
    table is a DataFrame with an unnamed column axis and as many rows as
    there are observations, [X] is present with the shape that [obs] and
    [var] announce, no two columns of [var] share a name, and every entry of
    obsm has one row per observation and, if it is a DataFrame, the obs index
    as its index; in every other case (a plain array as table, a named
    column axis, no [X], mismatched shapes, repeated column names, a frame of
    obsm left with an older index) it raises. *)
Theorem concat_matrices_succeeds_iff :
  forall (adata : Dataset) (ext_df : table) (obs_key feature_name : string)
         (obs_feature_name : option string),
    (exists d', concat_matrices adata ext_df obs_key feature_name obs_feature_name
                = Ok d')
    <-> concat_ready adata ext_df.
Proof.
  intros adata ext_df obs_key feature_name obs_feature_name. split.
  - intros (d' & H).
    apply concat_matrices_ok in H. destruct H as (Hshape & d & Hd & _).
    apply stacked_ok in Hd. destruct Hd as (df & x & v & -> & Hx & Hv & Hd & Hname).
    apply stack_ok in Hx. destruct Hx as (m & m' & Hm & Hm' & Hh & _).
    destruct (hstack_ok _ _ _ Hh) as (Hr' & Hc' & _).
    apply hstack_inv in Hh. destruct Hh as (Hn & _).
    pose proof (concat_rows_ok_nodup _ _ _ _ _ _ Hv) as Hdup.
    destruct (concat_rows_total (var adata) (df_columns df) (is_flag feature_name)
                (is_flag (py_or obs_feature_name obs_key))
                (py_or obs_feature_name obs_key) Hdup) as (v0 & Hv0 & Hlen).
    rewrite Hv in Hv0. inversion Hv0; subst v0; clear Hv0.
    unfold AnnData in Hd. rewrite Hm' in Hd.
    destruct ((nrows m' =? List.length (obs_names (obs adata)))%nat) eqn:E1;
      [|discriminate].
    destruct ((ncols m' =? List.length (var_names v))%nat) eqn:E2; [|discriminate].
    destruct (forallb _ (obsm adata)) eqn:E3; [|discriminate].
    apply Nat.eqb_eq in E1, E2.
    exists df, m. simpl in Hshape. unfold n_obs, n_vars.
    repeat split; auto.
    + now rewrite <- Hr'.
    + rewrite Hc', Hlen in E2. simpl in E2. lia.
  - apply concat_matrices_total.
Qed.

Lemma concat_matrices_succeeds_iff_witness :
  let adata := scenario_input "0" "1" "2" "g1" "g2" (StringColumn [None; None; None]) [] in
  (exists d', concat_matrices adata
                (ObsmFrame (frame ["p"] ["0"; "1"; "2"] [[7]; [8]; [9]]))
                "celltype" "gene" None = Ok d')
  /\ ~ (exists d', concat_matrices adata
                     (ObsmArray {| ncols := 1; rows := [[7]; [8]; [9]] |})
                     "celltype" "gene" None = Ok d').
Proof.
  intros adata. split.
  - apply (proj2 (concat_matrices_succeeds_iff adata _ "celltype" "gene" None)).
    exists (frame ["p"] ["0"; "1"; "2"] [[7]; [8]; [9]]),
      {| ncols := 2; rows := [[1; 2]; [3; 4]; [5; 6]] |}.
    repeat split; reflexivity.
  - intros H.
    apply (proj1 (concat_matrices_succeeds_iff adata _ "celltype" "gene" None)) in H.
    destruct H as (df & m & Hdf & _). discriminate Hdf.
Defined.

Lemma map_fst_keyed {A B} (F : string -> A -> B) (l : list (string * A)) :
  map fst (map (fun nc : string * A => let (n, c) := nc in (n, F n c)) l) = map fst l.
Proof.
  induction l as [|[n c] l IH]; simpl; [reflexivity|]. now rewrite IH.
Qed.

Lemma map_fst_filter {A} (p : string -> bool) (l : list (string * A)) :
  map fst (filter (fun nc => p (fst nc)) l) = filter p (map fst l).
Proof.
  induction l as [|[n c] l IH]; simpl; [reflexivity|].
  destruct (p n); simpl; now rewrite IH.
Qed.

Lemma mem_filter (p : string -> bool) (x : string) (l : list string) :
  mem x (filter p l) = true -> mem x l = true /\ p x = true.
Proof.
  rewrite !mem_In, filter_In. tauto.
Qed.

Lemma has_dup_filter (p : string -> bool) (l : list string) :
  has_dup l = false -> has_dup (filter p l) = false.
Proof.
  induction l as [|x l IH]; simpl; [reflexivity|].
  rewrite orb_false_iff. intros [Hm Hd].
  destruct (p x); simpl; [|auto].
  rewrite (IH Hd), orb_false_r.
  destruct (mem x (filter p l)) eqn:E; [|reflexivity].
  apply mem_filter in E. destruct E as [E _]. congruence.
Qed.

Lemma mem_app (x : string) (a b : list string) :
  mem x (a ++ b) = mem x a || mem x b.
Proof.
  induction a as [|y a IH]; simpl; [reflexivity|].
  now rewrite IH, orb_assoc.
Qed.

Lemma has_dup_app (a b : list string) :
  has_dup a = false -> has_dup b = false ->
  (forall x, mem x a = true -> mem x b = false) ->
  has_dup (a ++ b) = false.
Proof.
  induction a as [|y a IH]; simpl; intros Ha Hb Hdis; [exact Hb|].
  apply orb_false_iff in Ha. destruct Ha as [Hm Hd].
  rewrite mem_app, Hm, IH; auto.
  - rewrite (Hdis y); [reflexivity|]. now rewrite String.eqb_refl.
  - intros x Hx. apply Hdis. rewrite Hx. apply orb_true_r.
Qed.

(** Stacking two well-formed frames gives a well-formed frame. *)
Lemma valid_var_concat_rows (top bottom v : var_table) :
  valid_var top = true -> valid_var bottom = true ->
  concat_rows top bottom = Ok v ->
  valid_var v = true.
Proof.
  unfold valid_var. rewrite !andb_true_iff, !negb_true_iff.
  intros [Htl Htd] [Hbl Hbd] H.
  unfold concat_rows in H. destruct (_ && _); [discriminate|].
  inversion H; subst v; clear H. cbn [var_cols var_names].
  rewrite forallb_forall in Htl, Hbl. split.
  - rewrite forallb_app, andb_true_iff, !forallb_forall. split.
    + intros [n c'] Hin. apply in_map_iff in Hin.
      destruct Hin as ([n0 c] & E & Hin). inversion E; subst n c'; clear E.
      specialize (Htl _ Hin). simpl in Htl. apply Nat.eqb_eq in Htl.
      simpl snd.
      destruct (lookup n0 (var_cols bottom)) as [c2|] eqn:El; cbn [col_cells].
      * apply lookup_in in El. specialize (Hbl _ El). simpl in Hbl.
        apply Nat.eqb_eq in Hbl.
        rewrite !length_app, !cast_column_length, Htl, Hbl. apply Nat.eqb_refl.
      * rewrite !length_app, cast_column_length, repeat_length, Htl.
        apply Nat.eqb_refl.
    + intros [n c'] Hin. apply in_map_iff in Hin.
      destruct Hin as ([n0 c] & E & Hin). inversion E; subst n c'; clear E.
      apply filter_In in Hin. destruct Hin as [Hin _].
      specialize (Hbl _ Hin). simpl in Hbl. apply Nat.eqb_eq in Hbl.
      cbn [snd col_cells].
      rewrite !length_app, cast_column_length, repeat_length, Hbl. apply Nat.eqb_refl.
  - rewrite map_app, map_fst_keyed.
    rewrite (map_fst_keyed (fun _ c => {| col_dtype := _; col_cells := _ |})).
    rewrite (map_fst_filter (fun n => negb (mem n (map fst (var_cols top))))).
    apply has_dup_app; [exact Htd | now apply has_dup_filter |].
    intros x Hx. destruct (mem x (filter _ _)) eqn:E; [|reflexivity].
    apply mem_filter in E. destruct E as [_ E]. rewrite Hx in E. discriminate E.
Qed.

Lemma valid_var_assign_true (t : var_table) (name : string) :
  valid_var t = true -> valid_var (assign_true t name) = true.
Proof.
  unfold valid_var, assign_true. cbn [var_cols var_names].
  rewrite !andb_true_iff, !negb_true_iff. intros [Hl Hd]. split.
  - generalize (List.length (var_names t)) as n, Hl. clear. intros n.
    induction (var_cols t) as [|[k c] cols IH]; simpl; intros Hl.
    + now rewrite repeat_length, Nat.eqb_refl.
    + apply andb_true_iff in Hl. destruct Hl as [Hc Hl].
      destruct (String.eqb name k); simpl.
      * now rewrite repeat_length, Nat.eqb_refl, Hl.
      * now rewrite Hc, IH.
  - now apply has_dup_set_col.
Qed.

Lemma valid_var_fillna_false (t : var_table) (name : string) :
  valid_var (fillna_false t name) = valid_var t.
Proof.
  unfold valid_var, fillna_false. cbn [var_cols var_names]. f_equal.
  - induction (var_cols t) as [|[k c] cols IH]; simpl; [reflexivity|].
    rewrite IH. f_equal.
    destruct (String.eqb name k); simpl; [|reflexivity].
    now rewrite length_map.
  - f_equal. f_equal.
    induction (var_cols t) as [|[k c] cols IH]; simpl; [reflexivity|].
    rewrite IH. now destruct (String.eqb name k).
Qed.

Lemma valid_var_fold_fillna (names : list string) (t : var_table) :
  valid_var (fold_left fillna_false names t) = valid_var t.
Proof.
  revert t. induction names as [|n names IH]; intros t; simpl; [reflexivity|].
  now rewrite IH, valid_var_fillna_false.
Qed.

(** X6.  [concat_matrices] keeps the shape invariants of a dataset: from a
    valid dataset and a table with full rows it returns a valid dataset (the
    matrix, [obs], [var] and obsm agree on both axis lengths, the rows of the
    matrix are full, every column of [var] is as long as its index, and the
    column names of [var] stay distinct).  Nothing is said of the feature
    labels: a column of the table may repeat a label that [var] has. *)
Theorem concat_matrices_keeps_valid :
  forall (adata : Dataset) (df : dataframe) (obs_key feature_name : string)
         (obs_feature_name : option string) (d' : Dataset),
    concat_matrices adata (ObsmFrame df) obs_key feature_name obs_feature_name = Ok d' ->
    valid_dataset adata = true ->
    valid_matrix (df_values df) = true ->
    valid_dataset d' = true.
Proof.
  intros adata df obs_key feature_name obs_feature_name d' H Hvalid Hdf.
  destruct (valid_dataset_parts _ Hvalid) as (Hx & Hobs & Hvar & Hobsm).
  destruct (concat_matrices_shape_of_result _ _ _ _ _ _ H)
    as (df0 & m & m' & Edf & Hm & Hm' & Hh & _ & Hnv).
  inversion Edf; subst df0; clear Edf.
  destruct (hstack_ok _ _ _ Hh) as (Hr' & _ & Hval).
  destruct (concat_matrices_sidecars _ _ _ _ _ _ H) as (Eobs & Eobsm & _).
  unfold valid_x in Hx. rewrite Hm in Hx.
  apply andb_true_iff in Hx. destruct Hx as [Hx Hvm].
  apply andb_true_iff in Hx. destruct Hx as [Hnr _]. apply Nat.eqb_eq in Hnr.
  assert (Hn : n_obs d' = n_obs adata) by (unfold n_obs; now rewrite Eobs).
  unfold valid_dataset. rewrite !andb_true_iff. repeat split.
  - unfold valid_x. rewrite Hm'. rewrite !andb_true_iff. repeat split.
    + apply Nat.eqb_eq. now rewrite Hr', Hn.
    + apply Nat.eqb_eq. unfold n_vars. now rewrite Hnv.
    + now apply Hval.
  - now rewrite Eobs.
  - apply concat_matrices_ok in H. destruct H as (_ & d & Hd & ->).
    apply stacked_ok in Hd. destruct Hd as (df0 & x & v & _ & _ & Hv & Hd & Hname).
    apply AnnData_ok in Hd. destruct Hd as (-> & _).
    cbn [set_var var]. rewrite valid_var_fold_fillna, !valid_var_fillna_false.
    eapply valid_var_concat_rows; [| |exact Hv].
    + now apply valid_var_assign_true.
    + apply valid_var_assign_true. reflexivity.
  - rewrite Eobsm, Hn. exact Hobsm.
Qed.

Lemma concat_matrices_keeps_valid_witness :
  let adata := scenario_input "0" "1" "2" "g1" "g2" (StringColumn [None; None; None]) [] in
  let df := frame ["p"] ["0"; "1"; "2"] [[7]; [8]; [9]] in
  exists d',
    concat_matrices adata (ObsmFrame df) "celltype" "gene" None = Ok d'
    /\ valid_dataset d' = true.
Proof.
  intros adata df. eexists. split.
  - vm_compute. reflexivity.
  - apply (concat_matrices_keeps_valid adata df "celltype" "gene" None).
    + vm_compute. reflexivity.
    + reflexivity.
    + reflexivity.
Defined.

(** ** The intersection as a filter of the first index *)

Lemma filter_not_mem (x : string) (l : list string) :
  mem x l = false -> filter (fun y => negb (String.eqb x y)) l = l.
Proof.
  induction l as [|y l IH]; simpl; [reflexivity|].
  rewrite orb_false_iff. intros [E Hm]. rewrite E. simpl. now rewrite IH.
Qed.

Lemma unique_nodup (l : list string) : has_dup l = false -> unique l = l.
Proof.
  induction l as [|x l IH]; simpl; [reflexivity|].
  rewrite orb_false_iff. intros [Hm Hd].
  now rewrite (IH Hd), (filter_not_mem _ _ Hm).
Qed.

Lemma filter_filter {A} (p q : A -> bool) (l : list A) :
  filter p (filter q l) = filter (fun x => q x && p x) l.
Proof.
  induction l as [|x l IH]; simpl; [reflexivity|].
  destruct (q x); simpl; [destruct (p x)|]; now rewrite IH.
Qed.

Lemma fold_intersection_filter (others : list (list string)) (i : list string) :
  has_dup i = false ->
  fold_left index_intersection others i
  = filter (fun s => forallb (mem s) others) i.
Proof.
  revert i. induction others as [|o others IH]; intros i Hi; simpl.
  - clear Hi. induction i as [|x i IHi]; simpl; [reflexivity|]. now rewrite <- IHi.
  - unfold index_intersection at 2.
    rewrite (unique_nodup _ (has_dup_filter (fun x => mem x o) i Hi)).
    rewrite (IH _ (has_dup_filter (fun x => mem x o) i Hi)).
    apply filter_filter.
Qed.

Lemma intersection_is_filter (st : store) (paths : list string) (i : list string)
      (others : list (list string)) :
  Forall2 (fun p idx => read_var_index st p = Ok idx) paths (i :: others) ->
  Forall (fun idx => has_dup idx = false) (i :: others) ->
  get_feature_intersection st paths
  = Ok (filter (fun s => forallb (mem s) others) i).
Proof.
  intros Hread Hnodup.
  assert (Hi : has_dup i = false) by now inversion Hnodup.
  unfold get_feature_intersection.
  apply mapM_ok in Hread. rewrite Hread, bind_ret.
  destruct others as [|o others].
  - simpl. f_equal. clear. induction i as [|x i IH]; simpl; [reflexivity|].
    now rewrite <- IH.
  - assert (E : existsb has_dup (i :: o :: others) = false).
    { clear Hread Hi. induction Hnodup as [|x l Hx _ IH]; simpl; [reflexivity|].
      now rewrite Hx, IH. }
    unfold inner_join_index. rewrite E. f_equal.
    exact (fold_intersection_filter (o :: others) i Hi).
Qed.

(** X7.  When every path reads and no index repeats a label, the feature
    intersection is the index of the first path with the labels that some
    other index lacks taken out: the labels keep the order they have in the
    first dataset (so the order of the paths decides the order of the
    features), and none occurs twice. *)
Theorem get_feature_intersection_filters_first :
  forall (st : store) (paths : list string) (i : list string)
         (others : list (list string)),
    Forall2 (fun p idx => read_var_index st p = Ok idx) paths (i :: others) ->
    Forall (fun idx => has_dup idx = false) (i :: others) ->
    get_feature_intersection st paths
    = Ok (filter (fun s => forallb (mem s) others) i)
    /\ has_dup (filter (fun s => forallb (mem s) others) i) = false.
Proof.
  intros st paths i others Hread Hnodup. split.
  - now apply intersection_is_filter.
  - apply has_dup_filter. now inversion Hnodup.
Qed.

Lemma get_feature_intersection_filters_first_witness :
  get_feature_intersection two_files ["out/b.h5ad"; "a.zarr"]
  = Ok (filter (fun s => forallb (mem s) [["g1"; "g2"; "g3"]]) ["g2"; "g3"; "g4"])
  /\ has_dup (filter (fun s => forallb (mem s) [["g1"; "g2"; "g3"]]) ["g2"; "g3"; "g4"])
     = false.
Proof.
  apply (get_feature_intersection_filters_first two_files ["out/b.h5ad"; "a.zarr"]).
  - repeat constructor.
  - repeat constructor.
Defined.

(** ** Selecting features by name *)

Lemma position_In (s : string) (l : list string) (p : nat) :
  position s l = Some p -> In s l.
Proof.
  revert p. induction l as [|x l IH]; intros p; simpl; [discriminate|].
  destruct (String.eqb s x) eqn:E.
  - apply String.eqb_eq in E. auto.
  - destruct (position s l) as [q|]; simpl; [|discriminate]. intros _. right. eauto.
Qed.

Lemma mapM_map_ok {A B C} (f : A -> result B) (g : B -> C) (l : list A) (l' : list B) :
  mapM f l = Ok l' ->
  mapM (fun a => b <- f a ;; Ok (g b)) l = Ok (map g l').
Proof.
  revert l'. induction l as [|a l IH]; intros l' H; simpl in *.
  - inversion H. reflexivity.
  - apply bind_ok in H. destruct H as (b & Hb & H).
    apply bind_ok in H. destruct H as (bs & Hbs & H).
    inversion H; subst. rewrite Hb, bind_ret, bind_ret, (IH _ Hbs). reflexivity.
Qed.

(** The positions of the labels of an index without repetitions are
    [0, 1, ...]. *)
Lemma positions_of_own_labels (l : list string) :
  has_dup l = false ->
  mapM (fun s => of_option KeyError (position s l)) l = Ok (seq 0 (List.length l)).
Proof.
  induction l as [|x l IH]; simpl; [reflexivity|].
  rewrite orb_false_iff. intros [Hm Hd].
  rewrite String.eqb_refl. simpl.
  rewrite (mapM_ext _ (fun s => p <- of_option KeyError (position s l) ;; Ok (S p))).
  - rewrite (mapM_map_ok _ S l _ (IH Hd)), bind_ret, seq_shift. reflexivity.
  - intros s Hs.
    destruct (String.eqb s x) eqn:E.
    + apply String.eqb_eq in E. subst s. apply mem_In in Hs. congruence.
    + destruct (position s l); reflexivity.
Qed.

Lemma take_positions_all {A} (d : A) (l : list A) :
  take_positions d (seq 0 (List.length l)) l = l.
Proof.
  unfold take_positions. induction l as [|x l IH]; simpl; [reflexivity|].
  f_equal. rewrite <- seq_shift, map_map. exact IH.
Qed.

Lemma take_columns_all (m : matrix) :
  valid_matrix m = true -> take_columns (seq 0 (ncols m)) m = m.
Proof.
  unfold valid_matrix, take_columns. intros H. destruct m as [n rs]. simpl in *.
  rewrite length_seq. f_equal.
  induction rs as [|r rs IH]; simpl in *; [reflexivity|].
  apply andb_true_iff in H. destruct H as [Hr Hrs]. apply Nat.eqb_eq in Hr.
  rewrite (IH Hrs). f_equal. rewrite <- Hr. apply take_positions_all.
Qed.

(** Selecting all the features of a valid dataset, in their order, gives the
    dataset back. *)
Lemma select_vars_own_features (d : Dataset) :
  valid_dataset d = true ->
  has_dup (var_names (var d)) = false ->
  select_vars d (var_names (var d)) = Ok d.
Proof.
  intros Hvalid Hdup.
  destruct (valid_dataset_parts _ Hvalid) as (Hx & _ & Hvar & _).
  unfold select_vars. rewrite Hdup, (positions_of_own_labels _ Hdup), bind_ret.
  destruct d as [x o [names cols] om u]. cbn [X obs var obsm uns var_names var_cols] in *.
  f_equal. f_equal.
  - unfold valid_x, n_vars in Hx. cbn [X var var_names] in Hx.
    destruct x as [|m|m|m]; cbn [x_matrix take_columns_x] in *; [reflexivity|..];
      apply andb_true_iff in Hx; destruct Hx as [Hx Hvm];
      apply andb_true_iff in Hx; destruct Hx as [_ Hnc];
      apply Nat.eqb_eq in Hnc; rewrite <- Hnc, (take_columns_all _ Hvm); reflexivity.
  - f_equal; [apply take_positions_all|].
    unfold valid_var in Hvar. cbn [var_cols var_names] in Hvar.
    apply andb_true_iff in Hvar. destruct Hvar as [Hlen _].
    clear Hvalid Hx Hdup.
    induction cols as [|[k c] cols IH]; simpl in *; [reflexivity|].
    apply andb_true_iff in Hlen. destruct Hlen as [Hc Hlen]. apply Nat.eqb_eq in Hc.
    rewrite (IH Hlen). f_equal. destruct c as [dt cells]. simpl in *.
    f_equal. f_equal. rewrite <- Hc. apply take_positions_all.
Qed.

Lemma filter_all {A} (p : A -> bool) (l : list A) :
  (forall x, In x l -> p x = true) -> filter p l = l.
Proof.
  induction l as [|x l IH]; simpl; intros H; [reflexivity|].
  rewrite (H x (or_introl eq_refl)), IH; auto.
Qed.

(** X8.  Intersecting is idempotent: when the datasets at the paths are
    valid and already share one sequence of feature labels, free of
    repetitions, [intersect_features] hands each of them to the writer
    unchanged, under the name [intersect-] followed by the base name of the
    path without its extension. *)
Theorem intersect_features_idempotent :
  forall (st : store) (paths : list string) (ds : list Dataset) (ids : list string),
    paths <> [] ->
    has_dup ids = false ->
    Forall2 (fun p d => read_var_index st p = Ok ids
                        /\ read_anndata st p = Ok d
                        /\ var_names (var d) = ids
                        /\ valid_dataset d = true) paths ds ->
    get_feature_intersection st paths = Ok ids
    /\ intersect_features st paths
       = Ok (map (fun pd : string * Dataset =>
                    (("intersect-" ++ fst (PyStr.splitext (PyStr.basename (fst pd))))%string,
                     snd pd))
                 (combine paths ds)).
Proof.
  intros st paths ds ids Hne Hdup Hall.
  assert (Hget : get_feature_intersection st paths = Ok ids).
  { destruct Hall as [|p d paths' ds' (Hp & _) Hrest]; [congruence|].
    rewrite (intersection_is_filter st (p :: paths') ids
               (map (fun _ => ids) ds')).
    - f_equal. apply filter_all. intros s Hs.
      apply forallb_forall. intros o Ho. apply in_map_iff in Ho.
      destruct Ho as (_ & <- & _). now apply mem_In.
    - constructor; [exact Hp|]. clear Hne Hp.
      induction Hrest as [|p' d' paths'' ds'' (Hp' & _) _ IH]; simpl; constructor; auto.
    - constructor; [exact Hdup|]. apply Forall_forall. intros o Ho.
      apply in_map_iff in Ho. destruct Ho as (_ & <- & _). exact Hdup. }
  split; [exact Hget|].
  unfold intersect_features. rewrite Hget, bind_ret. clear Hne Hget.
  induction Hall as [|p d paths' ds' (_ & Hr & Hn & Hv) _ IH]; [reflexivity|].
  cbn [mapM combine map fst snd]. rewrite Hr, bind_ret.
  rewrite <- Hn at 1.
  rewrite (select_vars_own_features d Hv) by (rewrite Hn; exact Hdup).
  rewrite !bind_ret, IH, bind_ret. reflexivity.
Qed.

Lemma intersect_features_idempotent_witness :
  let st : store := fun p =>
    if String.eqb p "x/a.zarr" then Some (ZarrStore (features_dataset ["g2"; "g3"] [2; 3]))
    else if String.eqb p "b.h5ad" then Some (H5adFile (features_dataset ["g2"; "g3"] [4; 5]))
    else None in
  get_feature_intersection st ["x/a.zarr"; "b.h5ad"] = Ok ["g2"; "g3"]
  /\ intersect_features st ["x/a.zarr"; "b.h5ad"]
     = Ok [("intersect-a", features_dataset ["g2"; "g3"] [2; 3]);
           ("intersect-b", features_dataset ["g2"; "g3"] [4; 5])].
Proof.
  intros st.
  apply (intersect_features_idempotent st ["x/a.zarr"; "b.h5ad"]
           [features_dataset ["g2"; "g3"] [2; 3]; features_dataset ["g2"; "g3"] [4; 5]]
           ["g2"; "g3"]).
  - discriminate.
  - reflexivity.
  - repeat constructor.
Defined.

(** ** Paths and addresses *)

Lemma append_empty_r (s : string) : (s ++ "")%string = s.
Proof. induction s; simpl; congruence. Qed.

Lemma append_assoc_string (a b c : string) :
  ((a ++ b) ++ c)%string = (a ++ (b ++ c))%string.
Proof. induction a; simpl; congruence. Qed.

Lemma split_aux_nonempty (sep : ascii) (cur s : string) :
  PyStr.split_aux sep cur s <> [].
Proof.
  revert cur. induction s as [|a s IH]; intros cur; simpl; [discriminate|].
  destruct (Ascii.eqb a sep); [discriminate | apply IH].
Qed.

(** The last component of a split is what follows the last separator. *)
Lemma last_split_aux (sep : ascii) (cur s : string) :
  PyStr.last_item (PyStr.split_aux sep cur s) =
  match PyStr.rfind sep s with
  | Some i => PyStr.drop (S i) s
  | None => (PyStr.rev_string cur ++ s)%string
  end.
Proof.
  unfold PyStr.last_item. revert cur. induction s as [|a s IH]; intros cur.
  - simpl. now rewrite append_empty_r.
  - cbn [PyStr.split_aux PyStr.rfind].
    destruct (Ascii.eqb a sep) eqn:E.
    + pose proof (split_aux_nonempty sep EmptyString s) as Hne.
      specialize (IH EmptyString).
      destruct (PyStr.split_aux sep EmptyString s) as [|x l] eqn:Es; [congruence|].
      change (List.last (PyStr.rev_string cur :: x :: l) EmptyString)
        with (List.last (x :: l) EmptyString).
      rewrite IH. destruct (PyStr.rfind sep s); reflexivity.
    + rewrite IH. destruct (PyStr.rfind sep s); [reflexivity|].
      simpl. now rewrite append_assoc_string.
Qed.

Lemma drop_S (i : nat) (s : string) :
  PyStr.drop (S i) s = PyStr.drop 1 (PyStr.drop i s).
Proof.
  revert s. induction i as [|i IH]; intros s.
  - reflexivity.
  - destruct s as [|a s]; [reflexivity|].
    change (PyStr.drop (S (S i)) (String a s)) with (PyStr.drop (S i) s).
    change (PyStr.drop (S i) (String a s)) with (PyStr.drop i s).
    apply IH.
Qed.

(** A path with the extension [.zarr] has [zarr] after its last dot. *)
Lemma splitext_zarr_last_component (path : string) :
  snd (PyStr.splitext path) = ".zarr" ->
  PyStr.last_item (PyStr.split "." path) = "zarr".
Proof.
  unfold PyStr.splitext, PyStr.split. rewrite last_split_aux.
  destruct (PyStr.rfind "." path) as [dot|]; [|discriminate].
  destruct (_ && _); simpl snd; [|discriminate].
  intros H. rewrite drop_S, H. reflexivity.
Qed.

(** A zarr store opens alike in both modes when it is there. *)
Lemma open_zarr_ok (st : store) (path : string) (mode : zarr_mode) (d : Dataset) :
  open_zarr st path mode = Ok d <-> st path = Some (ZarrStore d).
Proof.
  unfold open_zarr. destruct (st path) as [[d0|d0|]|]; destruct mode;
    split; intros H; inversion H; reflexivity.
Qed.

(** X9.  The two readers choose the container format by different tests
    ([os.path.splitext] in [read_anndata], the text after the last dot in
    [get_feature_intersection]); on every path that has the extension [.zarr]
    or does not end in [zarr] after its last dot, whenever one of them reads
    the path the other reads it too, and the labels that enter the
    intersection are the feature labels of the dataset [read_anndata]
    returns.  (Where they fail, they need not fail alike.) *)
Theorem readers_agree :
  forall (st : store) (path : string),
    snd (PyStr.splitext path) = ".zarr"
    \/ PyStr.last_item (PyStr.split "." path) <> "zarr" ->
    (forall d, read_anndata st path = Ok d ->
               read_var_index st path = Ok (var_names (var d)))
    /\ (forall idx, read_var_index st path = Ok idx ->
                    exists d, read_anndata st path = Ok d /\ var_names (var d) = idx).
Proof.
  intros st path H. unfold read_var_index, read_anndata.
  destruct H as [H|H].
  - rewrite (splitext_zarr_last_component _ H), H.
    change (String.eqb ".zarr" ".zarr") with true.
    change (String.eqb "zarr" "zarr") with true. cbv iota. split.
    + intros d Hd. apply open_zarr_ok in Hd.
      rewrite (proj2 (open_zarr_ok st path ModeR d) Hd). reflexivity.
    + intros idx Hi. apply bind_ok in Hi. destruct Hi as (z & Hz & Hi).
      inversion Hi; subst idx. exists z. split; [|reflexivity].
      apply open_zarr_ok in Hz. now apply open_zarr_ok.
  - assert (E1 : String.eqb (PyStr.last_item (PyStr.split "." path)) "zarr" = false)
      by now apply String.eqb_neq.
    assert (E2 : String.eqb (snd (PyStr.splitext path)) ".zarr" = false).
    { apply String.eqb_neq. intros E. apply H.
      now apply splitext_zarr_last_component. }
    rewrite E1, E2. split.
    + intros d Hd. rewrite Hd. reflexivity.
    + intros idx Hi. apply bind_ok in Hi. destruct Hi as (f & Hf & Hi).
      inversion Hi; subst idx. eauto.
Qed.

Lemma readers_agree_witness :
  read_var_index two_files "a.zarr" = Ok ["g1"; "g2"; "g3"]
  /\ exists d, read_anndata two_files "out/b.h5ad" = Ok d
               /\ var_names (var d) = ["g2"; "g3"; "g4"].
Proof.
  split.
  - apply (proj1 (readers_agree two_files "a.zarr" (or_introl eq_refl))
             (features_dataset ["g1"; "g2"; "g3"] [1; 2; 3])).
    reflexivity.
  - assert (H : PyStr.last_item (PyStr.split "." "out/b.h5ad") <> "zarr")
      by (vm_compute; discriminate).
    exact (proj2 (readers_agree two_files "out/b.h5ad" (or_intror H))
             ["g2"; "g3"; "g4"] eq_refl).
Defined.

(** A zarr store in a directory entry named [.zarr] is read by the
    intersection but not by [read_anndata]. *)
Lemma readers_disagree_on_dotfile :
  let st : store := fun p =>
    if String.eqb p "data/.zarr"
    then Some (ZarrStore (features_dataset ["g1"] [1])) else None in
  read_var_index st "data/.zarr" = Ok ["g1"]
  /\ read_anndata st "data/.zarr" = Err OSError.
Proof. split; reflexivity. Qed.

Lemma rfind_none_cons (sep a : ascii) (s : string) :
  PyStr.rfind sep (String a s) = None ->
  Ascii.eqb a sep = false /\ PyStr.rfind sep s = None.
Proof.
  simpl. destruct (PyStr.rfind sep s); [discriminate|].
  destruct (Ascii.eqb a sep); [discriminate | auto].
Qed.

(** Splitting a text whose first component [key] is free of the separator. *)
Lemma split_aux_key (sep : ascii) (cur key : string) :
  PyStr.rfind sep key = None ->
  PyStr.split_aux sep cur key = [(PyStr.rev_string cur ++ key)%string]
  /\ forall tail,
      PyStr.split_aux sep cur (key ++ String sep tail)
      = (PyStr.rev_string cur ++ key)%string :: PyStr.split_aux sep EmptyString tail.
Proof.
  revert cur. induction key as [|a key IH]; intros cur H.
  - simpl. rewrite Ascii.eqb_refl, append_empty_r. auto.
  - apply rfind_none_cons in H. destruct H as [Ha Hk].
    destruct (IH (String a cur) Hk) as [IH1 IH2].
    cbn [PyStr.split_aux append]. rewrite Ha.
    simpl PyStr.rev_string in IH1, IH2. rewrite append_assoc_string in IH1, IH2.
    split; [exact IH1 | exact IH2].
Qed.

(** The component after the first slash of an address with the given
    prefix. *)
Lemma address_key (key rest : string) :
  PyStr.rfind "/" key = None ->
  rest = EmptyString \/ (exists tail, rest = String "/" tail) ->
  PyStr.item (PyStr.split "/" ("obs/" ++ key ++ rest)) 1 = Ok key
  /\ PyStr.item (PyStr.split "/" ("obsm/" ++ key ++ rest)) 1 = Ok key.
Proof.
  intros Hk Hrest.
  destruct (split_aux_key "/" EmptyString key Hk) as [H1 H2].
  simpl PyStr.rev_string in H1, H2. simpl append in H1, H2.
  unfold PyStr.split. cbn [append PyStr.split_aux]. simpl Ascii.eqb. cbv iota.
  simpl PyStr.rev_string.
  destruct Hrest as [->|(tail & ->)].
  - rewrite append_empty_r, H1. auto.
  - rewrite H2. auto.
Qed.

Lemma startswith_obs (s : string) :
  PyStr.startswith ("obs/" ++ s) "obs/" = true
  /\ PyStr.startswith ("obsm/" ++ s) "obs/" = false
  /\ PyStr.startswith ("obsm/" ++ s) "obsm/" = true.
Proof.
  unfold PyStr.startswith. simpl. destruct s; auto.
Qed.

(** X10.  In an address [obs/<key>] or [obsm/<key>] that does not name a
    companion file, the column or obsm key looked up is the text between the
    first and the second slash: everything from a second slash on is ignored,
    so [obs/<key>/<tail>] behaves exactly as [obs/<key>], and a column or key
    whose own name contains a slash cannot be addressed. *)
Theorem concat_features_address_key :
  forall (st : store) (h : heap) (r : loc) (adata : Dataset) (key tail : string),
    deref h r = Some adata ->
    PyStr.rfind "/" key = None ->
    (forall a, In a ["obs/" ++ key; "obs/" ++ key ++ "/" ++ tail;
                     "obsm/" ++ key; "obsm/" ++ key ++ "/" ++ tail]%string ->
               PyStr.endswith a ".h5ad" && isfile st a = false) ->
    concat_features st h (Obj r) ("obs/" ++ key)
    = (d <- concat_matrix_from_obs adata key "gene" None ;; Ok (alloc h d))
    /\ concat_features st h (Obj r) ("obs/" ++ key ++ "/" ++ tail)
       = concat_features st h (Obj r) ("obs/" ++ key)
    /\ concat_features st h (Obj r) ("obsm/" ++ key)
       = (d <- concat_matrix_from_obsm adata key "gene" None ;; Ok (alloc h d))
    /\ concat_features st h (Obj r) ("obsm/" ++ key ++ "/" ++ tail)
       = concat_features st h (Obj r) ("obsm/" ++ key).
Proof.
  intros st h r adata key tail Hr Hk Hfile.
  assert (F1 := Hfile _ (or_introl eq_refl)).
  assert (F2 := Hfile _ (or_intror (or_introl eq_refl))).
  assert (F3 := Hfile _ (or_intror (or_intror (or_introl eq_refl)))).
  assert (F4 := Hfile _ (or_intror (or_intror (or_intror (or_introl eq_refl))))).
  clear Hfile.
  destruct (address_key key EmptyString Hk (or_introl eq_refl)) as [K1 K2].
  destruct (address_key key (String "/" tail) Hk (or_intror (ex_intro _ tail eq_refl)))
    as [T1 T2].
  rewrite append_empty_r in K1, K2.
  assert (A1 : concat_features st h (Obj r) ("obs/" ++ key)
               = (d <- concat_matrix_from_obs adata key "gene" None ;; Ok (alloc h d))).
  { rewrite (concat_features_obj st h r adata _ Hr), F1.
    destruct (startswith_obs key) as (-> & _ & _). rewrite K1. reflexivity. }
  assert (A2 : concat_features st h (Obj r) ("obsm/" ++ key)
               = (d <- concat_matrix_from_obsm adata key "gene" None ;; Ok (alloc h d))).
  { rewrite (concat_features_obj st h r adata _ Hr), F3.
    destruct (startswith_obs key) as (_ & -> & ->). rewrite K2. reflexivity. }
  split; [exact A1|]. split; [|split; [exact A2|]].
  - rewrite A1, (concat_features_obj st h r adata _ Hr), F2.
    destruct (startswith_obs (key ++ "/" ++ tail)) as (-> & _ & _).
    change ("/" ++ tail)%string with (String "/" tail). rewrite T1. reflexivity.
  - rewrite A2, (concat_features_obj st h r adata _ Hr), F4.
    destruct (startswith_obs (key ++ "/" ++ tail)) as (_ & -> & ->).
    change ("/" ++ tail)%string with (String "/" tail). rewrite T2. reflexivity.
Qed.

Lemma concat_features_address_key_witness :
  let d := scenario_input "0" "1" "2" "g1" "g2"
             (Categorical ["A"; "B"] [Some "A"; Some "B"; Some "A"]) [] in
  concat_features (fun _ => None) [d] (Obj O) ("obs/" ++ "celltype" ++ "/" ++ "ignored")
  = concat_features (fun _ => None) [d] (Obj O) ("obs/" ++ "celltype").
Proof.
  intros d.
  refine (proj1 (proj2 (concat_features_address_key (fun _ => None) [d] O d
                          "celltype" "ignored" eq_refl eq_refl _))).
  intros a _. unfold isfile. apply andb_false_r.
Defined.

(** ** reindex_and_concat *)

Lemma concat_features_keeps_obs st h r adata features r' h' :
  deref h r = Some adata ->
  concat_features st h (Obj r) features = Ok (r', h') ->
  exists d', deref h' r' = Some d' /\ obs d' = obs adata.
Proof.
  intros Hr H.
  assert (G : forall d', obs d' = obs adata /\ obsm d' = obsm adata /\ uns d' = uns adata ->
                         Ok (alloc h d') = Ok (r', h') ->
                         exists d1, deref h' r' = Some d1 /\ obs d1 = obs adata).
  { intros d' Hside E.
    destruct (alloc_outcome h r adata d' r' h' Hr Hside E) as (_ & [(-> & ->)|G]).
    - eauto.
    - destruct G as (_ & d0 & d1 & H0 & H1 & Ho & _).
      rewrite Hr in H0. inversion H0; subst d0. eauto. }
  rewrite (concat_features_obj st h r adata features Hr) in H.
  destruct (PyStr.endswith features ".h5ad" && isfile st features).
  { apply bind_ok in H. destruct H as (d' & Hd & H).
    apply concat_matrix_from_cell2location_ok in Hd. destruct Hd as (t & Hd).
    exact (G d' (concat_matrices_sidecars _ _ _ _ _ _ Hd) H). }
  destruct (PyStr.startswith features "obs/").
  { apply bind_ok in H. destruct H as (key & _ & H).
    apply bind_ok in H. destruct H as (d' & Hd & H).
    apply concat_matrix_from_obs_ok in Hd. destruct Hd as (col & _ & Hd).
    exact (G d' (concat_matrices_sidecars _ _ _ _ _ _ Hd) H). }
  destruct (PyStr.startswith features "obsm/").
  { apply bind_ok in H. destruct H as (key & _ & H).
    apply bind_ok in H. destruct H as (d' & Hd & H).
    apply concat_matrix_from_obsm_ok in Hd. destruct Hd as (t & _ & Hd).
    exact (G d' (concat_matrices_sidecars _ _ _ _ _ _ Hd) H). }
  inversion H; subst. eauto.
Qed.

(** X11.  [reindex_and_concat] with an offset that is an int64 value, on a
    path that reads as [d]: if the conversion of the obs labels to int64
    raises (a label that is no integer, or one beyond int64) the call ends
    with that exception; otherwise, without features (or with an empty
    address) the dataset handed to the writer is [d] with the shifted
    labels, with features it is the result of [concat_features] on that
    reindexed dataset; in every case the output is named [reindexed-concat-]
    plus the base name of the path without extension, and its [obs] is that
    of [d] with the shifted labels. *)
Theorem reindex_and_concat_composes :
  forall (st : store) (path : string) (k : Z) (features : option string) (d : Dataset),
    read_anndata st path = Ok d ->
    PyInt.in_int64 k = true ->
    let out := ("reindexed-concat-" ++ fst (PyStr.splitext (PyStr.basename path)))%string in
    (forall e, shift_index (obs_names (obs d)) k = Err e ->
               reindex_and_concat st path k features = Err e)
    /\ (forall names,
           shift_index (obs_names (obs d)) k = Ok names ->
           let d1 := set_obs_names d names in
           (features = None \/ features = Some EmptyString ->
            reindex_and_concat st path k features = Ok (out, d1))
           /\ (forall f, features = Some f -> PyStr.truthy f = true ->
                         reindex_and_concat st path k features
                         = (rh <- concat_features st [d1] (Obj O) f ;;
                            adata <- of_option KeyError (deref (snd rh) (fst rh)) ;;
                            Ok (out, adata)))
           /\ (forall name d', reindex_and_concat st path k features = Ok (name, d') ->
                               name = out /\ obs d' = obs d1)).
Proof.
  intros st path k features d Hread Hk out.
  assert (Hre : reindex_anndata st [d] (Obj O) k
                = (names <- shift_index (obs_names (obs d)) k ;;
                   Ok (O, [set_obs_names d names]))).
  { now rewrite (reindex_anndata_obj st [d] O d k eq_refl). }
  unfold reindex_and_concat. rewrite Hread, bind_ret.
  change (alloc [] d) with (O, [d]). cbv beta iota. rewrite Hre.
  split.
  - intros e He. rewrite He. reflexivity.
  - intros names Hn. rewrite Hn, !bind_ret. cbn [fst snd].
    set (d1 := set_obs_names d names). fold out.
    assert (Hnone : (rh <- Ok (O, [d1]) ;;
                     adata <- of_option KeyError (deref (snd rh) (fst rh)) ;;
                     Ok (out, adata)) = Ok (out, d1)) by reflexivity.
    split; [|split].
    + intros [->| ->]; exact Hnone.
    + intros f -> Hf. rewrite Hf. reflexivity.
    + intros name d' H.
      destruct features as [f|]; [destruct (PyStr.truthy f) eqn:Hf|].
      * apply bind_ok in H. destruct H as ([r' h'] & Hc & H).
        apply bind_ok in H. destruct H as (a & Ha & H).
        inversion H; subst name d'; clear H. split; [reflexivity|].
        apply of_option_ok in Ha. cbn [fst snd] in Ha.
        destruct (concat_features_keeps_obs st [d1] O d1 f r' h' eq_refl Hc)
          as (d2 & Hd2 & Ho).
        rewrite Hd2 in Ha. inversion Ha; subst. exact Ho.
      * change (Ok (out, d1) = Ok (name, d')) in H. inversion H; subst. auto.
      * change (Ok (out, d1) = Ok (name, d')) in H. inversion H; subst. auto.
Qed.

Lemma reindex_and_concat_composes_witness :
  let st : store := fun p =>
    if String.eqb p "in/shard1.h5ad"
    then Some (H5adFile (scenario_input "0" "1" "2" "g1" "g2"
                           (Categorical ["A"; "B"] [Some "A"; Some "B"; Some "A"]) []))
    else None in
  reindex_and_concat st "in/shard1.h5ad" 1000 None
  = Ok ("reindexed-concat-shard1",
        scenario_input "1000" "1001" "1002" "g1" "g2"
          (Categorical ["A"; "B"] [Some "A"; Some "B"; Some "A"]) [])
  /\ reindex_and_concat st "in/shard1.h5ad" 1000 (Some "obs/celltype")
     = Ok ("reindexed-concat-shard1",
           scenario_output "1000" "1001" "1002" "g1" "g2"
             (Categorical ["A"; "B"] [Some "A"; Some "B"; Some "A"]) []).
Proof.
  intros st.
  pose (d := scenario_input "0" "1" "2" "g1" "g2"
               (Categorical ["A"; "B"] [Some "A"; Some "B"; Some "A"]) []).
  destruct (reindex_and_concat_composes st "in/shard1.h5ad" 1000 None d eq_refl eq_refl)
    as (_ & H).
  destruct (H ["1000"; "1001"; "1002"] eq_refl) as (H1 & _).
  destruct (reindex_and_concat_composes st "in/shard1.h5ad" 1000 (Some "obs/celltype")
              d eq_refl eq_refl) as (_ & H').
  destruct (H' ["1000"; "1001"; "1002"] eq_refl) as (_ & H2 & _).
  split.
  - exact (H1 (or_introl eq_refl)).
  - rewrite (H2 "obs/celltype" eq_refl eq_refl). reflexivity.
Defined.

(** ** The companion source: feature names and row pairing *)

Lemma replace_aux_skip (pat repl t s : string) :
  PyStr.replace_aux pat repl (String.length t) (t ++ s) = PyStr.replace_aux pat repl O s.
Proof.
  induction t as [|c t IH]; [reflexivity|]. exact IH.
Qed.

Lemma prefix_append (p s : string) : String.prefix p (p ++ s) = true.
Proof.
  induction p as [|c p IH]; simpl; [now destruct s|].
  destruct (ascii_dec c c); [exact IH | congruence].
Qed.

Lemma replace_at_prefix (c : ascii) (t repl s : string) :
  PyStr.replace (String c t) repl (String c t ++ s)
  = (repl ++ PyStr.replace (String c t) repl s)%string.
Proof.
  unfold PyStr.replace.
  change (String c t ++ s)%string with (String c (t ++ s)).
  cbn [PyStr.replace_aux].
  change (String c (t ++ s)) with (String c t ++ s)%string.
  rewrite prefix_append.
  change (String.length (String c t) - 1)%nat with (String.length t - 0)%nat.
  rewrite Nat.sub_0_r, replace_aux_skip. reflexivity.
Qed.

Lemma replace_no_occurrence (pat repl s : string) :
  occurs pat s = false -> PyStr.replace pat repl s = s.
Proof.
  unfold PyStr.replace. induction s as [|c s IH]; [reflexivity|].
  cbn [occurs PyStr.replace_aux]. rewrite orb_false_iff. intros [Hp Ho].
  rewrite Hp, (IH Ho). reflexivity.
Qed.

Lemma strip_prefixed (names : list string) :
  Forall (fun n => occurs abundance_prefix n = false) names ->
  map (PyStr.replace abundance_prefix EmptyString)
      (map (fun n => abundance_prefix ++ n)%string names) = names.
Proof.
  induction 1 as [|n names Hn _ IH]; [reflexivity|].
  cbn [map]. rewrite IH. f_equal.
  unfold abundance_prefix at 1 2. rewrite replace_at_prefix.
  apply (replace_no_occurrence abundance_prefix EmptyString n Hn).
Qed.

(** X12.  With a companion file as address, the features appended are the
    columns of the table [obsm["q05_cell_abundance_w_sf"]] of the file, with
    the text [q05cell_abundance_w_sf_] deleted: columns named
    [q05cell_abundance_w_sf_<name>], where [<name>] does not contain that
    text, are appended under [<name>], after the original features and in the
    order of the table. *)
Theorem companion_feature_names :
  forall (st : store) (h : heap) (r : loc) (adata : Dataset) (c2l_file : string)
         (f : Dataset) (df : dataframe) (names : list string) (r' : loc) (h' : heap),
    deref h r = Some adata ->
    PyStr.endswith c2l_file ".h5ad" = true ->
    st c2l_file = Some (H5adFile f) ->
    lookup default_q (obsm f) = Some (ObsmFrame df) ->
    df_columns df = map (fun n => abundance_prefix ++ n)%string names ->
    Forall (fun n => occurs abundance_prefix n = false) names ->
    concat_features st h (Obj r) c2l_file = Ok (r', h') ->
    exists d',
      deref h' r' = Some d'
      /\ var_names (var d') = var_names (var adata) ++ names.
Proof.
  intros st h r adata c2l_file f df names r' h' Hr Hext Hst Hq Hcols Hfree H.
  rewrite (concat_features_obj st h r adata c2l_file Hr), Hext in H.
  unfold isfile in H. rewrite Hst in H. cbn [andb] in H.
  apply bind_ok in H. destruct H as (d' & Hd & H).
  assert (E1 : r' = fst (alloc h d')) by (inversion H; reflexivity).
  assert (E2 : h' = snd (alloc h d')) by (inversion H; reflexivity).
  subst r' h'. exists d'. split; [apply deref_alloc_new|].
  unfold concat_matrix_from_cell2location, open_h5 in Hd.
  rewrite Hst, bind_ret in Hd.
  apply bind_ok in Hd. destruct Hd as (c & Hc & Hd).
  apply AnnData_ok in Hc. destruct Hc as (-> & _).
  cbn [sample_filter] in Hd. rewrite bind_ret in Hd. cbn [obsm] in Hd.
  rewrite Hq in Hd. cbn [bind of_option table_values table_columns] in Hd.
  change (PyStr.item (PyStr.split "_" default_q) 0) with (Ok "q05") in Hd.
  cbn [bind] in Hd.
  apply bind_ok in Hd. destruct Hd as (values32 & _ & Hd).
  destruct (concat_matrices_var _ _ _ _ _ _ Hd) as (df0 & Edf & _ & Hnames & _).
  inversion Edf; subst df0; clear Edf.
  rewrite Hnames. f_equal.
  change (map (PyStr.replace abundance_prefix EmptyString) (df_columns df) = names).
  rewrite Hcols. now apply strip_prefixed.
Qed.

Lemma companion_feature_names_witness :
  let adata := {| X := XDense {| ncols := 1; rows := [[1]; [2]; [3]; [4]] |};
                  obs := {| obs_names := ["0"; "1"; "2"; "3"]; obs_cols := [] |};
                  var := {| var_names := ["g1"]; var_cols := [] |};
                  obsm := []; uns := [] |} in
  let st : store := fun p =>
    if String.eqb p "c2l.h5ad" then Some (H5adFile companion_example) else None in
  exists r' h' d',
    concat_features st [adata] (Obj O) "c2l.h5ad" = Ok (r', h')
    /\ deref h' r' = Some d'
    /\ var_names (var d') = ["g1"] ++ ["T"; "B"].
Proof.
  intros adata st.
  destruct (concat_features st [adata] (Obj O) "c2l.h5ad") as [[r' h']|e] eqn:E;
    [|vm_compute in E; discriminate E].
  destruct (companion_feature_names st [adata] O adata "c2l.h5ad" companion_example
              (frame ["q05cell_abundance_w_sf_T"; "q05cell_abundance_w_sf_B"]
                     ["a"; "b"; "c"; "d"] [[7; 8]; [9; 10]; [11; 12]; [13; 14]])
              ["T"; "B"] r' h' eq_refl eq_refl eq_refl eq_refl eq_refl)
    as (d' & Hd & Hn).
  - repeat constructor.
  - exact E.
  - exists r', h', d'. auto.
Defined.

Lemma lookup_fits (names : list string) (q : string) (t : table)
      (om : list (string * table)) :
  forallb (fun kt => fits_obs names (snd kt)) om = true ->
  lookup q om = Some t -> shape0 t = List.length names.
Proof.
  intros Hal Hq. apply lookup_in in Hq. rewrite forallb_forall in Hal.
  specialize (Hal _ Hq). unfold fits_obs in Hal. apply andb_true_iff in Hal.
  destruct Hal as [Hal _]. now apply Nat.eqb_eq in Hal.
Qed.

Lemma Forall2_nth_error {A B} (P : A -> B -> Prop) (l : list A) (l' : list B)
      (i : nat) (a : A) :
  Forall2 P l l' -> nth_error l i = Some a ->
  exists b, nth_error l' i = Some b /\ P a b.
Proof.
  intros H. revert i. induction H as [|x y l l' Hxy _ IH]; intros [|i] Hi;
    simpl in Hi; try discriminate.
  - inversion Hi; subst. exists y. auto.
  - apply IH in Hi. exact Hi.
Qed.

(** float32 holds every integer below [2 ^ 24] in size. *)
Lemma float32_small (z : Z) : Z.abs z < 2 ^ 24 -> float32 z = Ok z.
Proof.
  intros H. unfold float32, round_float.
  apply Z.ltb_lt in H. rewrite H.
  apply Z.ltb_lt in H.
  assert (Hmax : 2 ^ 24 <= float32_max) by (apply Z.leb_le; reflexivity).
  assert (E : (Z.abs z <=? float32_max) = true) by (apply Z.leb_le; lia).
  rewrite E. reflexivity.
Qed.

Lemma mapM_float32_small (l : list Z) :
  Forall (fun z => Z.abs z < 2 ^ 24) l -> mapM float32 l = Ok l.
Proof.
  induction 1 as [|z l Hz _ IH]; [reflexivity|].
  simpl. rewrite (float32_small z Hz), bind_ret, IH. reflexivity.
Qed.

(** X13.  With a sample, the companion source can only succeed when the
    number of observations of the companion whose label in column
    [sample[0]] equals [sample[1]] is the number of observations of the
    primary dataset: the rows kept are paired with the observations by
    position, in the order of the companion file, names are not compared,
    and what is appended to a row is the row of the table cast to float32,
    which is the row itself when its entries are integers below [2 ^ 24] in
    size. *)
Theorem companion_sample_row_count :
  forall (st : store) (adata : Dataset) (c2l_file q : string) (sample : pyseq)
         (feature_name : string) (obs_feature_name : option string) (d' : Dataset),
    seq_truthy sample = true ->
    concat_matrix_from_cell2location st adata c2l_file q (Some sample) feature_name
                                     obs_feature_name = Ok d' ->
    exists f key value col df m m',
      open_h5 st c2l_file = Ok f
      /\ getitem sample 0 = Ok key
      /\ getitem sample 1 = Ok value
      /\ lookup key (obs_cols (obs f)) = Some col
      /\ lookup q (obsm f) = Some (ObsmFrame df)
      /\ n_obs adata = List.length (rows_labelled col value (obs_names (obs f)))
      /\ x_matrix (X adata) = Some m /\ x_matrix (X d') = Some m'
      /\ (forall i r s,
             nth_error (rows m) i = Some r ->
             nth_error (rows_labelled col value (df_rows df)) i = Some s ->
             exists s32,
               mapM float32 s = Ok s32
               /\ nth_error (rows m') i = Some (r ++ s32))
      /\ (forall i r s,
             nth_error (rows m) i = Some r ->
             nth_error (rows_labelled col value (df_rows df)) i = Some s ->
             Forall (fun z => Z.abs z < 2 ^ 24) s ->
             nth_error (rows m') i = Some (r ++ s)).
Proof.
  intros st adata c2l_file q sample feature_name obs_feature_name d' Ht H.
  unfold concat_matrix_from_cell2location in H.
  apply bind_ok in H. destruct H as (f & Hf & H).
  apply bind_ok in H. destruct H as (c & Hc & H).
  apply bind_ok in H. destruct H as (c' & Hc' & H).
  apply bind_ok in H. destruct H as (t' & Ht' & H).
  apply bind_ok in H. destruct H as (values & Hvalues & H).
  apply bind_ok in H. destruct H as (columns & Hcolumns & H).
  apply bind_ok in H. destruct H as (q0 & _ & H).
  apply bind_ok in H. destruct H as (values32 & H32 & H).
  unfold AnnData in Hc. cbn [x_matrix andb] in Hc.
  destruct (forallb _ (obsm f)) eqn:Hal; [|discriminate].
  inversion Hc; subst c; clear Hc.
  unfold sample_filter in Hc'. rewrite Ht in Hc'.
  apply bind_ok in Hc'. destruct Hc' as (key & Hkey & Hc').
  apply bind_ok in Hc'. destruct Hc' as (col & Hcol & Hc').
  apply bind_ok in Hc'. destruct Hc' as (value & Hvalue & Hc').
  apply of_option_ok in Hcol. cbn [obs] in Hcol.
  inversion Hc'; subst c'; clear Hc'.
  apply of_option_ok in Ht'. cbn [subset_obs obsm] in Ht'.
  rewrite (lookup_map_snd (select_table (eq_mask col value))) in Ht'.
  destruct (lookup q (obsm f)) as [t|] eqn:Hq; [|discriminate].
  cbn [option_map] in Ht'. inversion Ht'; subst t'; clear Ht'.
  destruct t as [m0|df]; [discriminate|].
  cbn [select_table table_values table_columns] in Hvalues, Hcolumns.
  inversion Hvalues; subst values; clear Hvalues.
  inversion Hcolumns; subst columns; clear Hcolumns.
  cbn [df_values rows df_rows] in H32.
  pose proof (lookup_fits _ _ _ _ Hal Hq) as Hshape. cbn [shape0] in Hshape.
  destruct (concat_matrices_ok _ _ _ _ _ _ H) as (Hn & _).
  cbn [shape0 df_rows] in Hn.
  destruct (concat_matrices_shape_of_result _ _ _ _ _ _ H)
    as (df0 & m & m' & Edf & Hm & Hm' & Hh & _ & _).
  inversion Edf; subst df0; clear Edf.
  apply hstack_inv in Hh. destruct Hh as (_ & ->).
  rewrite select_eq_mask in H32.
  assert (Hrow : forall i r s,
             nth_error (rows m) i = Some r ->
             nth_error (rows_labelled col value (df_rows df)) i = Some s ->
             exists s32,
               mapM float32 s = Ok s32
               /\ nth_error (zip_rows (rows m) values32) i = Some (r ++ s32)).
  { intros i r s Hr Hs. apply mapM_ok in H32.
    destruct (Forall2_nth_error _ _ _ i s H32 Hs) as (s32 & Hs32 & Hcast).
    exists s32. split; [exact Hcast|]. now apply nth_error_zip_rows. }
  exists f, key, value, col, df, m. eexists.
  split; [exact Hf|]. split; [exact Hkey|]. split; [exact Hvalue|].
  split; [exact Hcol|]. split; [exact Hq|].
  split; [|split; [exact Hm|split; [exact Hm'|split]]].
  - rewrite Hn, (mapM_length _ _ _ H32).
    rewrite <- (select_eq_mask col value (df_rows df)),
      <- (select_eq_mask col value (obs_names (obs f))).
    now apply select_length.
  - intros i r s Hr Hs. cbn [rows df_values df_rows]. now apply Hrow.
  - intros i r s Hr Hs Hsmall. cbn [rows df_values df_rows].
    destruct (Hrow i r s Hr Hs) as (s32 & Hcast & Hnth).
    rewrite (mapM_float32_small s Hsmall) in Hcast. inversion Hcast; subst s32.
    exact Hnth.
Qed.

Lemma companion_sample_row_count_witness :
  let adata := {| X := XDense {| ncols := 1; rows := [[1]; [2]; [3]] |};
                  obs := {| obs_names := ["0"; "1"; "2"]; obs_cols := [] |};
                  var := {| var_names := ["g1"]; var_cols := [] |};
                  obsm := []; uns := [] |} in
  let st : store := fun p =>
    if String.eqb p "c2l.h5ad" then Some (H5adFile companion_example) else None in
  exists d' m',
    concat_matrix_from_cell2location st adata "c2l.h5ad" default_q
      (Some (PTuple ["s"; "x"])) "gene" None = Ok d'
    /\ n_obs adata
       = List.length (rows_labelled
                        (StringColumn [Some "x"; Some "y"; Some "x"; Some "x"]) "x"
                        ["a"; "b"; "c"; "d"])
    /\ x_matrix (X d') = Some m'
    /\ nth_error (rows m') 1 = Some ([2] ++ [11; 12]).
Proof.
  intros adata st.
  destruct (concat_matrix_from_cell2location st adata "c2l.h5ad" default_q
              (Some (PTuple ["s"; "x"])) "gene" None) as [d'|e] eqn:E;
    [|vm_compute in E; discriminate E].
  destruct (companion_sample_row_count st adata "c2l.h5ad" default_q
              (PTuple ["s"; "x"]) "gene" None d' eq_refl E)
    as (f & key & value & col & df & m & m' & Hf & Hk & Hv & Hc & Hq & Hn & Hm & Hm'
        & _ & Hrow).
  inversion Hf; subst f. inversion Hk; subst key. inversion Hv; subst value.
  inversion Hc; subst col. inversion Hq; subst df. inversion Hm; subst m.
  exists d', m'. split; [reflexivity|]. split; [exact Hn|]. split; [exact Hm'|].
  apply (Hrow 1%nat [2] [11; 12]); [reflexivity | reflexivity |].
  repeat constructor.
Defined.

(** ** One-hot encoding *)

Lemma In_insert_sorted (x s : string) (l : list string) :
  In x (insert_sorted s l) <-> x = s \/ In x l.
Proof.
  induction l as [|y l IH]; simpl; [intuition|].
  destruct (String.compare s y) eqn:E; simpl.
  - apply String.compare_eq_iff in E. subst y. intuition.
  - intuition.
  - rewrite IH. intuition.
Qed.

Lemma insert_sorted_sorted (s : string) (l : list string) :
  Sorted.StronglySorted OrderedTypeEx.String_as_OT.lt l ->
  Sorted.StronglySorted OrderedTypeEx.String_as_OT.lt (insert_sorted s l).
Proof.
  induction 1 as [|y l Hl IH Hy]; simpl.
  - repeat constructor.
  - destruct (String.compare s y) eqn:E.
    + now constructor.
    + apply OrderedTypeEx.String_as_OT.cmp_lt in E.
      constructor; [now constructor|]. constructor; [exact E|].
      rewrite Forall_forall in Hy |- *. intros z Hz.
      eapply OrderedTypeEx.String_as_OT.lt_trans; [exact E | now apply Hy].
    + assert (Hlt : OrderedTypeEx.String_as_OT.lt y s).
      { apply OrderedTypeEx.String_as_OT.cmp_lt.
        change (OrderedTypeEx.String_as_OT.cmp y s) with (String.compare y s).
        rewrite String.compare_antisym, E. reflexivity. }
      constructor; [exact IH|].
      rewrite Forall_forall in Hy |- *. intros z Hz.
      apply In_insert_sorted in Hz. destruct Hz as [->|Hz]; auto.
Qed.

Lemma sorted_nodup (l : list string) :
  Sorted.StronglySorted OrderedTypeEx.String_as_OT.lt l -> has_dup l = false.
Proof.
  induction 1 as [|y l Hl IH Hy]; simpl; [reflexivity|].
  rewrite IH, orb_false_r.
  destruct (mem y l) eqn:E; [|reflexivity].
  apply mem_In in E. rewrite Forall_forall in Hy.
  exfalso. exact (OrderedTypeEx.String_as_OT.lt_not_eq _ _ (Hy _ E) eq_refl).
Qed.

Lemma levels_strings_sorted (v : list (option string)) :
  Sorted.StronglySorted OrderedTypeEx.String_as_OT.lt (levels (StringColumn v)).
Proof.
  simpl. induction (present v) as [|s l IH]; simpl; [constructor|].
  now apply insert_sorted_sorted.
Qed.

Lemma In_present (x : string) (v : list (option string)) :
  In x (present v) <-> In (Some x) v.
Proof.
  induction v as [|[s|] v IH]; simpl; [tauto| |].
  - rewrite IH. split; intros [H|H]; auto; [left; congruence | left; congruence].
  - rewrite IH. split; [auto | intros [H|H]; [discriminate | exact H]].
Qed.

Lemma In_levels_strings (x : string) (v : list (option string)) :
  In x (levels (StringColumn v)) <-> In (Some x) v.
Proof.
  rewrite <- In_present. simpl.
  induction (present v) as [|s l IH]; simpl; [tauto|].
  rewrite In_insert_sorted, IH. intuition.
Qed.

(** A label column that pandas could hold has distinct levels, and every
    label present is one of them. *)
Lemma levels_ok (c : label_column) :
  label_column_ok c = true ->
  has_dup (levels c) = false
  /\ forall s, In (Some s) (label_values c) -> mem s (levels c) = true.
Proof.
  destruct c as [cats v|v]; simpl label_column_ok; intros H.
  - apply andb_true_iff in H. destruct H as [Hd Hin].
    apply negb_true_iff in Hd. split; [exact Hd|].
    intros s Hs. simpl in *. rewrite forallb_forall in Hin.
    apply Hin. now apply In_present.
  - split; [apply sorted_nodup, levels_strings_sorted|].
    intros s Hs. apply mem_In. now apply In_levels_strings.
Qed.

Lemma zsum_indicator_cons (x : string) (lv : list string) (v : option string) :
  zsum (indicator_row (x :: lv) v)
  = (match v with
     | Some s => if String.eqb s x then 1 else 0
     | None => 0
     end) + zsum (indicator_row lv v).
Proof. destruct v; reflexivity. Qed.

Lemma zsum_indicator_absent (lv : list string) (s : string) :
  mem s lv = false -> zsum (indicator_row lv (Some s)) = 0.
Proof.
  induction lv as [|x lv IH]; [reflexivity|].
  cbn [mem]. rewrite orb_false_iff. intros [E Hm].
  rewrite zsum_indicator_cons, (IH Hm), E. reflexivity.
Qed.

Lemma zsum_indicator_present (lv : list string) (s : string) :
  has_dup lv = false -> mem s lv = true -> zsum (indicator_row lv (Some s)) = 1.
Proof.
  induction lv as [|x lv IH]; [discriminate|].
  cbn [has_dup mem]. rewrite orb_false_iff. intros [Hx Hd] Hm.
  rewrite zsum_indicator_cons.
  destruct (String.eqb s x) eqn:E.
  - apply String.eqb_eq in E. subst x.
    rewrite (zsum_indicator_absent lv s Hx). reflexivity.
  - cbn [orb] in Hm. rewrite (IH Hd Hm). reflexivity.
Qed.

Lemma indicator_row_bits (lv : list string) (v : option string) :
  Forall (fun z => z = 0 \/ z = 1) (indicator_row lv v)
  /\ List.length (indicator_row lv v) = List.length lv.
Proof.
  unfold indicator_row. split; [|apply length_map].
  apply Forall_forall. intros z Hz. apply in_map_iff in Hz.
  destruct Hz as (l & <- & _). destruct v as [s|]; [destruct (String.eqb s l)|]; auto.
Qed.

Lemma zsum_indicator_none (lv : list string) : zsum (indicator_row lv None) = 0.
Proof.
  unfold zsum, indicator_row. induction lv as [|x lv IH]; simpl; [reflexivity|].
  now rewrite IH.
Qed.

(** X14.  In a result of the obs source, the block appended to row [i] has
    one entry per level of the label column, each 0 or 1; it holds exactly
    one 1 when observation [i] has a label and only zeros when its label is
    missing.  The new features are the levels: for a column of strings the
    labels present, each once, in strictly increasing lexical order; for a
    Categorical all its categories in their stored order, used or not. *)
Theorem concat_matrix_from_obs_one_hot :
  forall (adata : Dataset) (obs_key feature_name : string)
         (obs_feature_name : option string) (d' : Dataset) (col : label_column),
    concat_matrix_from_obs adata obs_key feature_name obs_feature_name = Ok d' ->
    lookup obs_key (obs_cols (obs adata)) = Some col ->
    label_column_ok col = true ->
    PyStr.truthy (py_or obs_feature_name obs_key) = true ->
    exists m m',
      x_matrix (X adata) = Some m
      /\ x_matrix (X d') = Some m'
      /\ var_names (var d') = var_names (var adata) ++ levels col
      /\ (forall i r v,
             nth_error (rows m) i = Some r ->
             nth_error (label_values col) i = Some v ->
             exists block,
               nth_error (rows m') i = Some (r ++ block)
               /\ List.length block = List.length (levels col)
               /\ Forall (fun z => z = 0 \/ z = 1) block
               /\ zsum block = match v with Some _ => 1 | None => 0 end)
      /\ (forall vals, col = StringColumn vals ->
                       Sorted.StronglySorted OrderedTypeEx.String_as_OT.lt (levels col)
                       /\ forall x, In x (levels col) <-> In (Some x) vals)
      /\ (forall cats vals, col = Categorical cats vals -> levels col = cats).
Proof.
  intros adata obs_key feature_name obs_feature_name d' col H Hcol Hok Htruthy.
  apply concat_matrix_from_obs_ok in H. destruct H as (col0 & Hcol0 & H).
  rewrite Hcol in Hcol0. inversion Hcol0; subst col0; clear Hcol0.
  destruct (concat_matrices_shape_of_result _ _ _ _ _ _ H)
    as (df0 & m & m' & Edf & Hm & Hm' & Hh & _ & _).
  inversion Edf; subst df0; clear Edf.
  destruct (concat_matrices_var _ _ _ _ _ _ H) as (df0 & Edf & _ & Hnames & _).
  inversion Edf; subst df0; clear Edf.
  apply hstack_inv in Hh. destruct Hh as (_ & ->).
  destruct (levels_ok col Hok) as (Hdup & Hin).
  exists m. eexists. split; [exact Hm|]. split; [exact Hm'|].
  split; [|split; [|split]].
  - rewrite Hnames. unfold labels_frame. cbn [var_names]. rewrite Htruthy.
    reflexivity.
  - intros i r v Hr Hv. exists (indicator_row (levels col) v).
    destruct (indicator_row_bits (levels col) v) as (Hbits & Hlen).
    split; [|split; [exact Hlen|split; [exact Hbits|]]].
    + cbn [rows df_values get_dummies df_rows].
      apply nth_error_zip_rows; [exact Hr|]. now apply map_nth_error.
    + destruct v as [s|]; [|apply zsum_indicator_none].
      apply zsum_indicator_present; [exact Hdup|].
      apply Hin. eapply nth_error_In; exact Hv.
  - intros vals ->. split; [apply levels_strings_sorted|].
    intros x. apply In_levels_strings.
  - intros cats vals ->. reflexivity.
Qed.

Lemma concat_matrix_from_obs_one_hot_witness :
  let col := StringColumn [Some "B"; None; Some "A"] in
  let adata := scenario_input "0" "1" "2" "g1" "g2" col [] in
  exists d' m',
    concat_matrix_from_obs adata "celltype" "gene" None = Ok d'
    /\ x_matrix (X d') = Some m'
    /\ var_names (var d') = ["g1"; "g2"] ++ levels col
    /\ exists block, nth_error (rows m') 1 = Some ([3; 4] ++ block) /\ zsum block = 0.
Proof.
  intros col adata.
  destruct (concat_matrix_from_obs adata "celltype" "gene" None) as [d'|e] eqn:E;
    [|vm_compute in E; discriminate E].
  destruct (concat_matrix_from_obs_one_hot adata "celltype" "gene" None d' col E
              eq_refl eq_refl eq_refl)
    as (m & m' & Hm & Hm' & Hn & Hrow & _).
  inversion Hm; subst m.
  exists d', m'. split; [reflexivity|]. split; [exact Hm'|]. split; [exact Hn|].
  destruct (Hrow 1%nat [3; 4] None eq_refl eq_refl) as (block & Hb & _ & _ & Hs).
  exists block. auto.
Defined.

(** ** Arrays in obsm *)

(** X15.  The obsm source works only on a key that holds a DataFrame.  A
    key that is absent raises KeyError; on a key that holds a plain array
    (an embedding such as [X_umap]) the call never returns a dataset: it
    raises AttributeError when the array has one row per observation, as it
    has in every valid dataset, and AssertionError otherwise, whatever [X],
    [var] and the feature names are. *)
Theorem concat_matrix_from_obsm_array_rejected :
  forall (adata : Dataset) (obsm_key feature_name : string)
         (obsm_feature_name : option string),
    (lookup obsm_key (obsm adata) = None ->
     concat_matrix_from_obsm adata obsm_key feature_name obsm_feature_name
     = Err KeyError)
    /\ (forall a,
           lookup obsm_key (obsm adata) = Some (ObsmArray a) ->
           concat_matrix_from_obsm adata obsm_key feature_name obsm_feature_name
           = Err (if (n_obs adata =? nrows a)%nat then AttributeError
                  else AssertionError)
           /\ (valid_dataset adata = true ->
               concat_matrix_from_obsm adata obsm_key feature_name obsm_feature_name
               = Err AttributeError)).
Proof.
  intros adata obsm_key feature_name obsm_feature_name. split.
  - intros H. unfold concat_matrix_from_obsm. rewrite H. reflexivity.
  - intros a H.
    assert (E : concat_matrix_from_obsm adata obsm_key feature_name obsm_feature_name
                = Err (if (n_obs adata =? nrows a)%nat then AttributeError
                       else AssertionError)).
    { unfold concat_matrix_from_obsm. rewrite H. cbn [of_option bind].
      unfold concat_matrices. cbn [shape0].
      destruct (n_obs adata =? nrows a)%nat; cbn [negb]; [|reflexivity].
      destruct (is_sparse (X adata)); reflexivity. }
    split; [exact E|].
    intros Hv. rewrite E.
    destruct (valid_dataset_parts adata Hv) as (_ & _ & _ & Ho).
    rewrite forallb_forall in Ho.
    pose proof (Ho _ (lookup_in _ _ _ H)) as Ht.
    apply valid_table_shape0 in Ht. cbn [snd shape0] in Ht.
    rewrite Ht, Nat.eqb_refl. reflexivity.
Qed.

Lemma concat_matrix_from_obsm_array_rejected_witness :
  let umap := {| ncols := 2; rows := [[1; 2]; [3; 4]; [5; 6]] |} in
  let adata :=
    {| X := XDense {| ncols := 2; rows := [[1; 2]; [3; 4]; [5; 6]] |};
       obs := {| obs_names := ["0"; "1"; "2"]; obs_cols := [] |};
       var := {| var_names := ["g1"; "g2"]; var_cols := [] |};
       obsm := [("X_umap", ObsmArray umap)];
       uns := [] |} in
  valid_dataset adata = true
  /\ concat_matrix_from_obsm adata "X_umap" "gene" None = Err AttributeError
  /\ concat_matrix_from_obsm adata "X_pca" "gene" None = Err KeyError.
Proof.
  intros umap adata. split; [reflexivity|]. split.
  - exact (proj2 (proj2 (concat_matrix_from_obsm_array_rejected adata "X_umap" "gene" None)
                    umap eq_refl) eq_refl).
  - exact (proj1 (concat_matrix_from_obsm_array_rejected adata "X_pca" "gene" None)
             eq_refl).
Defined.
